(** * ship-fast: credit ledger, media pipeline and payment client

    A shallow embedding of
      - [credits-manager]  (deductCredits, refundCredits, getUserCredits,
                            addCredits, recordVideoCompletion),
      - [video-processor]  (downloadVideo, processKieVideoAndThumbnail,
                            saveVideoToDatabase, cleanupTempFiles,
                            completeVideoProcessing),
      - [r2-upload]        (uploadToR2),
      - [payment/config], [payment/client]
                           (getPaymentConfig, CreemPaymentClient.createCheckout).

    Conventions.
      - A JavaScript [number] holding a credit amount is a [Z]; a nullable
        integer column is an [option Z] and JavaScript's coercions of [null]
        are written out ([to_number], [or_zero]).
      - [async] functions are computations in the monad [Js]: they thread the
        [World] (database tables, temp files, the list of database calls
        issued) and either return normally or throw.
      - What the hosted services answer is not decided by this code, so it is
        an explicit argument: a [Backend] for one invocation of a ledger
        operation, a [Pipeline] for the media workflow, a [fetch] function for
        the payment gateway.
      - [console.*] output, the directories of the file system and the
        contents of the object store are not part of the model: no function
        here reads them back. *)

From Stdlib Require Import ZArith Lia Ascii String List Bool.
From stdpp Require Import gmap strings list pretty.
Import ListNotations.

Local Open Scope string_scope.
Local Open Scope Z_scope.
Local Open Scope list_scope.

(* ===================================================================== *)
(** ** JavaScript values and coercions                                    *)
(* ===================================================================== *)

(** [ToNumber(null)] is [0]: the value of a nullable integer inside
    [<], [+] and [-]. *)
Definition to_number (v : option Z) : Z :=
  match v with
  | Some n => n
  | None => 0
  end.

(** [v || 0] on a nullable integer: [null] and [0] are both falsy. *)
Definition or_zero (v : option Z) : Z :=
  match v with
  | Some n => if n =? 0 then 0 else n
  | None => 0
  end.

(** Truthiness of an optional string: [undefined], [null] and the empty
    string are falsy. *)
Definition truthy (s : option string) : bool :=
  match s with
  | Some s => negb (String.eqb s "")
  | None => false
  end.

(** [a || b] on optional strings. *)
Definition or_else (a b : option string) : option string :=
  if truthy a then a else b.

(** A string placed in a template literal; [undefined] prints as such. *)
Definition template (s : option string) : string :=
  match s with
  | Some s => s
  | None => "undefined"
  end.

(** [a || fallback] for a string with a default. *)
Definition or_default (a : option string) (fallback : string) : string :=
  if truthy a then template a else fallback.

(** What a [catch] clause receives. *)
Inductive JsValue : Type :=
| ErrorObject (message : string)
| OtherValue.

(** [error instanceof Error ? error.message : 'Unknown error'] *)
Definition error_message (e : JsValue) : string :=
  match e with
  | ErrorObject m => m
  | OtherValue => "Unknown error"
  end.

(** [haystack.includes(needle)] *)
Fixpoint includes (haystack needle : string) : bool :=
  String.prefix needle haystack ||
  match haystack with
  | EmptyString => false
  | String _ rest => includes rest needle
  end.

(* ===================================================================== *)
(** ** Tables                                                             *)
(* ===================================================================== *)

(** A row of [user_profiles]; the columns this code never names are kept in
    [other_columns]. *)
Record UserProfile : Type := {
  credits : option Z;
  total_credits_spent : option Z;
  total_videos_created : option Z;
  updated_at : option string;
  other_columns : gmap string string
}.

(** The object given to [.update(...)] on [user_profiles]: [None] is a key
    that is not in the object. *)
Record ProfilePatch : Type := {
  set_credits : option Z;
  set_total_credits_spent : option Z;
  set_total_videos_created : option Z;
  set_updated_at : option string
}.

Definition patch_column {A} (new : option A) (old : option A) : option A :=
  match new with
  | Some v => Some v
  | None => old
  end.

Definition apply_patch (patch : ProfilePatch) (row : UserProfile) : UserProfile :=
  {| credits := patch_column (set_credits patch) (credits row);
     total_credits_spent :=
       patch_column (set_total_credits_spent patch) (total_credits_spent row);
     total_videos_created :=
       patch_column (set_total_videos_created patch) (total_videos_created row);
     updated_at := patch_column (set_updated_at patch) (updated_at row);
     other_columns := other_columns row |}.

Inductive TransactionType : Type := usage | refund | purchase | bonus.

Definition TransactionType_eqb (a b : TransactionType) : bool :=
  match a, b with
  | usage, usage | refund, refund | purchase, purchase | bonus, bonus => true
  | _, _ => false
  end.

(** A row of [credit_transactions]. *)
Record CreditTransactionRow : Type := {
  user_id : string;
  video_id : option string;
  transaction_type : TransactionType;
  amount : Z;
  description : string;
  task_id : option string;
  created_at : string;
  check_in_id : option string;
  referral_id : option string;
  free_credits_type : option string
}.

Module Videos.
(** A row of [videos], as [saveVideoToDatabase] builds it, with the [id]
    the database gives it. *)
Record row : Type := {
  id : string;
  user_id : option string;
  task_id : string;
  title : string;
  description : string;
  prompt : string;
  triggers : list string;
  category : string;
  status : string;
  credit_cost : Z;
  duration : string;
  resolution : string;
  aspect_ratio : string;
  preview_url : string;
  download_url : string;
  thumbnail_url : string;
  file_size : Z;
  provider : string;
  generation_completed_at : string;
  created_at : string;
  updated_at : string
}.
End Videos.

(** The calls this code issues to the database, in the order issued. *)
Inductive DbCall : Type :=
| SelectProfile (id : string)
| UpdateProfile (id : string) (patch : ProfilePatch)
| InsertTransaction (row : CreditTransactionRow)
| UpdateTransactions (userId taskId videoId : string)
| InsertVideo (task : string).

Definition is_write (c : DbCall) : bool :=
  match c with
  | SelectProfile _ => false
  | _ => true
  end.

Record World : Type := {
  user_profiles : gmap string UserProfile;
  credit_transactions : list CreditTransactionRow;
  videos : list Videos.row;
  files : gset string;
  calls : list DbCall
}.

(* ===================================================================== *)
(** ** Computations                                                       *)
(* ===================================================================== *)

Inductive Completion (A : Type) : Type :=
| Normal (a : A)
| Thrown (e : JsValue).
Arguments Normal {A} a.
Arguments Thrown {A} e.

Definition Js (A : Type) : Type := World -> Completion A * World.

Definition ret {A} (a : A) : Js A := fun w => (Normal a, w).

Definition throw {A} (e : JsValue) : Js A := fun w => (Thrown e, w).

Definition bind {A B} (m : Js A) (k : A -> Js B) : Js B :=
  fun w =>
    match m w with
    | (Normal a, w') => k a w'
    | (Thrown e, w') => (Thrown e, w')
    end.

(** [try { body } catch (error) { handler }] *)
Definition try_catch {A} (body : Js A) (handler : JsValue -> Js A) : Js A :=
  fun w =>
    match body w with
    | (Normal a, w') => (Normal a, w')
    | (Thrown e, w') => handler e w'
    end.

Notation "x <- m ;; k" := (bind m (fun x => k))
  (at level 100, m at next level, right associativity).
Notation "m ;;; k" := (bind m (fun _ => k))
  (at level 100, right associativity).

Definition issue (c : DbCall) : Js unit :=
  fun w =>
    (Normal tt,
     {| user_profiles := user_profiles w;
        credit_transactions := credit_transactions w;
        videos := videos w;
        files := files w;
        calls := calls w ++ [c] |}).

Definition put_profiles (m : gmap string UserProfile) : Js unit :=
  fun w =>
    (Normal tt,
     {| user_profiles := m;
        credit_transactions := credit_transactions w;
        videos := videos w;
        files := files w;
        calls := calls w |}).

Definition put_transactions (l : list CreditTransactionRow) : Js unit :=
  fun w =>
    (Normal tt,
     {| user_profiles := user_profiles w;
        credit_transactions := l;
        videos := videos w;
        files := files w;
        calls := calls w |}).

Definition put_videos (l : list Videos.row) : Js unit :=
  fun w =>
    (Normal tt,
     {| user_profiles := user_profiles w;
        credit_transactions := credit_transactions w;
        videos := l;
        files := files w;
        calls := calls w |}).

Definition put_files (s : gset string) : Js unit :=
  fun w =>
    (Normal tt,
     {| user_profiles := user_profiles w;
        credit_transactions := credit_transactions w;
        videos := videos w;
        files := s;
        calls := calls w |}).

Definition get {A} (f : World -> A) : Js A := fun w => (Normal (f w), w).

(* ===================================================================== *)
(** ** The database client                                                *)
(* ===================================================================== *)

Record PostgrestError : Type := {
  message : string;
  code : string
}.

(** [{ data, error }] *)
Record Response (A : Type) : Type := {
  data : option A;
  error : option PostgrestError
}.
Arguments data {A} _.
Arguments error {A} _.

(** What the hosted database does during one invocation of a ledger
    operation: whether [createServiceClient] throws, and whether the select,
    the update and the insert are answered with an error.  The client itself
    reports failed requests in [error]; it does not throw. *)
Record Backend : Type := {
  client_failure : option JsValue;
  select_error : option PostgrestError;
  update_error : option PostgrestError;
  insert_error : option PostgrestError;
  (** the n-th [new Date().toISOString()] of the invocation *)
  toISOString : nat -> string
}.

Definition createServiceClient (db : Backend) : Js unit :=
  match client_failure db with
  | Some e => throw e
  | None => ret tt
  end.

(** The error [.single()] answers with when the filter selects no row. *)
Definition no_rows : PostgrestError :=
  {| message := "JSON object requested, multiple (or no) rows returned";
     code := "PGRST116" |}.

(** [.from('user_profiles').select(...).eq('id', userId).single()] *)
Definition select_profile (db : Backend) (userId : string)
  : Js (Response UserProfile) :=
  issue (SelectProfile userId) ;;;
  match select_error db with
  | Some e => ret {| data := None; error := Some e |}
  | None =>
      profiles <- get user_profiles ;;
      match profiles !! userId with
      | Some row => ret {| data := Some row; error := None |}
      | None => ret {| data := None; error := Some no_rows |}
      end
  end.

(** [.from('user_profiles').update(patch).eq('id', userId)] *)
Definition update_profile (db : Backend) (userId : string) (patch : ProfilePatch)
  : Js (option PostgrestError) :=
  issue (UpdateProfile userId patch) ;;;
  match update_error db with
  | Some e => ret (Some e)
  | None =>
      profiles <- get user_profiles ;;
      put_profiles (alter (apply_patch patch) userId profiles) ;;;
      ret None
  end.

(** [.from('credit_transactions').insert(row)] *)
Definition insert_transaction (db : Backend) (row : CreditTransactionRow)
  : Js (option PostgrestError) :=
  issue (InsertTransaction row) ;;;
  match insert_error db with
  | Some e => ret (Some e)
  | None =>
      rows <- get credit_transactions ;;
      put_transactions (rows ++ [row]) ;;;
      ret None
  end.

(** SQL [LIKE]: [%] stands for any run of characters, [_] for any one
    character, and a backslash takes the next character literally.  (A pattern
    that ends in a lone backslash is refused by the database; the patterns
    built below end in [%], so that case does not arise.) *)
Fixpoint like (pattern text : string) {struct pattern} : bool :=
  match pattern with
  | EmptyString =>
      match text with
      | EmptyString => true
      | String _ _ => false
      end
  | String p pattern' =>
      if Ascii.eqb p "%" then
        (fix any (text : string) : bool :=
           like pattern' text ||
           match text with
           | EmptyString => false
           | String _ text' => any text'
           end) text
      else if Ascii.eqb p "_" then
        match text with
        | EmptyString => false
        | String _ text' => like pattern' text'
        end
      else if Ascii.eqb p "\" then
        match pattern' with
        | EmptyString => false
        | String q pattern'' =>
            match text with
            | EmptyString => false
            | String c text' => Ascii.eqb q c && like pattern'' text'
            end
        end
      else
        match text with
        | EmptyString => false
        | String c text' => Ascii.eqb p c && like pattern' text'
        end
  end.

(** [.from('credit_transactions').update(...)] under the filters of
    [recordVideoCompletion]:
    [.eq('user_id', userId).eq('transaction_type', 'usage')
     .like('description', `%Task: ${taskId}%`).is('video_id', null)] *)
Definition completion_filter (userId taskId : string) (row : CreditTransactionRow)
  : bool :=
  String.eqb (user_id row) userId
  && TransactionType_eqb (transaction_type row) usage
  && like ("%Task: " +:+ taskId +:+ "%") (description row)
  && match video_id row with
     | None => true
     | Some _ => false
     end.

(** [{ video_id: videoId,
       description: `Video generation completed - Task: ${taskId}, Video: ${videoId}` }] *)
Definition completion_patch (taskId videoId : string) (row : CreditTransactionRow)
  : CreditTransactionRow :=
  {| user_id := user_id row;
     video_id := Some videoId;
     transaction_type := transaction_type row;
     amount := amount row;
     description :=
       "Video generation completed - Task: " +:+ taskId +:+ ", Video: " +:+ videoId;
     task_id := task_id row;
     created_at := created_at row;
     check_in_id := check_in_id row;
     referral_id := referral_id row;
     free_credits_type := free_credits_type row |}.

Definition tag_row (userId taskId videoId : string) (row : CreditTransactionRow)
  : CreditTransactionRow :=
  if completion_filter userId taskId row
  then completion_patch taskId videoId row
  else row.

Definition update_transactions (db : Backend) (userId taskId videoId : string)
  : Js (option PostgrestError) :=
  issue (UpdateTransactions userId taskId videoId) ;;;
  match update_error db with
  | Some e => ret (Some e)
  | None =>
      rows <- get credit_transactions ;;
      put_transactions (map (tag_row userId taskId videoId) rows) ;;;
      ret None
  end.

(* ===================================================================== *)
(** ** credits-manager                                                    *)
(* ===================================================================== *)

Module DeductResult.
Record t : Type := {
  success : bool;
  remainingCredits : option Z;
  error : option string
}.
Definition failure (msg : string) : t :=
  {| success := false; remainingCredits := None; error := Some msg |}.
End DeductResult.

Module CreditResult.
Record t : Type := {
  success : bool;
  newCredits : option Z;
  error : option string
}.
Definition failure (msg : string) : t :=
  {| success := false; newCredits := None; error := Some msg |}.
End CreditResult.

Module BalanceResult.
Record t : Type := {
  credits : Z;
  error : option string
}.
End BalanceResult.

Module CompletionResult.
Record t : Type := {
  success : bool;
  error : option string
}.
End CompletionResult.

(** [taskId ? `${description} - Task: ${taskId}` : description] *)
Definition task_description (description : string) (taskId : option string)
  : string :=
  if truthy taskId
  then description +:+ " - Task: " +:+ template taskId
  else description.

Definition deductCredits (db : Backend) (userId : string) (amount : Z)
    (description : string) (taskId : option string) : Js DeductResult.t :=
  try_catch
    (createServiceClient db ;;;
     response <- select_profile db userId ;;
     match error response with
     | Some _ => ret (DeductResult.failure "Failed to fetch user profile")
     | None =>
     match data response with
     | None => ret (DeductResult.failure "User profile not found")
     | Some profile =>
     if to_number (credits profile) <? amount
     then ret (DeductResult.failure "Insufficient credits")
     else
       let newCredits := to_number (credits profile) - amount in
       updateError <-
         update_profile db userId
           {| set_credits := Some newCredits;
              set_total_credits_spent :=
                Some (or_zero (total_credits_spent profile) + amount);
              set_total_videos_created :=
                Some (or_zero (total_videos_created profile) + 1);
              set_updated_at := None |} ;;
       match updateError with
       | Some _ => ret (DeductResult.failure "Failed to update credits")
       | None =>
           (* the answer of the insert is only logged *)
           insert_transaction db
             {| user_id := userId;
                video_id := None;
                transaction_type := usage;
                amount := - amount;
                description := task_description description taskId;
                task_id := taskId;
                created_at := toISOString db 0%nat;
                check_in_id := None;
                referral_id := None;
                free_credits_type := None |} ;;;
           ret {| DeductResult.success := true;
                  DeductResult.remainingCredits := Some newCredits;
                  DeductResult.error := None |}
       end
     end
     end)
    (fun error => ret (DeductResult.failure (error_message error))).

Definition refundCredits (db : Backend) (userId : string) (amount : Z)
    (description : string) (taskId videoId : option string)
  : Js CreditResult.t :=
  try_catch
    (createServiceClient db ;;;
     response <- select_profile db userId ;;
     match error response, data response with
     | None, Some profile =>
         let newCredits := to_number (credits profile) + amount in
         updateError <-
           update_profile db userId
             {| set_credits := Some newCredits;
                set_total_credits_spent :=
                  Some (Z.max 0 (or_zero (total_credits_spent profile) - amount));
                set_total_videos_created := None;
                set_updated_at := None |} ;;
         match updateError with
         | Some _ => ret (CreditResult.failure "Failed to refund credits")
         | None =>
             insert_transaction db
               {| user_id := userId;
                  video_id := or_else videoId None;
                  transaction_type := refund;
                  amount := amount;
                  description := task_description description taskId;
                  task_id := taskId;
                  created_at := toISOString db 0%nat;
                  check_in_id := None;
                  referral_id := None;
                  free_credits_type := None |} ;;;
             ret {| CreditResult.success := true;
                    CreditResult.newCredits := Some newCredits;
                    CreditResult.error := None |}
         end
     | _, _ => ret (CreditResult.failure "Failed to fetch user profile")
     end)
    (fun error => ret (CreditResult.failure (error_message error))).

Definition getUserCredits (db : Backend) (userId : string) : Js BalanceResult.t :=
  try_catch
    (createServiceClient db ;;;
     response <- select_profile db userId ;;
     match error response, data response with
     | None, Some profile =>
         ret {| BalanceResult.credits := or_zero (credits profile);
                BalanceResult.error := None |}
     | _, _ =>
         ret {| BalanceResult.credits := 0;
                BalanceResult.error := Some "Failed to fetch credits" |}
     end)
    (fun error =>
       ret {| BalanceResult.credits := 0;
              BalanceResult.error := Some (error_message error) |}).

(** [transactionType: 'bonus' | 'purchase' = 'bonus'] *)
Inductive AdditionType : Type := add_bonus | add_purchase.

Definition addition_type (transactionType : option AdditionType)
  : TransactionType :=
  match transactionType with
  | Some add_purchase => purchase
  | Some add_bonus | None => bonus
  end.

Record Metadata : Type := {
  checkInId : option string;
  referralId : option string;
  freeCreditsType : option string
}.

(** [...(metadata?.field && { column: metadata.field })] *)
Definition spread (metadata : option Metadata)
    (field : Metadata -> option string) : option string :=
  match metadata with
  | Some m => if truthy (field m) then field m else None
  | None => None
  end.

Definition addCredits (db : Backend) (userId : string) (amount : Z)
    (description : string) (transactionType : option AdditionType)
    (metadata : option Metadata) : Js CreditResult.t :=
  try_catch
    (createServiceClient db ;;;
     response <- select_profile db userId ;;
     match error response, data response with
     | None, Some profile =>
         let newCredits := to_number (credits profile) + amount in
         updateError <-
           update_profile db userId
             {| set_credits := Some newCredits;
                set_total_credits_spent := None;
                set_total_videos_created := None;
                set_updated_at := Some (toISOString db 0%nat) |} ;;
         match updateError with
         | Some _ => ret (CreditResult.failure "Failed to add credits")
         | None =>
             insert_transaction db
               {| user_id := userId;
                  video_id := None;
                  transaction_type := addition_type transactionType;
                  amount := amount;
                  description := description;
                  task_id := None;
                  created_at := toISOString db 1%nat;
                  check_in_id := spread metadata checkInId;
                  referral_id := spread metadata referralId;
                  free_credits_type := spread metadata freeCreditsType |} ;;;
             ret {| CreditResult.success := true;
                    CreditResult.newCredits := Some newCredits;
                    CreditResult.error := None |}
         end
     | _, _ => ret (CreditResult.failure "Failed to fetch user profile")
     end)
    (fun error => ret (CreditResult.failure (error_message error))).

Definition recordVideoCompletion (db : Backend) (userId taskId videoId : string)
  : Js CompletionResult.t :=
  try_catch
    (createServiceClient db ;;;
     updateError <- update_transactions db userId taskId videoId ;;
     match updateError with
     | Some _ =>
         ret {| CompletionResult.success := false;
                CompletionResult.error := Some "Failed to update transaction record" |}
     | None =>
         ret {| CompletionResult.success := true;
                CompletionResult.error := None |}
     end)
    (fun error =>
       ret {| CompletionResult.success := false;
              CompletionResult.error := Some (error_message error) |}).

(* ===================================================================== *)
(** ** r2-upload and video-processor                                      *)
(* ===================================================================== *)

(** What happens to the body of a response with status 200. *)
Inductive Transfer : Type :=
| Finished (downloadedBytes : Z)       (* ['finish'] on the write stream *)
| FileError (err : JsValue).           (* ['error'] on the write stream *)

(** What happens to one [client.get(url, ...)]. *)
Inductive Download : Type :=
| Responded (statusCode : Z) (statusMessage : string) (body : Transfer)
| RequestError (err : JsValue)         (* ['error'] on the request *)
| Timeout (error_event : bool).
  (* five minutes without activity; [error_event] tells whether the
     destroyed request goes on to emit ['error'] *)

Record VideoMetadata : Type := {
  taskId : string;
  userId : option string;
  originalPrompt : option string;
  triggers : option (list string);
  duration : option string;
  quality : option string;
  aspectRatio : option string
}.

(** The answer to [.from('videos').insert(videoData).select('id').single()]. *)
Inductive VideoInsert : Type :=
| Inserted (id : string)
| Refused (e : PostgrestError)
| NoData.

(** What the surroundings of the media workflow do during one run. *)
Record Pipeline : Type := {
  NODE_ENV : option string;
  cwd : string;
  R2_ENDPOINT : option string;
  (** [Date.now()] *)
  now : Z;
  (** the n-th [new Date().toISOString()] of [saveVideoToDatabase] *)
  clock : nat -> string;
  download : string -> Download;
  (** when both halves of a [Promise.all] reject: the second rejected first *)
  second_rejects_first : bool;
  (** [r2Client.send] for a key: [None] when the object was stored *)
  send : string -> option JsValue;
  (** [fs.unlinkSync] / [fs.unlink] fails on this path *)
  unlink_fails : string -> bool;
  (** [createClient()] throws *)
  catalog_client_failure : option JsValue;
  catalog_insert : VideoInsert;
  (** the database while [recordVideoCompletion] runs *)
  ledger : Backend
}.

(** [path.join(dir, name)], for a [name] with nothing to normalise. *)
Definition path_join (dir name : string) : string := dir +:+ "/" +:+ name.

(** [await Promise.all([first, second])]: both are started, and both have
    settled when the world is looked at again. *)
Definition promise_all {A B} (env : Pipeline) (first : Js A) (second : Js B)
  : Js (A * B) :=
  fun w =>
    let (a, w1) := first w in
    let (b, w2) := second w1 in
    match a, b with
    | Normal x, Normal y => (Normal (x, y), w2)
    | Thrown e, Normal _ => (Thrown e, w2)
    | Normal _, Thrown e => (Thrown e, w2)
    | Thrown e1, Thrown e2 =>
        (Thrown (if second_rejects_first env then e2 else e1), w2)
    end.

(** [fs.existsSync(path)] *)
Definition existsSync (path : string) : Js bool :=
  get (fun w => bool_decide (path ∈ files w)).

(** [fs.unlinkSync(path)] *)
Definition unlinkSync (env : Pipeline) (path : string) : Js unit :=
  if unlink_fails env path
  then throw (ErrorObject "EPERM: operation not permitted, unlink")
  else
    present <- get files ;;
    put_files (present ∖ {[ path ]}).

(** [fs.unlink(path, () => {})]: the outcome is ignored. *)
Definition unlink_ignoring (env : Pipeline) (path : string) : Js unit :=
  try_catch (unlinkSync env path) (fun _ => ret tt).

(** [fs.createWriteStream(path)]: the file is there from now on. *)
Definition createWriteStream (path : string) : Js unit :=
  present <- get files ;;
  put_files ({[ path ]} ∪ present).

Module DownloadResult.
Record t : Type := {
  filePath : string;
  fileSize : Z
}.
End DownloadResult.

Definition downloadVideo (env : Pipeline) (url fileName : string)
  : Js DownloadResult.t :=
  let tempDir :=
    if bool_decide (NODE_ENV env = Some "production")
    then "/tmp"
    else path_join (cwd env) "temp" in
  let filePath := path_join tempDir fileName in
  createWriteStream filePath ;;;
  match download env url with
  | Responded statusCode statusMessage body =>
      if negb (statusCode =? 200)
      then throw (ErrorObject
                    ("HTTP " +:+ pretty statusCode +:+ ": " +:+ statusMessage))
      else
        match body with
        | Finished downloadedBytes =>
            ret {| DownloadResult.filePath := filePath;
                   DownloadResult.fileSize := downloadedBytes |}
        | FileError err => unlink_ignoring env filePath ;;; throw err
        end
  | RequestError err => unlink_ignoring env filePath ;;; throw err
  | Timeout error_event =>
      (if error_event then unlink_ignoring env filePath else ret tt) ;;;
      throw (ErrorObject "Download timeout")
  end.

(** [uploadToR2(filePath, key, contentType)] *)
Definition uploadToR2 (env : Pipeline) (filePath key contentType : string)
  : Js string :=
  try_catch
    (readable <- existsSync filePath ;;
     if negb readable
     then throw (ErrorObject "ENOENT: no such file or directory, open")
     else
       match send env key with
       | Some e => throw e
       | None => ret (template (R2_ENDPOINT env) +:+ "/" +:+ key)
       end)
    (fun error => throw error).

Module Processing.
Record t : Type := {
  videoUrl : string;
  thumbnailUrl : string;
  videoFileSize : Z;
  thumbnailFileSize : Z;
  localVideoPath : string;
  localThumbnailPath : string
}.
End Processing.

(** [if (path && fs.existsSync(path)) { try { fs.unlinkSync(path) } catch {} }] *)
Definition cleanup_local (env : Pipeline) (path : option string) : Js unit :=
  match path with
  | Some p =>
      if truthy (Some p)
      then
        present <- existsSync p ;;
        if present then unlink_ignoring env p else ret tt
      else ret tt
  | None => ret tt
  end.

(** The [catch] block of [processKieVideoAndThumbnail], for the values its
    two local variables hold when control reaches it. *)
Definition cleanup_on_error {A} (env : Pipeline)
    (localVideoPath localThumbnailPath : option string) (error : JsValue)
  : Js A :=
  cleanup_local env localVideoPath ;;;
  cleanup_local env localThumbnailPath ;;;
  throw error.

(** The two locals are [null] until both downloads have resolved, and hold
    the two paths afterwards; the [try] block is written in these two
    stretches, each under the [catch] block with the values of its stretch.
    Since the [catch] block throws again, this is the one [try]/[catch] of
    the source. *)
Definition processKieVideoAndThumbnail (env : Pipeline)
    (kieVideoUrl kieThumbnailUrl : string) (metadata : VideoMetadata)
  : Js Processing.t :=
  let timestamp := pretty (now env) in
  let videoFileName :=
    "kie-video-" +:+ taskId metadata +:+ "-" +:+ timestamp +:+ ".mp4" in
  let thumbnailFileName :=
    "kie-thumbnail-" +:+ taskId metadata +:+ "-" +:+ timestamp +:+ ".jpg" in
  downloads <-
    try_catch
      (promise_all env
         (downloadVideo env kieVideoUrl videoFileName)
         (downloadVideo env kieThumbnailUrl thumbnailFileName))
      (cleanup_on_error env None None) ;;
  let videoDownload := fst downloads in
  let thumbnailDownload := snd downloads in
  let localVideoPath := DownloadResult.filePath videoDownload in
  let localThumbnailPath := DownloadResult.filePath thumbnailDownload in
  uploads <-
    try_catch
      (promise_all env
         (uploadToR2 env localVideoPath
            ("videos/video-" +:+ timestamp +:+ "-"
             +:+ String.substring 0 8 (taskId metadata) +:+ ".mp4")
            "video/mp4")
         (uploadToR2 env localThumbnailPath
            ("thumbnails/thumb-" +:+ timestamp +:+ "-"
             +:+ String.substring 0 8 (taskId metadata) +:+ ".jpg")
            "image/jpeg"))
      (cleanup_on_error env (Some localVideoPath) (Some localThumbnailPath)) ;;
  ret {| Processing.videoUrl := fst uploads;
         Processing.thumbnailUrl := snd uploads;
         Processing.videoFileSize := DownloadResult.fileSize videoDownload;
         Processing.thumbnailFileSize := DownloadResult.fileSize thumbnailDownload;
         Processing.localVideoPath := localVideoPath;
         Processing.localThumbnailPath := localThumbnailPath |}.

(** The row [saveVideoToDatabase] builds, under the id the database gives. *)
Definition videoData (env : Pipeline) (processingResult : Processing.t)
    (metadata : VideoMetadata) (id : string) : Videos.row :=
  {| Videos.id := id;
     Videos.user_id := or_else (userId metadata) None;
     Videos.task_id := taskId metadata;
     Videos.title := "ASMR Video " +:+ String.substring 0 10 (clock env 0%nat);
     Videos.description := "AI-generated ASMR video via KIE API";
     Videos.prompt := or_default (originalPrompt metadata) "Generated via KIE API";
     Videos.triggers :=
       match triggers metadata with
       | Some l => l
       | None => []
       end;
     Videos.category := "Object";
     Videos.status := "ready";
     Videos.credit_cost := 20;
     Videos.duration := or_default (duration metadata) "5s";
     Videos.resolution := or_default (quality metadata) "720p";
     Videos.aspect_ratio := or_default (aspectRatio metadata) "16:9";
     Videos.preview_url := Processing.videoUrl processingResult;
     Videos.download_url := Processing.videoUrl processingResult;
     Videos.thumbnail_url := Processing.thumbnailUrl processingResult;
     Videos.file_size := Processing.videoFileSize processingResult;
     Videos.provider := "kie-runway";
     Videos.generation_completed_at := clock env 1%nat;
     Videos.created_at := clock env 2%nat;
     Videos.updated_at := clock env 3%nat |}.

Definition saveVideoToDatabase (env : Pipeline) (processingResult : Processing.t)
    (metadata : VideoMetadata) : Js string :=
  try_catch
    (match catalog_client_failure env with
     | Some e => throw e
     | None => ret tt
     end ;;;
     issue (InsertVideo (taskId metadata)) ;;;
     match catalog_insert env with
     | Refused e =>
         throw (ErrorObject
                  ("Failed to save video to database: " +:+ message e))
     | NoData =>
         throw (ErrorObject "Failed to save video to database: No data returned")
     | Inserted id =>
         rows <- get videos ;;
         put_videos (rows ++ [videoData env processingResult metadata id]) ;;;
         ret id
     end)
    (fun error => throw error).

(** [filePaths.forEach(...)] of [cleanupTempFiles] *)
Fixpoint cleanupTempFiles (env : Pipeline) (filePaths : list string) : Js unit :=
  match filePaths with
  | [] => ret tt
  | filePath :: rest =>
      try_catch
        (present <- existsSync filePath ;;
         if present then unlinkSync env filePath else ret tt)
        (fun _ => ret tt) ;;;
      cleanupTempFiles env rest
  end.

Module Completed.
Record t : Type := {
  videoId : string;
  videoUrl : string;
  thumbnailUrl : string
}.
End Completed.

(** [processingResult] is [null] while [processKieVideoAndThumbnail] runs and
    holds its result afterwards: the [try] block is written in these two
    stretches, as above. *)
Definition completeVideoProcessing (env : Pipeline)
    (kieVideoUrl kieThumbnailUrl : string) (metadata : VideoMetadata)
  : Js Completed.t :=
  processingResult <-
    try_catch
      (processKieVideoAndThumbnail env kieVideoUrl kieThumbnailUrl metadata)
      (fun error => throw error) ;;
  try_catch
    (videoId <- saveVideoToDatabase env processingResult metadata ;;
     (if truthy (userId metadata)
      then
        (* a failed completion record is only logged *)
        recordVideoCompletion (ledger env) (template (userId metadata))
          (taskId metadata) videoId ;;;
        ret tt
      else ret tt) ;;;
     cleanupTempFiles env
       [Processing.localVideoPath processingResult;
        Processing.localThumbnailPath processingResult] ;;;
     ret {| Completed.videoId := videoId;
            Completed.videoUrl := Processing.videoUrl processingResult;
            Completed.thumbnailUrl := Processing.thumbnailUrl processingResult |})
    (fun error =>
       cleanupTempFiles env
         (List.filter (fun path => truthy (Some path))
            [Processing.localVideoPath processingResult;
             Processing.localThumbnailPath processingResult]) ;;;
       throw error).

(* ===================================================================== *)
(** ** payment/config and payment/client                                  *)
(* ===================================================================== *)

Module PaymentConfig.
Record t : Type := {
  apiKey : string;
  trialProductId : string;
  paymentUrl : string;
  basicProductId : string;
  proProductId : string
}.
End PaymentConfig.

(** [process.env] is a map from names to strings. *)
Definition getPaymentConfig (process_env : gmap string string) : PaymentConfig.t :=
  let env := fun name : string => process_env !! name in
  let paymentEnv := or_default (env "PAYMENT_ENV") "test" in
  if String.eqb paymentEnv "production"
  then
    {| PaymentConfig.apiKey :=
         or_default (or_else (env "CREEM_PROD_API_KEY") (env "CREEM_API_KEY")) "";
       PaymentConfig.trialProductId :=
         or_default (or_else (env "CREEM_PROD_TRIAL_PRODUCT_ID")
                       (env "CREEM_TRIAL_PRODUCT_ID")) "";
       PaymentConfig.basicProductId :=
         or_default (or_else (env "CREEM_PROD_BASIC_PRODUCT_ID")
                       (env "CREEM_BASIC_PRODUCT_ID")) "";
       PaymentConfig.proProductId :=
         or_default (or_else (env "CREEM_PROD_PRO_PRODUCT_ID")
                       (env "CREEM_PRO_PRODUCT_ID")) "";
       PaymentConfig.paymentUrl :=
         or_default (or_else (env "CREEM_PROD_PAYMENT_URL")
                       (env "CREEM_PAYMENT_URL")) "https://creem.io/checkout" |}
  else
    {| PaymentConfig.apiKey :=
         or_default (or_else (env "CREEM_TEST_API_KEY") (env "CREEM_API_KEY")) "";
       PaymentConfig.trialProductId :=
         or_default (or_else (env "CREEM_TEST_TRIAL_PRODUCT_ID")
                       (env "CREEM_TRIAL_PRODUCT_ID")) "";
       PaymentConfig.basicProductId :=
         or_default (or_else (env "CREEM_TEST_BASIC_PRODUCT_ID")
                       (env "CREEM_BASIC_PRODUCT_ID")) "";
       PaymentConfig.proProductId :=
         or_default (or_else (env "CREEM_TEST_PRO_PRODUCT_ID")
                       (env "CREEM_PRO_PRODUCT_ID")) "";
       PaymentConfig.paymentUrl :=
         or_default (or_else (env "CREEM_TEST_PAYMENT_URL")
                       (env "CREEM_PAYMENT_URL"))
           "https://test.creem.io/checkout" |}.

(** The values of the fields of a request body. *)
Inductive Json : Type :=
| JString (s : string)
| JNumber (n : Z)
| JObject (fields : list (string * string)).

Module CheckoutRequest.
Record t : Type := {
  product_id : string;
  request_id : option string;
  success_url : option string;
  cancel_url : option string;
  (** [customer?.email] *)
  customer_email : option string;
  metadata : option (list (string * string));
  discount_code : option string;
  units : option Z;
  locale : option string;
  plan_type : option string
}.
End CheckoutRequest.

(** The fields this client reads in the body of an answer. *)
Module Data.
Record t : Type := {
  id : option string;
  payment_url : option string;
  url : option string;
  checkout_url : option string;
  status : option string;
  message : option string;
  error : option string
}.
End Data.

Module Http.
Record request : Type := {
  url : string;
  method : string;
  headers : list (string * string);
  body : list (string * Json)
}.
Record response : Type := {
  status : Z;
  (** [await response.text()] *)
  text : string;
  (** the body parsed as JSON, or what the parser throws *)
  json : Completion Data.t
}.
(** [response.ok] *)
Definition ok (r : response) : bool := (200 <=? status r) && (status r <=? 299).
End Http.

Module CheckoutResponse.
Record t : Type := {
  checkout_id : option string;
  payment_url : string;
  status : string
}.
End CheckoutResponse.

Record CreemPaymentClient : Type := {
  apiKey : string;
  baseUrl : string
}.

(** [new CreemPaymentClient(apiKey?)] *)
Definition new_CreemPaymentClient (process_env : gmap string string)
    (key : option string) : Completion CreemPaymentClient :=
  let config := getPaymentConfig process_env in
  let this_apiKey := or_default key (PaymentConfig.apiKey config) in
  let this_baseUrl :=
    if includes (PaymentConfig.paymentUrl config) "test"
       || includes this_apiKey "test"
    then "https://test-api.creem.io/v1"
    else "https://api.creem.io/v1" in
  if negb (truthy (Some this_apiKey))
  then Thrown (ErrorObject "Creem API key is required")
  else Normal {| apiKey := this_apiKey; baseUrl := this_baseUrl |}.

(** [if (value) { requestBody[key] = value }] for a string. *)
Definition optional (key : string) (value : option string)
  : list (string * Json) :=
  if truthy value then [(key, JString (template value))] else [].

Definition requestBody (request : CheckoutRequest.t) : list (string * Json) :=
    ([("product_id", JString (CheckoutRequest.product_id request))]
     ++ optional "request_id" (CheckoutRequest.request_id request)
     ++ optional "success_url" (CheckoutRequest.success_url request)
     ++ (if truthy (CheckoutRequest.customer_email request)
         then [("customer",
                JObject
                  [("email", template (CheckoutRequest.customer_email request))])]
         else [])
     ++ match CheckoutRequest.metadata request with
        | Some (entry :: entries) => [("metadata", JObject (entry :: entries))]
        | _ => []
        end
     ++ optional "discount_code" (CheckoutRequest.discount_code request)
     ++ match CheckoutRequest.units request with
        | Some n => if n =? 0 then [] else [("units", JNumber n)]
        | None => []
        end
     ++ optional "locale" (CheckoutRequest.locale request)
     ++ optional "plan_type" (CheckoutRequest.plan_type request)).

(** [fetch] is what the gateway does with a request: it throws or it
    answers. *)
Definition createCheckout (process_env : gmap string string)
    (fetch : Http.request -> Completion Http.response)
    (this : CreemPaymentClient) (request : CheckoutRequest.t)
  : Completion CheckoutResponse.t :=
  if negb (truthy (Some (CheckoutRequest.product_id request)))
  then Thrown (ErrorObject "product_id is required")
  else
    match
      fetch {| Http.url := baseUrl this +:+ "/checkouts";
               Http.method := "POST";
               Http.headers :=
                 [("x-api-key", apiKey this);
                  ("Content-Type", "application/json")];
               Http.body := requestBody request |}
    with
    | Thrown e => Thrown e
    | Normal response =>
        if negb (Http.ok response)
        then
          let responseText := Http.text response in
          let errorData :=
            match Http.json response with
            | Normal parsed => parsed
            | Thrown _ =>
                {| Data.id := None;
                   Data.payment_url := None;
                   Data.url := None;
                   Data.checkout_url := None;
                   Data.status := None;
                   Data.message :=
                     Some (or_default (Some responseText) "Unknown error");
                   Data.error := None |}
            end in
          Thrown
            (ErrorObject
               ("Creem API error: " +:+ pretty (Http.status response) +:+ " - "
                +:+ or_default
                      (or_else (Data.message errorData) (Data.error errorData))
                      "Unknown error"))
        else
          match Http.json response with
          | Thrown e => Thrown e
          | Normal data =>
              let paymentUrl :=
                if truthy
                     (or_else
                        (or_else (Data.payment_url data) (Data.url data))
                        (Data.checkout_url data))
                then
                  template
                    (or_else
                       (or_else (Data.payment_url data) (Data.url data))
                       (Data.checkout_url data))
                else
                  let config := getPaymentConfig process_env in
                  PaymentConfig.paymentUrl config +:+ "/"
                  +:+ template (Data.id data) in
              Normal
                {| CheckoutResponse.checkout_id := Data.id data;
                   CheckoutResponse.payment_url := paymentUrl;
                   CheckoutResponse.status :=
                     or_default (Data.status data) "pending" |}
          end
    end.

(* ===================================================================== *)
(** ** Vocabulary of the statements                                       *)
(* ===================================================================== *)

(** The object [deductCredits] gives to [.update(...)]. *)
Definition deduct_patch (profile : UserProfile) (amount : Z) : ProfilePatch :=
  {| set_credits := Some (to_number (credits profile) - amount);
     set_total_credits_spent :=
       Some (or_zero (total_credits_spent profile) + amount);
     set_total_videos_created :=
       Some (or_zero (total_videos_created profile) + 1);
     set_updated_at := None |}.

(** The row [deductCredits] gives to [.insert(...)]. *)
Definition usage_row (db : Backend) (userId : string) (amount : Z)
    (description : string) (taskId : option string) : CreditTransactionRow :=
  {| user_id := userId;
     video_id := None;
     transaction_type := usage;
     amount := - amount;
     description := task_description description taskId;
     task_id := taskId;
     created_at := toISOString db 0%nat;
     check_in_id := None;
     referral_id := None;
     free_credits_type := None |}.

Definition deduct_success (remaining : Z) : DeductResult.t :=
  {| DeductResult.success := true;
     DeductResult.remainingCredits := Some remaining;
     DeductResult.error := None |}.

(** The object [refundCredits] gives to [.update(...)]. *)
Definition refund_patch (profile : UserProfile) (amount : Z) : ProfilePatch :=
  {| set_credits := Some (to_number (credits profile) + amount);
     set_total_credits_spent :=
       Some (Z.max 0 (or_zero (total_credits_spent profile) - amount));
     set_total_videos_created := None;
     set_updated_at := None |}.

(** The row [refundCredits] gives to [.insert(...)]. *)
Definition refund_row (db : Backend) (userId : string) (amount : Z)
    (description : string) (taskId videoId : option string)
  : CreditTransactionRow :=
  {| user_id := userId;
     video_id := or_else videoId None;
     transaction_type := refund;
     amount := amount;
     description := task_description description taskId;
     task_id := taskId;
     created_at := toISOString db 0%nat;
     check_in_id := None;
     referral_id := None;
     free_credits_type := None |}.

(** The object [addCredits] gives to [.update(...)]. *)
Definition addition_patch (db : Backend) (profile : UserProfile) (amount : Z)
  : ProfilePatch :=
  {| set_credits := Some (to_number (credits profile) + amount);
     set_total_credits_spent := None;
     set_total_videos_created := None;
     set_updated_at := Some (toISOString db 0%nat) |}.

(** The row [addCredits] gives to [.insert(...)]. *)
Definition addition_row (db : Backend) (userId : string) (amount : Z)
    (description : string) (transactionType : option AdditionType)
    (metadata : option Metadata) : CreditTransactionRow :=
  {| user_id := userId;
     video_id := None;
     transaction_type := addition_type transactionType;
     amount := amount;
     description := description;
     task_id := None;
     created_at := toISOString db 1%nat;
     check_in_id := spread metadata checkInId;
     referral_id := spread metadata referralId;
     free_credits_type := spread metadata freeCreditsType |}.

Definition credit_success (newCredits : Z) : CreditResult.t :=
  {| CreditResult.success := true;
     CreditResult.newCredits := Some newCredits;
     CreditResult.error := None |}.

(** A task id without the wildcards of [LIKE]. *)
Fixpoint literal (s : string) : bool :=
  match s with
  | EmptyString => true
  | String c s' =>
      negb (Ascii.eqb c "%") && negb (Ascii.eqb c "_") && negb (Ascii.eqb c "\")
      && literal s'
  end.

(** How [recordVideoCompletion] answers. *)
Definition completion_success : CompletionResult.t :=
  {| CompletionResult.success := true; CompletionResult.error := None |}.

Definition completion_failure (msg : string) : CompletionResult.t :=
  {| CompletionResult.success := false; CompletionResult.error := Some msg |}.

(** What one round of [cleanupTempFiles] does to the set of files. *)
Definition remove_file (env : Pipeline) (present : gset string) (path : string)
  : gset string :=
  if bool_decide (path ∈ present)
  then if unlink_fails env path then present else present ∖ {[ path ]}
  else present.

Definition with_files (w : World) (present : gset string) : World :=
  {| user_profiles := user_profiles w;
     credit_transactions := credit_transactions w;
     videos := videos w;
     files := present;
     calls := calls w |}.

(** The temp file [downloadVideo] writes for a file name. *)
Definition temp_path (env : Pipeline) (fileName : string) : string :=
  path_join
    (if bool_decide (NODE_ENV env = Some "production")
     then "/tmp"
     else path_join (cwd env) "temp")
    fileName.

Definition video_temp_path (env : Pipeline) (metadata : VideoMetadata) : string :=
  temp_path env
    ("kie-video-" +:+ taskId metadata +:+ "-" +:+ pretty (now env) +:+ ".mp4").

Definition thumbnail_temp_path (env : Pipeline) (metadata : VideoMetadata)
  : string :=
  temp_path env
    ("kie-thumbnail-" +:+ taskId metadata +:+ "-" +:+ pretty (now env) +:+ ".jpg").

(** The files there are once the two downloads have been started. *)
Definition downloaded (env : Pipeline) (metadata : VideoMetadata) (w : World)
  : gset string :=
  {[ thumbnail_temp_path env metadata ]}
  ∪ ({[ video_temp_path env metadata ]} ∪ files w).

(** The keys the two objects are stored under. *)
Definition video_key (env : Pipeline) (metadata : VideoMetadata) : string :=
  "videos/video-" +:+ pretty (now env) +:+ "-"
  +:+ String.substring 0 8 (taskId metadata) +:+ ".mp4".

Definition thumbnail_key (env : Pipeline) (metadata : VideoMetadata) : string :=
  "thumbnails/thumb-" +:+ pretty (now env) +:+ "-"
  +:+ String.substring 0 8 (taskId metadata) +:+ ".jpg".

(** The request [createCheckout] sends. *)
Definition checkout_request (this : CreemPaymentClient)
    (request : CheckoutRequest.t) : Http.request :=
  {| Http.url := baseUrl this +:+ "/checkouts";
     Http.method := "POST";
     Http.headers :=
       [("x-api-key", apiKey this); ("Content-Type", "application/json")];
     Http.body := requestBody request |}.

(** *** Sample data *)

Definition sample_clock (n : nat) : string :=
  match n with
  | O => "2025-03-01T10:00:00.000Z"
  | S _ => "2025-03-01T10:00:00.001Z"
  end.

(** A database that accepts every request. *)
Definition accepting : Backend :=
  {| client_failure := None;
     select_error := None;
     update_error := None;
     insert_error := None;
     toISOString := sample_clock |}.

Definition denied : PostgrestError :=
  {| message := "permission denied for table"; code := "42501" |}.

(** A database that refuses the update. *)
Definition refusing_update : Backend :=
  {| client_failure := None;
     select_error := None;
     update_error := Some denied;
     insert_error := None;
     toISOString := sample_clock |}.

(** A database that refuses the insert. *)
Definition refusing_insert : Backend :=
  {| client_failure := None;
     select_error := None;
     update_error := None;
     insert_error := Some denied;
     toISOString := sample_clock |}.

(** A database that refuses the select. *)
Definition refusing_select : Backend :=
  {| client_failure := None;
     select_error := Some denied;
     update_error := None;
     insert_error := None;
     toISOString := sample_clock |}.

Definition alice : UserProfile :=
  {| credits := Some 100;
     total_credits_spent := Some 40;
     total_videos_created := Some 2;
     updated_at := Some "2025-02-01T00:00:00.000Z";
     other_columns := {[ "email" := "alice@example.com" ]} |}.

Definition start : World :=
  {| user_profiles := {[ "u1" := alice ]};
     credit_transactions := [];
     videos := [];
     files := ∅;
     calls := [] |}.

(** Two charges for the same task, five minutes apart. *)
Definition first_charge : CreditTransactionRow :=
  {| user_id := "u1";
     video_id := None;
     transaction_type := usage;
     amount := - 30;
     description := "video gen - Task: task-1";
     task_id := Some "task-1";
     created_at := "2025-03-01T10:00:00.000Z";
     check_in_id := None;
     referral_id := None;
     free_credits_type := None |}.

Definition second_charge : CreditTransactionRow :=
  {| user_id := "u1";
     video_id := None;
     transaction_type := usage;
     amount := - 30;
     description := "video gen - Task: task-1";
     task_id := Some "task-1";
     created_at := "2025-03-01T10:05:00.000Z";
     check_in_id := None;
     referral_id := None;
     free_credits_type := None |}.

Definition charged_twice : World :=
  {| user_profiles := {[ "u1" := alice ]};
     credit_transactions := [first_charge; second_charge];
     videos := [];
     files := ∅;
     calls := [] |}.

(** A run in which the video is downloaded in full and the thumbnail URL
    answers 404. *)
Definition thumbnail_missing : Pipeline :=
  {| NODE_ENV := Some "production";
     cwd := "/app";
     R2_ENDPOINT := Some "https://cdn.example.com";
     now := 1700000000000;
     clock := fun _ => "2025-03-01T10:06:00.000Z";
     download :=
       fun url =>
         if String.eqb url "https://kie.example/out/video.mp4"
         then Responded 200 "OK" (Finished 52000)
         else Responded 404 "Not Found" (Finished 0);
     second_rejects_first := false;
     send := fun _ => None;
     unlink_fails := fun _ => false;
     catalog_client_failure := None;
     catalog_insert := Inserted "video-9";
     ledger := accepting |}.

(** A run in which every service answers well, except that the ledger
    refuses the update of [recordVideoCompletion]. *)
Definition tagging_refused : Pipeline :=
  {| NODE_ENV := Some "production";
     cwd := "/app";
     R2_ENDPOINT := Some "https://cdn.example.com";
     now := 1700000000000;
     clock := fun _ => "2025-03-01T10:06:00.000Z";
     download := fun _ => Responded 200 "OK" (Finished 52000);
     second_rejects_first := false;
     send := fun _ => None;
     unlink_fails := fun _ => false;
     catalog_client_failure := None;
     catalog_insert := Inserted "video-9";
     ledger := refusing_update |}.

(** A run in which every service answers well. *)
Definition all_well : Pipeline :=
  {| NODE_ENV := Some "production";
     cwd := "/app";
     R2_ENDPOINT := Some "https://cdn.example.com";
     now := 1700000000000;
     clock := fun _ => "2025-03-01T10:06:00.000Z";
     download := fun _ => Responded 200 "OK" (Finished 52000);
     second_rejects_first := false;
     send := fun _ => None;
     unlink_fails := fun _ => false;
     catalog_client_failure := None;
     catalog_insert := Inserted "video-9";
     ledger := accepting |}.

Definition task1 : VideoMetadata :=
  {| taskId := "task-1";
     userId := Some "u1";
     originalPrompt := None;
     triggers := None;
     duration := None;
     quality := None;
     aspectRatio := None |}.

(** A string between double quotes. *)
Definition quoted (s : string) : string :=
  String (Ascii.ascii_of_nat 34) s +:+ String (Ascii.ascii_of_nat 34) "".

(** A gateway that answers 200 with a body holding only an id. *)
Definition only_an_id : Data.t :=
  {| Data.id := Some "ch_123";
     Data.payment_url := None;
     Data.url := None;
     Data.checkout_url := None;
     Data.status := None;
     Data.message := None;
     Data.error := None |}.

Definition gateway (_ : Http.request) : Completion Http.response :=
  Normal {| Http.status := 200;
            Http.text := "{" +:+ quoted "id" +:+ ":" +:+ quoted "ch_123" +:+ "}";
            Http.json := Normal only_an_id |}.

Definition test_client : CreemPaymentClient :=
  {| apiKey := "creem_test_key"; baseUrl := "https://test-api.creem.io/v1" |}.

Definition basic_plan : CheckoutRequest.t :=
  {| CheckoutRequest.product_id := "prod_basic";
     CheckoutRequest.request_id := None;
     CheckoutRequest.success_url := None;
     CheckoutRequest.cancel_url := None;
     CheckoutRequest.customer_email := Some "alice@example.com";
     CheckoutRequest.metadata := None;
     CheckoutRequest.discount_code := None;
     CheckoutRequest.units := None;
     CheckoutRequest.locale := None;
     CheckoutRequest.plan_type := None |}.

(* ===================================================================== *)
(** ** payment/config and payment/client, the other entry points          *)
(* ===================================================================== *)

Definition getPaymentEnvironment (process_env : gmap string string) : string :=
  if bool_decide (process_env !! "PAYMENT_ENV" = Some "production")
  then "production"
  else "test".

Definition isProductionPayment (process_env : gmap string string) : bool :=
  String.eqb (getPaymentEnvironment process_env) "production".

(** [createSimpleCheckout(productId, requestId?, userEmail?)] *)
Definition createSimpleCheckout (process_env : gmap string string)
    (fetch : Http.request -> Completion Http.response)
    (this : CreemPaymentClient) (productId : string)
    (requestId userEmail : option string) : Completion CheckoutResponse.t :=
  createCheckout process_env fetch this
    {| CheckoutRequest.product_id := productId;
       CheckoutRequest.request_id := requestId;
       CheckoutRequest.success_url := None;
       CheckoutRequest.cancel_url := None;
       CheckoutRequest.customer_email :=
         if truthy userEmail then userEmail else None;
       CheckoutRequest.metadata := None;
       CheckoutRequest.discount_code := None;
       CheckoutRequest.units := None;
       CheckoutRequest.locale := None;
       CheckoutRequest.plan_type := None |}.

Module CheckoutOptions.
Record t : Type := {
  requestId : option string;
  successUrl : option string;
  userEmail : option string;
  metadata : option (list (string * string));
  discountCode : option string;
  units : option Z;
  locale : option string;
  planType : option string
}.
End CheckoutOptions.

(** [createCheckoutWithOptions(productId, options)] *)
Definition createCheckoutWithOptions (process_env : gmap string string)
    (fetch : Http.request -> Completion Http.response)
    (this : CreemPaymentClient) (productId : string)
    (options : CheckoutOptions.t) : Completion CheckoutResponse.t :=
  createCheckout process_env fetch this
    {| CheckoutRequest.product_id := productId;
       CheckoutRequest.request_id := CheckoutOptions.requestId options;
       CheckoutRequest.success_url := CheckoutOptions.successUrl options;
       CheckoutRequest.cancel_url := None;
       CheckoutRequest.customer_email :=
         if truthy (CheckoutOptions.userEmail options)
         then CheckoutOptions.userEmail options
         else None;
       CheckoutRequest.metadata := CheckoutOptions.metadata options;
       CheckoutRequest.discount_code := CheckoutOptions.discountCode options;
       CheckoutRequest.units := CheckoutOptions.units options;
       CheckoutRequest.locale := CheckoutOptions.locale options;
       CheckoutRequest.plan_type := CheckoutOptions.planType options |}.

(** The characters [URLSearchParams] writes as they are: ASCII letters and
    digits and [*], [-], [.], [_]. *)
Definition unreserved (c : ascii) : bool :=
  let n := nat_of_ascii c in
  ((48 <=? n)%nat && (n <=? 57)%nat)
  || ((65 <=? n)%nat && (n <=? 90)%nat)
  || ((97 <=? n)%nat && (n <=? 122)%nat)
  || (n =? 42)%nat || (n =? 45)%nat || (n =? 46)%nat || (n =? 95)%nat.

Definition hex_digit (n : nat) : ascii :=
  if (n <? 10)%nat then ascii_of_nat (48 + n) else ascii_of_nat (55 + n).

(** The [application/x-www-form-urlencoded] form of a string, taken as its
    bytes: a space becomes [+], every other byte that is not [unreserved]
    becomes [%] and two upper-case hexadecimal digits. *)
Fixpoint form_urlencode (s : string) : string :=
  match s with
  | EmptyString => EmptyString
  | String c rest =>
      if unreserved c then String c (form_urlencode rest)
      else if Ascii.eqb c " " then String "+" (form_urlencode rest)
      else
        String "%"
          (String (hex_digit (nat_of_ascii c / 16))
             (String (hex_digit (nat_of_ascii c mod 16))
                (form_urlencode rest)))
  end.

(** [params.toString()] *)
Fixpoint URLSearchParams_toString (params : list (string * string)) : string :=
  match params with
  | [] => ""
  | [(name, value)] => form_urlencode name +:+ "=" +:+ form_urlencode value
  | (name, value) :: rest =>
      form_urlencode name +:+ "=" +:+ form_urlencode value +:+ "&"
      +:+ URLSearchParams_toString rest
  end.

(** The parameters [getCheckoutStatus] appends. *)
Definition status_params (checkoutId : string) (successUrl : option string)
  : list (string * string) :=
  [("checkout_id", checkoutId)]
  ++ (if truthy successUrl then [("success_url", template successUrl)] else []).

(** [getCheckoutStatus(checkoutId, successUrl?)]: a GET, without a body. *)
Definition getCheckoutStatus
    (fetch : Http.request -> Completion Http.response)
    (this : CreemPaymentClient) (checkoutId : string)
    (successUrl : option string) : Completion Data.t :=
  match
    fetch {| Http.url :=
               baseUrl this +:+ "/checkouts?"
               +:+ URLSearchParams_toString (status_params checkoutId successUrl);
             Http.method := "GET";
             Http.headers :=
               [("content-type", "application/json");
                ("x-api-key", apiKey this)];
             Http.body := [] |}
  with
  | Thrown e => Thrown e
  | Normal response =>
      if negb (Http.ok response)
      then
        (* [await response.json().catch(() => ({}))] *)
        let errorData_message :=
          match Http.json response with
          | Normal parsed => Data.message parsed
          | Thrown _ => None
          end in
        Thrown
          (ErrorObject
             ("Creem API error: " +:+ pretty (Http.status response) +:+ " - "
              +:+ or_default errorData_message "Unknown error"))
      else
        match Http.json response with
        | Thrown e => Thrown e
        | Normal data => Normal data
        end
  end.

(** [createCreemPaymentClient()] *)
Definition createCreemPaymentClient (process_env : gmap string string)
  : Completion CreemPaymentClient :=
  new_CreemPaymentClient process_env None.

(** A request with another [cancel_url]. *)
Definition with_cancel_url (request : CheckoutRequest.t) (cancel : option string)
  : CheckoutRequest.t :=
  {| CheckoutRequest.product_id := CheckoutRequest.product_id request;
     CheckoutRequest.request_id := CheckoutRequest.request_id request;
     CheckoutRequest.success_url := CheckoutRequest.success_url request;
     CheckoutRequest.cancel_url := cancel;
     CheckoutRequest.customer_email := CheckoutRequest.customer_email request;
     CheckoutRequest.metadata := CheckoutRequest.metadata request;
     CheckoutRequest.discount_code := CheckoutRequest.discount_code request;
     CheckoutRequest.units := CheckoutRequest.units request;
     CheckoutRequest.locale := CheckoutRequest.locale request;
     CheckoutRequest.plan_type := CheckoutRequest.plan_type request |}.

(** The five settings, as the suffixes of their variables. *)
Definition settings : list string :=
  ["API_KEY"; "TRIAL_PRODUCT_ID"; "BASIC_PRODUCT_ID"; "PRO_PRODUCT_ID";
   "PAYMENT_URL"].

(** Two environments that name the same payment environment and agree on
    its five variables and on the five shared ones. *)
Definition same_payment_settings (env env' : gmap string string) : Prop :=
  getPaymentEnvironment env = getPaymentEnvironment env'
  /\ forall setting, In setting settings ->
       env !! ("CREEM_" +:+ setting) = env' !! ("CREEM_" +:+ setting)
       /\ env !! ((if isProductionPayment env then "CREEM_PROD_" else "CREEM_TEST_")
                  +:+ setting)
          = env' !! ((if isProductionPayment env then "CREEM_PROD_"
                      else "CREEM_TEST_") +:+ setting).

(** The characters of a string. *)
Fixpoint characters (s : string) : list ascii :=
  match s with
  | EmptyString => []
  | String c rest => c :: characters rest
  end.

(** An answer with a status outside 200..299 and this body. *)
Definition failed_with (status : Z) (text : string) (json : Completion Data.t)
  : Http.response :=
  {| Http.status := status; Http.text := text; Http.json := json |}.

(** A field of a request body that carries something. *)
Definition carries (field : string * Json) : Prop :=
  match snd field with
  | JString value => value <> ""
  | JNumber n => n <> 0
  | JObject fields => fields <> []
  end.

(** Options whose every value is missing or falsy. *)
Definition blank (options : CheckoutOptions.t) : Prop :=
  truthy (CheckoutOptions.requestId options) = false
  /\ truthy (CheckoutOptions.successUrl options) = false
  /\ truthy (CheckoutOptions.userEmail options) = false
  /\ (CheckoutOptions.metadata options = None
      \/ CheckoutOptions.metadata options = Some [])
  /\ truthy (CheckoutOptions.discountCode options) = false
  /\ (CheckoutOptions.units options = None
      \/ CheckoutOptions.units options = Some 0)
  /\ truthy (CheckoutOptions.locale options) = false
  /\ truthy (CheckoutOptions.planType options) = false.

(** The characters that separate or end the parameters of a query. *)
Definition query_delimiter (c : ascii) : bool :=
  Ascii.eqb c "&" || Ascii.eqb c "=" || Ascii.eqb c "#" || Ascii.eqb c "?"
  || Ascii.eqb c " ".

(* ===================================================================== *)
(** ** r2-upload, the sample videos                                       *)
(* ===================================================================== *)

(** How an ffmpeg screenshot ends: with ['end'], the frame written or not,
    or with ['error']. *)
Inductive Shot : Type :=
| Ended (written : bool)
| Failed (e : JsValue).

(** What Node and ffmpeg do for [r2-upload]; the clock and the random
    numbers are those read while the video at a path is processed. *)
Record Toolbox : Type := {
  (** [path.extname(p)] *)
  extname : string -> string;
  (** [path.basename(p)] and [path.basename(p, ext)] *)
  basename : string -> option string -> string;
  (** the n-th [Date.now()] *)
  Date_now : string -> nat -> Z;
  (** the n-th [Math.random().toString(36).substring(2, 8)] *)
  Math_random : string -> nat -> string;
  screenshots : string -> Shot;
  (** [fs.promises.readdir(dir)] *)
  readdir : string -> Completion (list string)
}.

(** [generateUniqueFilename(originalName, prefix?)], for the [timestamp] and
    the [random] digits it reads. *)
Definition generateUniqueFilename (tools : Toolbox) (timestamp : Z)
    (random : string) (originalName : string) (prefix : option string)
  : string :=
  let ext := extname tools originalName in
  let name := basename tools originalName (Some ext) in
  (if truthy prefix then template prefix +:+ "-" else "")
  +:+ name +:+ "-" +:+ pretty timestamp +:+ "-" +:+ random +:+ ext.

(** [extractVideoThumbnail(videoPath, outputPath)]: the frame is written to
    the folder and file name of [outputPath], that is to [outputPath]. *)
Definition extractVideoThumbnail (tools : Toolbox) (videoPath outputPath : string)
  : Js unit :=
  match screenshots tools videoPath with
  | Ended written =>
      if written
      then present <- get files ;; put_files ({[ outputPath ]} ∪ present)
      else ret tt
  | Failed e => throw e
  end.

Module Uploaded.
Record t : Type := {
  videoUrl : string;
  thumbnailUrl : string
}.
End Uploaded.

(** The temporary thumbnail of [processAndUploadVideo]. *)
Definition tempThumbnailPath (tools : Toolbox) (videoPath : string) : string :=
  path_join "/tmp"
    ("thumbnail-" +:+ pretty (Date_now tools videoPath 2%nat) +:+ ".jpg").

Definition processAndUploadVideo (tools : Toolbox) (env : Pipeline)
    (videoPath videoTitle : string) : Js Uploaded.t :=
  try_catch
    (let videoFilename :=
       generateUniqueFilename tools (Date_now tools videoPath 0%nat)
         (Math_random tools videoPath 0%nat)
         (basename tools videoPath None) (Some "video") in
     let thumbnailFilename :=
       generateUniqueFilename tools (Date_now tools videoPath 1%nat)
         (Math_random tools videoPath 1%nat)
         (videoTitle +:+ ".jpg") (Some "thumbnail") in
     extractVideoThumbnail tools videoPath (tempThumbnailPath tools videoPath) ;;;
     videoUrl <-
       uploadToR2 env videoPath ("videos/" +:+ videoFilename) "video/mp4" ;;
     thumbnailUrl <-
       uploadToR2 env (tempThumbnailPath tools videoPath)
         ("thumbnails/" +:+ thumbnailFilename) "image/jpeg" ;;
     (* a failed unlink is only logged *)
     unlink_ignoring env (tempThumbnailPath tools videoPath) ;;;
     ret {| Uploaded.videoUrl := videoUrl;
            Uploaded.thumbnailUrl := thumbnailUrl |})
    (fun error => throw error).

(** [s.endsWith(suffix)] *)
Fixpoint endsWith (s suffix : string) : bool :=
  String.eqb s suffix
  || match s with
     | EmptyString => false
     | String _ rest => endsWith rest suffix
     end.

Module Sample.
Record t : Type := {
  id : string;
  title : string;
  videoUrl : string;
  thumbnailUrl : string;
  originalFilename : string
}.
End Sample.

(** The [for] loop of [uploadSampleVideos], from the [results] so far. *)
Fixpoint upload_each (tools : Toolbox) (env : Pipeline) (sampleVideosDir : string)
    (videoFiles : list string) (results : list Sample.t) : Js (list Sample.t) :=
  match videoFiles with
  | [] => ret results
  | file :: rest =>
      let filePath := path_join sampleVideosDir file in
      let title := basename tools file (Some ".mp4") in
      results' <-
        try_catch
          (uploaded <- processAndUploadVideo tools env filePath title ;;
           ret (results
                ++ [{| Sample.id :=
                         "fallback-" +:+ pretty (Z.of_nat (length results) + 1);
                       Sample.title := title;
                       Sample.videoUrl := Uploaded.videoUrl uploaded;
                       Sample.thumbnailUrl := Uploaded.thumbnailUrl uploaded;
                       Sample.originalFilename := file |}]))
          (fun _ => ret results) ;;
      upload_each tools env sampleVideosDir rest results'
  end.

Definition uploadSampleVideos (tools : Toolbox) (env : Pipeline)
  : Js (list Sample.t) :=
  let sampleVideosDir := path_join (cwd env) "sample_videos" in
  try_catch
    (match readdir tools sampleVideosDir with
     | Thrown e => throw e
     | Normal listed =>
         let videoFiles := List.filter (fun file => endsWith file ".mp4") listed in
         upload_each tools env sampleVideosDir videoFiles []
     end)
    (fun error => throw error).

(** The ids [fallback-1], [fallback-2], ... of [n] results. *)
Definition fallback_ids (n : nat) : list string :=
  map (fun i => "fallback-" +:+ pretty (Z.of_nat i)) (seq 1 n).

(** What the surroundings of a sample upload look like in the tests below:
    the frame of [broken.mp4] cannot be taken. *)
Definition sample_tools : Toolbox :=
  {| extname := fun _ => ".mp4";
     basename := fun p _ => p;
     Date_now := fun _ _ => 1700000000000;
     Math_random := fun _ _ => "k3x9qa";
     screenshots :=
       fun videoPath =>
         if String.eqb videoPath "/app/sample_videos/broken.mp4"
         then Failed (ErrorObject "ffmpeg exited with code 1")
         else Ended true;
     readdir :=
       fun _ => Normal ["rain.mp4"; "notes.txt"; "broken.mp4"; "fire.mp4"] |}.

(** The sample videos, on disk. *)
Definition sample_disk : World :=
  {| user_profiles := ∅;
     credit_transactions := [];
     videos := [];
     files :=
       {[ "/app/sample_videos/rain.mp4"; "/app/sample_videos/broken.mp4";
          "/app/sample_videos/fire.mp4" ]};
     calls := [] |}.

(** A run in which the bucket takes videos and refuses thumbnails. *)
Definition bucket_refusing : Pipeline :=
  {| NODE_ENV := Some "production";
     cwd := "/app";
     R2_ENDPOINT := Some "https://cdn.example.com";
     now := 1700000000000;
     clock := fun _ => "2025-03-01T10:06:00.000Z";
     download := fun _ => Responded 200 "OK" (Finished 52000);
     second_rejects_first := false;
     send :=
       fun key =>
         if String.prefix "thumbnails/" key
         then Some (ErrorObject "AccessDenied")
         else None;
     unlink_fails := fun _ => false;
     catalog_client_failure := None;
     catalog_insert := Inserted "video-9";
     ledger := accepting |}.

(* ===================================================================== *)
(** ** The ledger as a whole                                              *)
(* ===================================================================== *)

(** The balance a user has: the [credits] column, [null] and a missing
    profile counting as 0. *)
Definition balance (w : World) (userId : string) : Z :=
  match user_profiles w !! userId with
  | Some profile => to_number (credits profile)
  | None => 0
  end.

(** The sum of the amounts of a user's ledger rows. *)
Fixpoint ledger_total (rows : list CreditTransactionRow) (userId : string) : Z :=
  match rows with
  | [] => 0
  | row :: rest =>
      (if String.eqb (user_id row) userId then amount row else 0)
      + ledger_total rest userId
  end.

(** What tagging leaves of a row: everything but [video_id] and
    [description]. *)
Definition same_entry (old new : CreditTransactionRow) : Prop :=
  user_id new = user_id old
  /\ transaction_type new = transaction_type old
  /\ amount new = amount old
  /\ task_id new = task_id old
  /\ created_at new = created_at old
  /\ check_in_id new = check_in_id old
  /\ referral_id new = referral_id old
  /\ free_credits_type new = free_credits_type old.

(** Two worlds with the same database: tables and calls issued. *)
Definition same_tables (w w' : World) : Prop :=
  user_profiles w' = user_profiles w
  /\ credit_transactions w' = credit_transactions w
  /\ videos w' = videos w
  /\ calls w' = calls w.

(** A computation that leaves the database alone, however it ends. *)
Definition off_database {A} (m : Js A) : Prop :=
  forall w, same_tables w (snd (m w)).

(** A run in which the catalog refuses the insert. *)
Definition catalog_refusing : Pipeline :=
  {| NODE_ENV := Some "production";
     cwd := "/app";
     R2_ENDPOINT := Some "https://cdn.example.com";
     now := 1700000000000;
     clock := fun _ => "2025-03-01T10:06:00.000Z";
     download := fun _ => Responded 200 "OK" (Finished 52000);
     second_rejects_first := false;
     send := fun _ => None;
     unlink_fails := fun _ => false;
     catalog_client_failure := None;
     catalog_insert := Refused denied;
     ledger := accepting |}.

(** A finished task that names no user. *)
Definition anonymous_task : VideoMetadata :=
  {| taskId := "task-1";
     userId := None;
     originalPrompt := None;
     triggers := None;
     duration := None;
     quality := None;
     aspectRatio := None |}.

(** A gateway that answers 402 with a body holding only an [error] text. *)
Definition only_an_error : Data.t :=
  {| Data.id := None;
     Data.payment_url := None;
     Data.url := None;
     Data.checkout_url := None;
     Data.status := None;
     Data.message := None;
     Data.error := Some "card declined" |}.

Definition declining (_ : Http.request) : Completion Http.response :=
  Normal (failed_with 402 "" (Normal only_an_error)).

(* ===================================================================== *)
(** * Properties                                                          *)
(* ===================================================================== *)

(** ** Coercions and strings *)

Lemma or_zero_to_number (v : option Z) : or_zero v = to_number v.
Proof.
  destruct v as [n|]; simpl; [|reflexivity].
  destruct (Z.eqb_spec n 0); congruence.
Qed.

Lemma includes_self (a : string) : includes a a = true.
Proof.
  assert (H : forall s, String.prefix s s = true).
  { induction s as [|c s IH]; simpl; [reflexivity|].
    destruct (ascii_dec c c); [exact IH | congruence]. }
  destruct a; cbn [includes]; rewrite H; reflexivity.
Qed.

Lemma includes_later (c : ascii) (s needle : string) :
  includes s needle = true -> includes (String c s) needle = true.
Proof.
  intros H. cbn [includes]. rewrite H. apply orb_true_r.
Qed.

Lemma includes_append (a b needle : string) :
  includes b needle = true -> includes (a +:+ b) needle = true.
Proof.
  intros H. induction a as [|c a IH]; simpl.
  - exact H.
  - apply includes_later, IH.
Qed.

(** The description [deductCredits] and [refundCredits] write for a truthy
    task id contains [Task: {taskId}]. *)
Lemma task_description_includes (description t : string) :
  t <> "" ->
  includes (task_description description (Some t)) ("Task: " +:+ t) = true.
Proof.
  intros Ht. unfold task_description, truthy.
  destruct (String.eqb_spec t ""); [contradiction|]. simpl negb. cbv iota.
  apply includes_append.
  change (" - Task: " +:+ template (Some t)) with (" - " +:+ ("Task: " +:+ t)).
  apply includes_append, includes_self.
Qed.

(** ** The database client *)

Lemma alter_found {A} (f : A -> A) (m : gmap string A) (k : string) (x : A) :
  m !! k = Some x -> alter f k m = <[k := f x]> m.
Proof.
  intros H. apply map_eq. intros j.
  destruct (decide (k = j)) as [->|Hne].
  - rewrite lookup_alter_eq, lookup_insert_eq, H. reflexivity.
  - rewrite lookup_alter_ne, lookup_insert_ne by assumption. reflexivity.
Qed.

(** Unfolds one ledger operation down to the world it leaves. *)
Ltac run_ledger :=
  unfold deductCredits, refundCredits, getUserCredits, addCredits,
    recordVideoCompletion, try_catch, bind, ret, throw, get, issue,
    put_profiles, put_transactions, createServiceClient, select_profile,
    update_profile, insert_transaction, update_transactions;
  cbn.

(** ** deductCredits *)

Section Deduct.
Variables (db : Backend) (userId : string) (amount : Z)
          (description : string) (taskId : option string).
Variables (w : World) (profile : UserProfile).
Hypothesis client_ok : client_failure db = None.
Hypothesis select_ok : select_error db = None.
Hypothesis found : user_profiles w !! userId = Some profile.

(** Balance too low: one select, nothing else. *)
Lemma deductCredits_low :
  to_number (credits profile) < amount ->
  deductCredits db userId amount description taskId w =
  (Normal (DeductResult.failure "Insufficient credits"),
   {| user_profiles := user_profiles w;
      credit_transactions := credit_transactions w;
      videos := videos w;
      files := files w;
      calls := calls w ++ [SelectProfile userId] |}).
Proof.
  intros Hlow. run_ledger. rewrite client_ok, select_ok. cbn.
  rewrite found. cbn.
  destruct (Z.ltb_spec (to_number (credits profile)) amount); [|lia].
  reflexivity.
Qed.

(** Balance sufficient, update refused: the select and the update were
    issued, no row has changed. *)
Lemma deductCredits_update_refused (e : PostgrestError) :
  amount <= to_number (credits profile) ->
  update_error db = Some e ->
  deductCredits db userId amount description taskId w =
  (Normal (DeductResult.failure "Failed to update credits"),
   {| user_profiles := user_profiles w;
      credit_transactions := credit_transactions w;
      videos := videos w;
      files := files w;
      calls := calls w ++ [SelectProfile userId;
                           UpdateProfile userId (deduct_patch profile amount)] |}).
Proof.
  intros Hle Hupd. run_ledger. rewrite client_ok, select_ok. cbn.
  rewrite found. cbn.
  destruct (Z.ltb_spec (to_number (credits profile)) amount); [lia|].
  cbn. rewrite Hupd. cbn. rewrite <- app_assoc. reflexivity.
Qed.

(** Balance sufficient, update accepted: the operation succeeds whatever
    the insert is answered with. *)
Lemma deductCredits_run :
  amount <= to_number (credits profile) ->
  update_error db = None ->
  deductCredits db userId amount description taskId w =
  (Normal (deduct_success (to_number (credits profile) - amount)),
   {| user_profiles :=
        <[userId := apply_patch (deduct_patch profile amount) profile]>
          (user_profiles w);
      credit_transactions :=
        match insert_error db with
        | Some _ => credit_transactions w
        | None =>
            credit_transactions w
            ++ [usage_row db userId amount description taskId]
        end;
      videos := videos w;
      files := files w;
      calls :=
        calls w
        ++ [SelectProfile userId;
            UpdateProfile userId (deduct_patch profile amount);
            InsertTransaction
              (usage_row db userId amount description taskId)] |}).
Proof.
  intros Hle Hupd. run_ledger. rewrite client_ok, select_ok. cbn.
  rewrite found. cbn.
  destruct (Z.ltb_spec (to_number (credits profile)) amount); [lia|].
  cbn. rewrite Hupd. cbn.
  rewrite (alter_found _ _ _ _ found).
  rewrite <- !app_assoc.
  destruct (insert_error db); reflexivity.
Qed.
End Deduct.

(** A call that reports success read the profile, found the balance
    sufficient and had its update accepted. *)
Lemma deductCredits_success_inv db userId amount description taskId w r w' :
  deductCredits db userId amount description taskId w = (Normal r, w') ->
  DeductResult.success r = true ->
  client_failure db = None /\ select_error db = None /\ update_error db = None
  /\ exists profile,
       user_profiles w !! userId = Some profile
       /\ amount <= to_number (credits profile).
Proof.
  run_ledger.
  destruct (client_failure db) as [e|]; cbn; [intros [= <- <-]; discriminate|].
  destruct (select_error db) as [e|]; cbn; [intros [= <- <-]; discriminate|].
  destruct (user_profiles w !! userId) as [profile|] eqn:Hfound; cbn;
    [|intros [= <- <-]; discriminate].
  destruct (Z.ltb_spec (to_number (credits profile)) amount); cbn;
    [intros [= <- <-]; discriminate|].
  destruct (update_error db) as [e|]; cbn; [intros [= <- <-]; discriminate|].
  intros _ _. repeat split; try reflexivity. exists profile. split; [reflexivity|lia].
Qed.


(** The update is accepted and the insert refused: success is reported and
    the balance written, but no row is inserted. *)
Lemma deductCredits_insert_refused_example :
  deductCredits refusing_insert "u1" 30 "video gen" (Some "task-1") start
  = (Normal (deduct_success 70),
     {| user_profiles :=
          <["u1" := apply_patch (deduct_patch alice 30) alice]> (user_profiles start);
        credit_transactions := [];
        videos := [];
        files := ∅;
        calls :=
          [SelectProfile "u1";
           UpdateProfile "u1" (deduct_patch alice 30);
           InsertTransaction
             (usage_row refusing_insert "u1" 30 "video gen" (Some "task-1"))] |}).
Proof.
  rewrite (deductCredits_run refusing_insert "u1" 30 "video gen" (Some "task-1")
             start alice); try reflexivity.
  simpl. lia.
Qed.

(** Claim C1, as stated, fails.  The profile read succeeds with balance 100
    and 30 credits are asked for.  When the database refuses the update, the
    call reports failure, leaves the balance at 100 and inserts no row.  When
    it accepts the update and refuses the insert, the call reports success
    and no row is inserted. *)
Lemma deductCredits_as_stated_counterexample :
  user_profiles start !! "u1" = Some alice
  /\ credits alice = Some 100
  /\ 30 <= 100
  /\ (client_failure refusing_update = None
      /\ select_error refusing_update = None
      /\ fst (deductCredits refusing_update "u1" 30 "video gen" (Some "task-1")
                start)
         = Normal (DeductResult.failure "Failed to update credits")
      /\ user_profiles
           (snd (deductCredits refusing_update "u1" 30 "video gen"
                   (Some "task-1") start))
         !! "u1" = Some alice
      /\ credit_transactions
           (snd (deductCredits refusing_update "u1" 30 "video gen"
                   (Some "task-1") start))
         = [])
  /\ (client_failure refusing_insert = None
      /\ select_error refusing_insert = None
      /\ fst (deductCredits refusing_insert "u1" 30 "video gen" (Some "task-1")
                start)
         = Normal (deduct_success 70)
      /\ credit_transactions
           (snd (deductCredits refusing_insert "u1" 30 "video gen"
                   (Some "task-1") start))
         = []).
Proof.
  assert (Hfound : user_profiles start !! "u1" = Some alice) by reflexivity.
  rewrite (deductCredits_update_refused refusing_update "u1" 30 "video gen"
             (Some "task-1") start alice eq_refl eq_refl Hfound denied);
    [|simpl; lia|reflexivity].
  rewrite deductCredits_insert_refused_example.
  repeat split; try reflexivity. lia.
Qed.

(** An empty task id is falsy: the description is written without a task. *)
Lemma deductCredits_empty_task_example :
  map description
    (credit_transactions
       (snd (deductCredits accepting "u1" 30 "video gen" (Some "") start)))
  = ["video gen"].
Proof.
  rewrite (deductCredits_run accepting "u1" 30 "video gen" (Some "") start alice);
    try reflexivity.
  simpl. lia.
Qed.

(** The scenario of a user with 100 credits who spends 30 on [task-1]. *)
Example deductCredits_scenario :
  fst (deductCredits accepting "u1" 30 "video gen" (Some "task-1") start)
  = Normal (deduct_success 70)
  /\ credit_transactions
       (snd (deductCredits accepting "u1" 30 "video gen" (Some "task-1") start))
     = [first_charge].
Proof.
  rewrite (deductCredits_run accepting "u1" 30 "video gen" (Some "task-1")
             start alice); try reflexivity; [|simpl; lia].
  split; reflexivity.
Qed.

(** Claim C1, amended.  The profile read succeeds with balance [B], [A <= B]
    and the database accepts the update: [deductCredits] returns
    [{success: true, remainingCredits: B - A}] and the profile's credits are
    [B - A]; when the insert is accepted too, [credit_transactions] gains one
    row, of type [usage], with amount [-A], whose description contains
    [Task: {taskId}] for a non-empty task id. *)
Theorem deductCredits_sufficient
    (db : Backend) (userId : string) (A : Z) (text : string)
    (taskId : option string) (w : World) (profile : UserProfile) (B : Z) :
  client_failure db = None ->
  select_error db = None ->
  user_profiles w !! userId = Some profile ->
  credits profile = Some B ->
  A <= B ->
  update_error db = None ->
  exists w',
    deductCredits db userId A text taskId w = (Normal (deduct_success (B - A)), w')
    /\ credits <$> user_profiles w' !! userId = Some (Some (B - A))
    /\ (insert_error db = None ->
        exists row : CreditTransactionRow,
          credit_transactions w' = credit_transactions w ++ [row]
          /\ user_id row = userId
          /\ transaction_type row = usage
          /\ amount row = - A
          /\ forall t, taskId = Some t -> t <> "" ->
               includes (description row) ("Task: " +:+ t) = true).
Proof.
  intros Hclient Hselect Hfound Hcredits Hle Hupdate.
  assert (HB : to_number (credits profile) = B) by (rewrite Hcredits; reflexivity).
  eexists. split.
  { rewrite (deductCredits_run db userId A text taskId w profile); try assumption.
    - rewrite HB. reflexivity.
    - lia. }
  cbn [user_profiles credit_transactions]. split.
  - rewrite lookup_insert_eq. cbn. rewrite HB. reflexivity.
  - intros ->. eexists. split; [reflexivity|].
    cbn. repeat split.
    intros t -> Ht. apply task_description_includes, Ht.
Qed.

Lemma deductCredits_sufficient_witness :
  exists w',
    deductCredits accepting "u1" 30 "video gen" (Some "task-1") start
    = (Normal (deduct_success (100 - 30)), w')
    /\ credits <$> user_profiles w' !! "u1" = Some (Some (100 - 30))
    /\ (insert_error accepting = None ->
        exists row : CreditTransactionRow,
          credit_transactions w' = credit_transactions start ++ [row]
          /\ user_id row = "u1"
          /\ transaction_type row = usage
          /\ amount row = - 30
          /\ forall t, Some "task-1" = Some t -> t <> "" ->
               includes (description row) ("Task: " +:+ t) = true).
Proof.
  apply (deductCredits_sufficient accepting "u1" 30 "video gen" (Some "task-1")
           start alice 100); first [reflexivity | lia].
Defined.

(** Claim C2.  The profile read succeeds with balance [B] and [B < A]:
    [deductCredits] returns (does not throw) the failure
    ['Insufficient credits'], and the only call it has issued is the select:
    every table and the temp files are as before. *)
Theorem deductCredits_insufficient
    (db : Backend) (userId : string) (A : Z) (text : string)
    (taskId : option string) (w : World) (profile : UserProfile) (B : Z) :
  client_failure db = None ->
  select_error db = None ->
  user_profiles w !! userId = Some profile ->
  credits profile = Some B ->
  B < A ->
  exists w',
    deductCredits db userId A text taskId w
    = (Normal {| DeductResult.success := false;
                 DeductResult.remainingCredits := None;
                 DeductResult.error := Some "Insufficient credits" |}, w')
    /\ user_profiles w' = user_profiles w
    /\ credit_transactions w' = credit_transactions w
    /\ videos w' = videos w
    /\ files w' = files w
    /\ calls w' = calls w ++ [SelectProfile userId].
Proof.
  intros Hclient Hselect Hfound Hcredits Hlt.
  eexists. split.
  - apply (deductCredits_low db userId A text taskId w profile); try assumption.
    rewrite Hcredits. exact Hlt.
  - cbn. repeat split.
Qed.

Lemma deductCredits_insufficient_witness :
  exists w',
    deductCredits accepting "u1" 130 "video gen" (Some "task-1") start
    = (Normal {| DeductResult.success := false;
                 DeductResult.remainingCredits := None;
                 DeductResult.error := Some "Insufficient credits" |}, w')
    /\ user_profiles w' = user_profiles start
    /\ credit_transactions w' = credit_transactions start
    /\ videos w' = videos start
    /\ files w' = files start
    /\ calls w' = calls start ++ [SelectProfile "u1"].
Proof.
  apply (deductCredits_insufficient accepting "u1" 130 "video gen" (Some "task-1")
           start alice 100); first [reflexivity | lia].
Defined.

(** Claim C10.  A [deductCredits] call with amount [A] that reports success
    has issued an update naming exactly [credits], [total_credits_spent] and
    [total_videos_created]: in the user's profile [credits] is lower by [A],
    [total_credits_spent] higher by [A] and [total_videos_created] higher by
    one (a missing value counting as 0), whatever becomes of the video; every
    other column of that profile and every other profile are as before. *)
Theorem deductCredits_frame
    (db : Backend) (userId : string) (A : Z) (text : string)
    (taskId : option string) (w w' : World) (r : DeductResult.t) :
  deductCredits db userId A text taskId w = (Normal r, w') ->
  DeductResult.success r = true ->
  exists profile patch,
    user_profiles w !! userId = Some profile
    /\ In (UpdateProfile userId patch) (calls w')
    /\ set_credits patch = Some (to_number (credits profile) - A)
    /\ set_total_credits_spent patch
       = Some (to_number (total_credits_spent profile) + A)
    /\ set_total_videos_created patch
       = Some (to_number (total_videos_created profile) + 1)
    /\ set_updated_at patch = None
    /\ user_profiles w' !! userId
       = Some {| credits := Some (to_number (credits profile) - A);
                 total_credits_spent :=
                   Some (to_number (total_credits_spent profile) + A);
                 total_videos_created :=
                   Some (to_number (total_videos_created profile) + 1);
                 updated_at := updated_at profile;
                 other_columns := other_columns profile |}
    /\ forall other, other <> userId ->
         user_profiles w' !! other = user_profiles w !! other.
Proof.
  intros Hrun Hsuccess.
  destruct (deductCredits_success_inv _ _ _ _ _ _ _ _ Hrun Hsuccess)
    as (Hclient & Hselect & Hupdate & profile & Hfound & Hle).
  rewrite (deductCredits_run db userId A text taskId w profile) in Hrun
    by assumption.
  injection Hrun as _ <-.
  exists profile, (deduct_patch profile A).
  cbn [user_profiles calls].
  split; [exact Hfound|].
  split; [apply in_or_app; right; right; left; reflexivity|].
  unfold deduct_patch, apply_patch. cbn.
  rewrite !or_zero_to_number.
  do 4 (split; [reflexivity|]).
  split.
  - apply lookup_insert_eq.
  - intros other Hne. apply lookup_insert_ne. congruence.
Qed.

Lemma deductCredits_frame_witness :
  exists profile patch,
    user_profiles start !! "u1" = Some profile
    /\ In (UpdateProfile "u1" patch)
         (calls (snd (deductCredits accepting "u1" 30 "video gen" None start)))
    /\ set_credits patch = Some (to_number (credits profile) - 30)
    /\ set_total_credits_spent patch
       = Some (to_number (total_credits_spent profile) + 30)
    /\ set_total_videos_created patch
       = Some (to_number (total_videos_created profile) + 1)
    /\ set_updated_at patch = None
    /\ user_profiles (snd (deductCredits accepting "u1" 30 "video gen" None start))
       !! "u1"
       = Some {| credits := Some (to_number (credits profile) - 30);
                 total_credits_spent :=
                   Some (to_number (total_credits_spent profile) + 30);
                 total_videos_created :=
                   Some (to_number (total_videos_created profile) + 1);
                 updated_at := updated_at profile;
                 other_columns := other_columns profile |}
    /\ forall other, other <> "u1" ->
         user_profiles (snd (deductCredits accepting "u1" 30 "video gen" None start))
         !! other = user_profiles start !! other.
Proof.
  apply (deductCredits_frame accepting "u1" 30 "video gen" None start _
           (deduct_success 70)).
  - rewrite (deductCredits_run accepting "u1" 30 "video gen" None start alice);
      try reflexivity.
    simpl. lia.
  - reflexivity.
Defined.

(** ** refundCredits and addCredits *)

Section Credit.
Variables (db : Backend) (userId : string) (amount : Z) (text : string).
Variables (w : World) (profile : UserProfile).
Hypothesis client_ok : client_failure db = None.
Hypothesis select_ok : select_error db = None.
Hypothesis update_ok : update_error db = None.
Hypothesis found : user_profiles w !! userId = Some profile.

Lemma refundCredits_run (taskId videoId : option string) :
  refundCredits db userId amount text taskId videoId w =
  (Normal (credit_success (to_number (credits profile) + amount)),
   {| user_profiles :=
        <[userId := apply_patch (refund_patch profile amount) profile]>
          (user_profiles w);
      credit_transactions :=
        match insert_error db with
        | Some _ => credit_transactions w
        | None =>
            credit_transactions w
            ++ [refund_row db userId amount text taskId videoId]
        end;
      videos := videos w;
      files := files w;
      calls :=
        calls w
        ++ [SelectProfile userId;
            UpdateProfile userId (refund_patch profile amount);
            InsertTransaction
              (refund_row db userId amount text taskId videoId)] |}).
Proof.
  run_ledger. rewrite client_ok, select_ok. cbn.
  rewrite found. cbn. rewrite update_ok. cbn.
  rewrite (alter_found _ _ _ _ found).
  rewrite <- !app_assoc.
  destruct (insert_error db); reflexivity.
Qed.

Lemma addCredits_run (transactionType : option AdditionType)
    (metadata : option Metadata) :
  addCredits db userId amount text transactionType metadata w =
  (Normal (credit_success (to_number (credits profile) + amount)),
   {| user_profiles :=
        <[userId := apply_patch (addition_patch db profile amount) profile]>
          (user_profiles w);
      credit_transactions :=
        match insert_error db with
        | Some _ => credit_transactions w
        | None =>
            credit_transactions w
            ++ [addition_row db userId amount text transactionType metadata]
        end;
      videos := videos w;
      files := files w;
      calls :=
        calls w
        ++ [SelectProfile userId;
            UpdateProfile userId (addition_patch db profile amount);
            InsertTransaction
              (addition_row db userId amount text transactionType metadata)] |}).
Proof.
  run_ledger. rewrite client_ok, select_ok. cbn.
  rewrite found. cbn. rewrite update_ok. cbn.
  rewrite (alter_found _ _ _ _ found).
  rewrite <- !app_assoc.
  destruct (insert_error db); reflexivity.
Qed.
End Credit.

Lemma refundCredits_success_inv db userId amount text taskId videoId w r w' :
  refundCredits db userId amount text taskId videoId w = (Normal r, w') ->
  CreditResult.success r = true ->
  client_failure db = None /\ select_error db = None /\ update_error db = None
  /\ exists profile, user_profiles w !! userId = Some profile.
Proof.
  run_ledger.
  destruct (client_failure db) as [e|]; cbn; [intros [= <- <-]; discriminate|].
  destruct (select_error db) as [e|]; cbn; [intros [= <- <-]; discriminate|].
  destruct (user_profiles w !! userId) as [profile|] eqn:Hfound; cbn;
    [|intros [= <- <-]; discriminate].
  destruct (update_error db) as [e|]; cbn; [intros [= <- <-]; discriminate|].
  intros _ _. repeat split; try reflexivity. exists profile. reflexivity.
Qed.

(** Whatever the database does, the ledger after [refundCredits] is the
    ledger before it, or that ledger with the one [refund] row of amount
    [A] appended. *)
Lemma refundCredits_ledger_rows db userId A text taskId videoId w :
  credit_transactions (snd (refundCredits db userId A text taskId videoId w))
  = credit_transactions w
  \/ credit_transactions (snd (refundCredits db userId A text taskId videoId w))
     = credit_transactions w ++ [refund_row db userId A text taskId videoId]
     /\ transaction_type (refund_row db userId A text taskId videoId) = refund
     /\ amount (refund_row db userId A text taskId videoId) = A.
Proof.
  run_ledger.
  destruct (client_failure db); cbn; [left; reflexivity|].
  destruct (select_error db); cbn; [left; reflexivity|].
  destruct (user_profiles w !! userId); cbn; [|left; reflexivity].
  destruct (update_error db); cbn; [left; reflexivity|].
  destruct (insert_error db); cbn; [left; reflexivity|].
  right. repeat split.
Qed.

(** ** getUserCredits *)

Lemma getUserCredits_run db userId w :
  getUserCredits db userId w =
  match client_failure db with
  | Some e =>
      (Normal {| BalanceResult.credits := 0;
                 BalanceResult.error := Some (error_message e) |}, w)
  | None =>
      (Normal
         match select_error db, user_profiles w !! userId with
         | None, Some profile =>
             {| BalanceResult.credits := to_number (credits profile);
                BalanceResult.error := None |}
         | _, _ =>
             {| BalanceResult.credits := 0;
                BalanceResult.error := Some "Failed to fetch credits" |}
         end,
       {| user_profiles := user_profiles w;
          credit_transactions := credit_transactions w;
          videos := videos w;
          files := files w;
          calls := calls w ++ [SelectProfile userId] |})
  end.
Proof.
  run_ledger.
  destruct (client_failure db) as [e|]; cbn; [reflexivity|].
  destruct (select_error db) as [e|]; cbn; [reflexivity|].
  destruct (user_profiles w !! userId) as [profile|]; cbn; [|reflexivity].
  rewrite or_zero_to_number. reflexivity.
Qed.

(** Claim C9.  [getUserCredits] returns for every user id and every
    behaviour of the database; it never throws.  When the client cannot be
    made, the select is refused or there is no such profile, the credits
    returned are [0] and an error string comes with them.  It issues no write:
    the tables and the temp files are as before. *)
Theorem getUserCredits_never_fails (db : Backend) (userId : string) (w : World) :
  exists r w',
    getUserCredits db userId w = (Normal r, w')
    /\ user_profiles w' = user_profiles w
    /\ credit_transactions w' = credit_transactions w
    /\ videos w' = videos w
    /\ files w' = files w
    /\ (exists reads, calls w' = calls w ++ reads /\ existsb is_write reads = false)
    /\ ((client_failure db <> None \/ select_error db <> None
         \/ user_profiles w !! userId = None) ->
        BalanceResult.credits r = 0 /\ BalanceResult.error r <> None).
Proof.
  rewrite getUserCredits_run.
  destruct (client_failure db) as [e|] eqn:Hclient.
  - do 2 eexists. split; [reflexivity|]. do 4 (split; [reflexivity|]). split.
    + exists []. rewrite app_nil_r. split; reflexivity.
    + intros _. split; [reflexivity|discriminate].
  - do 2 eexists. split; [reflexivity|]. cbn. do 4 (split; [reflexivity|]). split.
    + exists [SelectProfile userId]. split; reflexivity.
    + intros [H|[H|H]]; [congruence| |].
      * destruct (select_error db); [|congruence].
        split; [reflexivity|discriminate].
      * rewrite H. destruct (select_error db); split; try reflexivity; discriminate.
Qed.

(** Claim C3.  Once the read and the update have succeeded, [deductCredits]
    and [addCredits], the latter for ['bonus'], for ['purchase'] and for the
    default type alike, have issued the select, then the balance update, then
    the ledger insert, and they report success with the new balance whatever
    the insert is answered with; when the insert is refused the ledger is as
    before and the balance stays updated.  In particular [getUserCredits]
    after [addCredits(U, A, description, 'bonus')] gives [B + A]. *)
Theorem ledger_insert_is_best_effort
    (db reader : Backend) (userId : string) (A : Z) (text : string)
    (taskId : option string) (transactionType : option AdditionType)
    (metadata : option Metadata)
    (w : World) (profile : UserProfile) (B : Z) :
  client_failure db = None ->
  select_error db = None ->
  update_error db = None ->
  user_profiles w !! userId = Some profile ->
  credits profile = Some B ->
  client_failure reader = None ->
  select_error reader = None ->
  (A <= B ->
   exists patch row w1,
     deductCredits db userId A text taskId w
     = (Normal (deduct_success (B - A)), w1)
     /\ calls w1
        = calls w ++ [SelectProfile userId; UpdateProfile userId patch;
                      InsertTransaction row]
     /\ credits <$> user_profiles w1 !! userId = Some (Some (B - A))
     /\ (insert_error db <> None ->
         credit_transactions w1 = credit_transactions w))
  /\ (exists patch row w1,
        addCredits db userId A text transactionType metadata w
        = (Normal (credit_success (B + A)), w1)
        /\ calls w1
           = calls w ++ [SelectProfile userId; UpdateProfile userId patch;
                         InsertTransaction row]
        /\ credits <$> user_profiles w1 !! userId = Some (Some (B + A))
        /\ (insert_error db <> None ->
            credit_transactions w1 = credit_transactions w)
        /\ fst (getUserCredits reader userId w1)
           = Normal {| BalanceResult.credits := B + A;
                       BalanceResult.error := None |}).
Proof.
  intros Hclient Hselect Hupdate Hfound Hcredits Hreader Hread.
  assert (HB : to_number (credits profile) = B) by (rewrite Hcredits; reflexivity).
  split.
  - intros Hle. do 3 eexists. split.
    { rewrite (deductCredits_run db userId A text taskId w profile);
        try assumption; [|lia].
      rewrite HB. reflexivity. }
    cbn [calls user_profiles credit_transactions].
    split; [reflexivity|]. split.
    + rewrite lookup_insert_eq. cbn. rewrite HB. reflexivity.
    + destruct (insert_error db); [reflexivity|congruence].
  - do 3 eexists. split.
    { rewrite (addCredits_run db userId A text w profile); try assumption.
      rewrite HB. reflexivity. }
    cbn [calls user_profiles credit_transactions].
    split; [reflexivity|]. split; [|split].
    + rewrite lookup_insert_eq. cbn. rewrite HB. reflexivity.
    + destruct (insert_error db); [reflexivity|congruence].
    + rewrite getUserCredits_run, Hreader, Hread. cbn.
      rewrite lookup_insert_eq. cbn. rewrite HB. reflexivity.
Qed.

Lemma ledger_insert_is_best_effort_witness :
  insert_error refusing_insert = Some denied
  /\ fst (addCredits refusing_insert "u1" 25 "daily bonus" (Some add_bonus) None start)
     = Normal (credit_success 125)
  /\ fst (getUserCredits accepting "u1"
            (snd (addCredits refusing_insert "u1" 25 "daily bonus" (Some add_bonus)
                    None start)))
     = Normal {| BalanceResult.credits := 125; BalanceResult.error := None |}
  /\ credit_transactions
       (snd (addCredits refusing_insert "u1" 25 "daily bonus" (Some add_bonus)
               None start))
     = [].
Proof.
  destruct (ledger_insert_is_best_effort refusing_insert accepting "u1" 25
              "daily bonus" None (Some add_bonus) None start alice 100
              eq_refl eq_refl eq_refl eq_refl eq_refl eq_refl eq_refl)
    as [_ (patch & row & w1 & Hrun & _ & _ & Hrows & Hread)].
  rewrite Hrun. cbn [fst snd].
  split; [reflexivity|]. split; [reflexivity|]. split; [exact Hread|].
  apply Hrows. discriminate.
Defined.

(** Claim C6, as stated, fails.  [refundCredits] does not always record its
    ledger row: when the database accepts the update and refuses the insert,
    the refund of 60 credits reports success with the new balance 160 and
    the ledger holds no row. *)
Lemma refundCredits_as_stated_counterexample :
  user_profiles start !! "u1" = Some alice
  /\ credits alice = Some 100
  /\ fst (refundCredits refusing_insert "u1" 60 "generation failed"
            (Some "task-1") None start)
     = Normal (credit_success 160)
  /\ credit_transactions
       (snd (refundCredits refusing_insert "u1" 60 "generation failed"
               (Some "task-1") None start))
     = [].
Proof.
  rewrite (refundCredits_run refusing_insert "u1" 60 "generation failed" start
             alice eq_refl eq_refl eq_refl eq_refl (Some "task-1") None).
  repeat split.
Qed.

(** Claim C6.  A [refundCredits(U, A)] that reports success followed by a
    [deductCredits(U, A)] that reports success leaves the credits at the
    balance [B] they started from.  [total_credits_spent] ends at
    [max(0, S - A) + A] for its starting value [S] (missing counting as 0):
    back at [S] when [A <= S], at [A] when the clamp at zero was hit.  The
    row [refundCredits] gives to the ledger has type [refund] and amount
    [A] itself, positive for a positive [A]; it is in the ledger when the
    insert is accepted, and no row is recorded when the insert is refused. *)
Theorem refund_then_deduct_round_trip
    (db1 db2 : Backend) (userId : string) (A : Z)
    (text1 text2 : string) (task1 video1 task2 : option string)
    (w w1 w2 : World) (r1 : CreditResult.t) (r2 : DeductResult.t)
    (profile : UserProfile) (B : Z) :
  user_profiles w !! userId = Some profile ->
  credits profile = Some B ->
  refundCredits db1 userId A text1 task1 video1 w = (Normal r1, w1) ->
  CreditResult.success r1 = true ->
  deductCredits db2 userId A text2 task2 w1 = (Normal r2, w2) ->
  DeductResult.success r2 = true ->
  let S := to_number (total_credits_spent profile) in
  credits <$> user_profiles w2 !! userId = Some (Some B)
  /\ total_credits_spent <$> user_profiles w2 !! userId
     = Some (Some (Z.max 0 (S - A) + A))
  /\ (A <= S -> total_credits_spent <$> user_profiles w2 !! userId = Some (Some S))
  /\ (S < A -> total_credits_spent <$> user_profiles w2 !! userId = Some (Some A))
  /\ exists patch row,
       calls w1 = calls w ++ [SelectProfile userId; UpdateProfile userId patch;
                              InsertTransaction row]
       /\ transaction_type row = refund
       /\ amount row = A
       /\ (0 < A -> 0 < amount row)
       /\ (insert_error db1 = None ->
           credit_transactions w1 = credit_transactions w ++ [row])
       /\ (insert_error db1 <> None ->
           credit_transactions w1 = credit_transactions w).
Proof.
  intros Hfound Hcredits Hrefund Hok1 Hdeduct Hok2 S.
  destruct (refundCredits_success_inv _ _ _ _ _ _ _ _ _ Hrefund Hok1)
    as (Hc1 & Hs1 & Hu1 & _).
  rewrite (refundCredits_run db1 userId A text1 w profile Hc1 Hs1 Hu1 Hfound)
    in Hrefund.
  injection Hrefund as _ <-.
  destruct (deductCredits_success_inv _ _ _ _ _ _ _ _ Hdeduct Hok2)
    as (Hc2 & Hs2 & Hu2 & refunded & Hfound1 & Hle).
  rewrite (deductCredits_run db2 userId A text2 task2 _ refunded Hc2 Hs2 Hfound1
             Hle Hu2) in Hdeduct.
  injection Hdeduct as _ <-.
  cbn [user_profiles] in Hfound1. rewrite lookup_insert_eq in Hfound1.
  injection Hfound1 as <-.
  cbn [user_profiles calls credit_transactions].
  rewrite lookup_insert_eq.
  cbn -[or_zero to_number Z.max Z.add Z.sub].
  rewrite !or_zero_to_number, Hcredits. cbn [to_number]. fold S.
  assert (Hspent : Z.max 0 (S - A) + A = Z.max S A) by lia.
  split; [do 2 f_equal; lia|].
  split; [reflexivity|].
  split; [intros HA; do 2 f_equal; lia|].
  split; [intros HA; do 2 f_equal; lia|].
  do 2 eexists. split; [reflexivity|]. cbn.
  split; [reflexivity|]. split; [reflexivity|]. split; [tauto|].
  destruct (insert_error db1); split; intros; congruence.
Qed.

Lemma refund_then_deduct_round_trip_witness :
  exists w1 w2 r1 r2,
    refundCredits accepting "u1" 60 "generation failed" (Some "task-1") None start
    = (Normal r1, w1)
    /\ deductCredits accepting "u1" 60 "video gen" (Some "task-2") w1
       = (Normal r2, w2)
    /\ credits <$> user_profiles w2 !! "u1" = Some (Some 100)
    /\ total_credits_spent <$> user_profiles w2 !! "u1" = Some (Some 60).
Proof.
  pose proof (refundCredits_run accepting "u1" 60 "generation failed" start alice
                eq_refl eq_refl eq_refl eq_refl (Some "task-1") None) as H1.
  match type of H1 with
  | _ = (_, ?w1) =>
      pose proof (deductCredits_run accepting "u1" 60 "video gen" (Some "task-2")
                    w1 (apply_patch (refund_patch alice 60) alice)
                    eq_refl eq_refl (lookup_insert_eq _ _ _)) as H2
  end.
  assert (Hle : 60 <= to_number (credits (apply_patch (refund_patch alice 60) alice)))
    by (cbn; lia).
  specialize (H2 Hle eq_refl).
  destruct (refund_then_deduct_round_trip accepting accepting "u1" 60
              "generation failed" "video gen" (Some "task-1") None (Some "task-2")
              start _ _ _ _ alice 100 eq_refl eq_refl H1 eq_refl H2 eq_refl)
    as (Hcredits & _ & _ & Hspent & _).
  do 4 eexists.
  split; [exact H1|]. split; [exact H2|]. split; [exact Hcredits|].
  apply Hspent. cbn. lia.
Defined.

(** ** recordVideoCompletion *)

Lemma recordVideoCompletion_run db userId taskId videoId w :
  client_failure db = None ->
  recordVideoCompletion db userId taskId videoId w =
  match update_error db with
  | Some _ =>
      (Normal (completion_failure "Failed to update transaction record"),
       {| user_profiles := user_profiles w;
          credit_transactions := credit_transactions w;
          videos := videos w;
          files := files w;
          calls := calls w ++ [UpdateTransactions userId taskId videoId] |})
  | None =>
      (Normal completion_success,
       {| user_profiles := user_profiles w;
          credit_transactions :=
            map (tag_row userId taskId videoId) (credit_transactions w);
          videos := videos w;
          files := files w;
          calls := calls w ++ [UpdateTransactions userId taskId videoId] |})
  end.
Proof.
  intros Hclient. run_ledger. rewrite Hclient. cbn.
  destruct (update_error db); reflexivity.
Qed.

Lemma tag_rows_none userId taskId videoId (rows : list CreditTransactionRow) :
  Forall (fun row => completion_filter userId taskId row = false) rows ->
  map (tag_row userId taskId videoId) rows = rows.
Proof.
  induction 1 as [|row rows Hrow _ IH]; [reflexivity|].
  cbn [map]. unfold tag_row at 1. rewrite Hrow, IH. reflexivity.
Qed.

Lemma tag_rows_each userId taskId videoId (rows : list CreditTransactionRow) :
  Forall2
    (fun old new =>
       if completion_filter userId taskId old
       then new = completion_patch taskId videoId old
       else new = old)
    rows (map (tag_row userId taskId videoId) rows).
Proof.
  induction rows as [|row rows IH]; cbn [map]; constructor; [|exact IH].
  unfold tag_row. destruct (completion_filter userId taskId row); reflexivity.
Qed.

(** Whatever the database does, the call returns: it never throws, it
    touches nothing but the ledger, and it leaves the ledger alone when it
    fails or when no row passes the filter. *)
Lemma recordVideoCompletion_cases db userId taskId videoId w :
  exists r w',
    recordVideoCompletion db userId taskId videoId w = (Normal r, w')
    /\ user_profiles w' = user_profiles w
    /\ videos w' = videos w
    /\ files w' = files w
    /\ ((client_failure db <> None \/ update_error db <> None) ->
        credit_transactions w' = credit_transactions w)
    /\ (Forall (fun row => completion_filter userId taskId row = false)
          (credit_transactions w) ->
        credit_transactions w' = credit_transactions w).
Proof.
  destruct (client_failure db) as [e|] eqn:Hclient.
  - run_ledger. rewrite Hclient. cbn. do 2 eexists.
    split; [reflexivity|]. repeat split.
  - rewrite recordVideoCompletion_run by assumption.
    destruct (update_error db) as [e|]; do 2 eexists;
      (split; [reflexivity|]); cbn; repeat split.
    + intros [H|H]; congruence.
    + apply tag_rows_none.
Qed.

(** *** [LIKE] on a literal task id is [includes] *)

Lemma like_percent (p s : string) :
  like (String "%" p) s
  = like p s
    || match s with
       | EmptyString => false
       | String _ s' => like (String "%" p) s'
       end.
Proof. destruct s; reflexivity. Qed.

Lemma like_literal_char (c : ascii) (p s : string) :
  Ascii.eqb c "%" = false -> Ascii.eqb c "_" = false -> Ascii.eqb c "\" = false ->
  like (String c p) s
  = match s with
    | EmptyString => false
    | String d s' => Ascii.eqb c d && like p s'
    end.
Proof.
  intros H1 H2 H3. cbn [like]. rewrite H1, H2, H3. reflexivity.
Qed.

Lemma like_only_percent (s : string) : like "%" s = true.
Proof.
  induction s as [|c s IH]; [reflexivity|].
  rewrite like_percent, IH. apply orb_true_r.
Qed.

Lemma like_literal_prefix (lit s : string) :
  literal lit = true -> like (lit +:+ "%") s = String.prefix lit s.
Proof.
  revert s. induction lit as [|c lit IH]; intros s Hlit.
  - change ("" +:+ "%") with "%". rewrite like_only_percent.
    destruct s; reflexivity.
  - cbn [literal] in Hlit.
    apply andb_prop in Hlit as [Hlit Hrest].
    apply andb_prop in Hlit as [Hlit H3].
    apply andb_prop in Hlit as [H1 H2].
    apply negb_true_iff in H1, H2, H3.
    change (String c lit +:+ "%") with (String c (lit +:+ "%")).
    rewrite like_literal_char by assumption.
    destruct s as [|d s]; [reflexivity|].
    cbn [String.prefix]. rewrite IH by assumption.
    destruct (Ascii.eqb_spec c d) as [->|Hne]; destruct (ascii_dec _ _);
      try reflexivity; congruence.
Qed.

Lemma like_literal_includes (lit s : string) :
  literal lit = true -> like (String "%" (lit +:+ "%")) s = includes s lit.
Proof.
  intros Hlit. induction s as [|c s IH].
  - rewrite like_percent, like_literal_prefix by assumption.
    cbn [includes]. reflexivity.
  - rewrite like_percent, like_literal_prefix, IH by assumption.
    cbn [includes]. reflexivity.
Qed.

(** For a task id without wildcards the filter of [recordVideoCompletion]
    reads: same user, type [usage], description containing [Task: {taskId}],
    no video id yet. *)
Lemma completion_filter_literal userId taskId (row : CreditTransactionRow) :
  literal taskId = true ->
  completion_filter userId taskId row
  = String.eqb (user_id row) userId
    && TransactionType_eqb (transaction_type row) usage
    && includes (description row) ("Task: " +:+ taskId)
    && match video_id row with
       | None => true
       | Some _ => false
       end.
Proof.
  intros Hlit. unfold completion_filter.
  change ("%Task: " +:+ taskId +:+ "%")
    with (String "%" (("Task: " +:+ taskId) +:+ "%")).
  rewrite like_literal_includes; [reflexivity|].
  exact Hlit.
Qed.

(** Claim C5, as stated, fails when two un-tagged charges name the task: the
    call tags both, so the older row does not stay as it was. *)
Lemma recordVideoCompletion_older_row_counterexample :
  credit_transactions charged_twice = [first_charge; second_charge]
  /\ completion_filter "u1" "task-1" first_charge = true
  /\ completion_filter "u1" "task-1" second_charge = true
  /\ (created_at first_charge ?= created_at second_charge)%string = Lt
  /\ credit_transactions
       (snd (recordVideoCompletion accepting "u1" "task-1" "video-9" charged_twice))
     = [completion_patch "task-1" "video-9" first_charge;
        completion_patch "task-1" "video-9" second_charge]
  /\ video_id (completion_patch "task-1" "video-9" first_charge) = Some "video-9"
  /\ completion_patch "task-1" "video-9" first_charge <> first_charge.
Proof.
  rewrite recordVideoCompletion_run by reflexivity.
  repeat split; try reflexivity. discriminate.
Qed.

(** Claim C5, amended.  When its update is accepted,
    [recordVideoCompletion(userId, taskId, videoId)] reports success and
    attaches [videoId] (with the description of a completed generation) to
    every row that passes its filter and leaves every other row as it is.
    For a task id without wildcards the rows that pass are the [usage] rows
    of that user whose description contains [Task: {taskId}] and whose
    [video_id] is null. *)
Theorem recordVideoCompletion_tags_every_match
    (db : Backend) (userId taskId videoId : string) (w : World) :
  client_failure db = None ->
  update_error db = None ->
  exists w',
    recordVideoCompletion db userId taskId videoId w
    = (Normal completion_success, w')
    /\ Forall2
         (fun old new =>
            if completion_filter userId taskId old
            then new = completion_patch taskId videoId old
                 /\ video_id new = Some videoId
            else new = old)
         (credit_transactions w) (credit_transactions w')
    /\ (literal taskId = true ->
        forall row,
          completion_filter userId taskId row = true
          <-> user_id row = userId
              /\ transaction_type row = usage
              /\ includes (description row) ("Task: " +:+ taskId) = true
              /\ video_id row = None).
Proof.
  intros Hclient Hupdate.
  rewrite recordVideoCompletion_run, Hupdate by assumption.
  eexists. split; [reflexivity|]. cbn [credit_transactions]. split.
  - eapply Forall2_impl; [apply tag_rows_each|].
    intros old new. cbn beta.
    destruct (completion_filter userId taskId old); [|tauto].
    intros ->. split; reflexivity.
  - intros Hlit row. rewrite completion_filter_literal by assumption.
    rewrite !andb_true_iff.
    destruct (String.eqb_spec (user_id row) userId);
      destruct (transaction_type row); destruct (video_id row); cbn;
      intuition congruence.
Qed.

Lemma recordVideoCompletion_tags_every_match_witness :
  exists w',
    recordVideoCompletion accepting "u1" "task-1" "video-9" charged_twice
    = (Normal completion_success, w')
    /\ Forall2
         (fun old new =>
            if completion_filter "u1" "task-1" old
            then new = completion_patch "task-1" "video-9" old
                 /\ video_id new = Some "video-9"
            else new = old)
         (credit_transactions charged_twice) (credit_transactions w')
    /\ (literal "task-1" = true ->
        forall row,
          completion_filter "u1" "task-1" row = true
          <-> user_id row = "u1"
              /\ transaction_type row = usage
              /\ includes (description row) ("Task: " +:+ "task-1") = true
              /\ video_id row = None).
Proof.
  apply (recordVideoCompletion_tags_every_match accepting "u1" "task-1" "video-9"
           charged_twice); reflexivity.
Defined.

(** ** The media workflow *)

Ltac run_pipeline :=
  unfold completeVideoProcessing, processKieVideoAndThumbnail,
    saveVideoToDatabase, uploadToR2, downloadVideo, promise_all,
    cleanup_on_error, cleanup_local, unlink_ignoring, unlinkSync,
    createWriteStream, existsSync, try_catch, bind, ret, throw, get, issue,
    put_files, put_videos;
  cbn.

Lemma with_files_id (w : World) : with_files w (files w) = w.
Proof. destruct w; reflexivity. Qed.

Lemma cleanupTempFiles_run env (filePaths : list string) (w : World) :
  cleanupTempFiles env filePaths w
  = (Normal tt, with_files w (foldl (remove_file env) (files w) filePaths)).
Proof.
  revert w. induction filePaths as [|filePath rest IH]; intros w.
  - cbn. rewrite with_files_id. reflexivity.
  - cbn [cleanupTempFiles foldl]. unfold bind at 1.
    assert (Hstep :
      try_catch
        (present <- existsSync filePath;;
         (if present then unlinkSync env filePath else ret tt))
        (fun _ => ret tt) w
      = (Normal tt, with_files w (remove_file env (files w) filePath))).
    { unfold try_catch, bind, existsSync, get, unlinkSync, remove_file.
      destruct (bool_decide (filePath ∈ files w)).
      - destruct (unlink_fails env filePath); cbn.
        + rewrite with_files_id. reflexivity.
        + reflexivity.
      - cbn. rewrite with_files_id. reflexivity. }
    rewrite Hstep, IH. reflexivity.
Qed.

Lemma remove_file_subseteq env (present : gset string) (path : string) :
  remove_file env present path ⊆ present.
Proof.
  unfold remove_file.
  destruct (bool_decide (path ∈ present)); [|reflexivity].
  destruct (unlink_fails env path); [reflexivity|].
  intros x Hx. apply elem_of_difference in Hx as [Hx _]. exact Hx.
Qed.

Lemma remove_file_gone env (present : gset string) (path : string) :
  unlink_fails env path = false -> path ∉ remove_file env present path.
Proof.
  intros Hok. unfold remove_file. rewrite Hok.
  destruct (bool_decide_reflect (path ∈ present)) as [Hin|Hout].
  - rewrite elem_of_difference, elem_of_singleton. tauto.
  - exact Hout.
Qed.

(** After [cleanupTempFiles] on two paths whose unlink works, neither file
    is left. *)
Lemma cleanup_both_gone env (present : gset string) (a b : string) :
  unlink_fails env a = false ->
  unlink_fails env b = false ->
  (a ∉ foldl (remove_file env) present [a; b])
  /\ (b ∉ foldl (remove_file env) present [a; b]).
Proof.
  intros Ha Hb. cbn [foldl]. split.
  - intros Hin. apply remove_file_subseteq in Hin.
    revert Hin. apply remove_file_gone, Ha.
  - apply remove_file_gone, Hb.
Qed.

Lemma saveVideoToDatabase_run env processingResult metadata w :
  catalog_client_failure env = None ->
  saveVideoToDatabase env processingResult metadata w =
  match catalog_insert env with
  | Inserted id =>
      (Normal id,
       {| user_profiles := user_profiles w;
          credit_transactions := credit_transactions w;
          videos := videos w ++ [videoData env processingResult metadata id];
          files := files w;
          calls := calls w ++ [InsertVideo (taskId metadata)] |})
  | Refused e =>
      (Thrown (ErrorObject ("Failed to save video to database: " +:+ message e)),
       {| user_profiles := user_profiles w;
          credit_transactions := credit_transactions w;
          videos := videos w;
          files := files w;
          calls := calls w ++ [InsertVideo (taskId metadata)] |})
  | NoData =>
      (Thrown (ErrorObject "Failed to save video to database: No data returned"),
       {| user_profiles := user_profiles w;
          credit_transactions := credit_transactions w;
          videos := videos w;
          files := files w;
          calls := calls w ++ [InsertVideo (taskId metadata)] |})
  end.
Proof.
  intros Hclient. run_pipeline. rewrite Hclient. cbn.
  destruct (catalog_insert env); reflexivity.
Qed.

(** The second stretch of [completeVideoProcessing]: what follows a
    [processKieVideoAndThumbnail] that returned. *)
Lemma completeVideoProcessing_after_publish
    env kieVideoUrl kieThumbnailUrl metadata w processingResult w1 :
  processKieVideoAndThumbnail env kieVideoUrl kieThumbnailUrl metadata w
  = (Normal processingResult, w1) ->
  catalog_client_failure env = None ->
  completeVideoProcessing env kieVideoUrl kieThumbnailUrl metadata w =
  match catalog_insert env with
  | Inserted id =>
      let w2 :=
        {| user_profiles := user_profiles w1;
           credit_transactions := credit_transactions w1;
           videos := videos w1 ++ [videoData env processingResult metadata id];
           files := files w1;
           calls := calls w1 ++ [InsertVideo (taskId metadata)] |} in
      let w3 :=
        if truthy (userId metadata)
        then snd (recordVideoCompletion (ledger env) (template (userId metadata))
                    (taskId metadata) id w2)
        else w2 in
      (Normal {| Completed.videoId := id;
                 Completed.videoUrl := Processing.videoUrl processingResult;
                 Completed.thumbnailUrl :=
                   Processing.thumbnailUrl processingResult |},
       with_files w3
         (foldl (remove_file env) (files w3)
            [Processing.localVideoPath processingResult;
             Processing.localThumbnailPath processingResult]))
  | Refused e =>
      (Thrown (ErrorObject ("Failed to save video to database: " +:+ message e)),
       with_files
         {| user_profiles := user_profiles w1;
            credit_transactions := credit_transactions w1;
            videos := videos w1;
            files := files w1;
            calls := calls w1 ++ [InsertVideo (taskId metadata)] |}
         (foldl (remove_file env) (files w1)
            (List.filter (fun path => truthy (Some path))
               [Processing.localVideoPath processingResult;
                Processing.localThumbnailPath processingResult])))
  | NoData =>
      (Thrown (ErrorObject "Failed to save video to database: No data returned"),
       with_files
         {| user_profiles := user_profiles w1;
            credit_transactions := credit_transactions w1;
            videos := videos w1;
            files := files w1;
            calls := calls w1 ++ [InsertVideo (taskId metadata)] |}
         (foldl (remove_file env) (files w1)
            (List.filter (fun path => truthy (Some path))
               [Processing.localVideoPath processingResult;
                Processing.localThumbnailPath processingResult])))
  end.
Proof.
  intros Hpublish Hclient.
  unfold completeVideoProcessing.
  unfold bind at 1. unfold try_catch at 1. rewrite Hpublish.
  unfold try_catch at 1. unfold bind at 1.
  rewrite saveVideoToDatabase_run by assumption.
  destruct (catalog_insert env) as [id|e|].
  - cbv zeta. unfold bind at 1.
    destruct (truthy (userId metadata)).
    + unfold bind at 1.
      destruct (recordVideoCompletion_cases (ledger env)
                  (template (userId metadata)) (taskId metadata) id
                  {| user_profiles := user_profiles w1;
                     credit_transactions := credit_transactions w1;
                     videos :=
                       videos w1 ++ [videoData env processingResult metadata id];
                     files := files w1;
                     calls := calls w1 ++ [InsertVideo (taskId metadata)] |})
        as (r & w3 & -> & _).
      cbn [snd]. unfold ret at 1. unfold bind at 1.
      rewrite cleanupTempFiles_run. reflexivity.
    + unfold ret at 1. unfold bind at 1.
      rewrite cleanupTempFiles_run. reflexivity.
  - unfold bind at 1. rewrite cleanupTempFiles_run. reflexivity.
  - unfold bind at 1. rewrite cleanupTempFiles_run. reflexivity.
Qed.

(** Claim C8.  [recordVideoCompletion], when no row passes its filter,
    reports success and leaves every row as it is.  And once the media are
    published and the catalog row inserted under [id],
    [completeVideoProcessing] returns [id] with the two public URLs whatever
    the ledger does during the tagging; the catalog keeps the new row; the
    ledger is as before when the tagging fails or matches nothing. *)
Theorem completion_tagging_is_best_effort
    (env : Pipeline) (kieVideoUrl kieThumbnailUrl : string)
    (metadata : VideoMetadata) (w w1 : World)
    (processingResult : Processing.t) (id : string) :
  processKieVideoAndThumbnail env kieVideoUrl kieThumbnailUrl metadata w
  = (Normal processingResult, w1) ->
  catalog_client_failure env = None ->
  catalog_insert env = Inserted id ->
  (forall (db : Backend) (u t v : string) (w0 : World),
      client_failure db = None ->
      update_error db = None ->
      Forall (fun row => completion_filter u t row = false)
        (credit_transactions w0) ->
      exists w0',
        recordVideoCompletion db u t v w0 = (Normal completion_success, w0')
        /\ credit_transactions w0' = credit_transactions w0)
  /\ exists w',
       completeVideoProcessing env kieVideoUrl kieThumbnailUrl metadata w
       = (Normal {| Completed.videoId := id;
                    Completed.videoUrl := Processing.videoUrl processingResult;
                    Completed.thumbnailUrl :=
                      Processing.thumbnailUrl processingResult |}, w')
       /\ videos w' = videos w1 ++ [videoData env processingResult metadata id]
       /\ ((client_failure (ledger env) <> None
            \/ update_error (ledger env) <> None) ->
           credit_transactions w' = credit_transactions w1)
       /\ (Forall
             (fun row =>
                completion_filter (template (userId metadata)) (taskId metadata)
                  row = false)
             (credit_transactions w1) ->
           credit_transactions w' = credit_transactions w1).
Proof.
  intros Hpublish Hclient Hinsert. split.
  - intros db u t v w0 Hdb Hupdate Hnone.
    rewrite recordVideoCompletion_run, Hupdate by assumption.
    eexists. split; [reflexivity|]. cbn. apply tag_rows_none, Hnone.
  - rewrite (completeVideoProcessing_after_publish _ _ _ _ _ _ _ Hpublish Hclient).
    rewrite Hinsert. cbv zeta. eexists. split; [reflexivity|].
    cbn [with_files videos credit_transactions].
    destruct (truthy (userId metadata)).
    + match goal with
      | |- context [recordVideoCompletion ?db ?u ?t ?v ?w2] =>
          destruct (recordVideoCompletion_cases db u t v w2)
            as (r & w3 & -> & _ & Hvideos & _ & Hfails & Hnone)
      end.
      cbn [snd]. cbn [videos credit_transactions] in *.
      split; [exact Hvideos|]. split; assumption.
    + cbn. repeat split.
Qed.

Lemma path_join_truthy (dir name : string) :
  truthy (Some (path_join dir name)) = true.
Proof. destruct dir; reflexivity. Qed.

Lemma video_temp_path_truthy env metadata :
  truthy (Some (video_temp_path env metadata)) = true.
Proof. apply path_join_truthy. Qed.

Lemma thumbnail_temp_path_truthy env metadata :
  truthy (Some (thumbnail_temp_path env metadata)) = true.
Proof. apply path_join_truthy. Qed.

Lemma downloadVideo_finished env url fileName w statusMessage bytes :
  download env url = Responded 200 statusMessage (Finished bytes) ->
  downloadVideo env url fileName w
  = (Normal {| DownloadResult.filePath := temp_path env fileName;
               DownloadResult.fileSize := bytes |},
     with_files w ({[ temp_path env fileName ]} ∪ files w)).
Proof.
  intros Hdownload. unfold downloadVideo. cbv zeta.
  unfold bind, createWriteStream, get, put_files. rewrite Hdownload.
  reflexivity.
Qed.

Lemma downloadVideo_bad_status env url fileName w code reason body :
  download env url = Responded code reason body ->
  code <> 200 ->
  downloadVideo env url fileName w
  = (Thrown (ErrorObject ("HTTP " +:+ pretty code +:+ ": " +:+ reason)),
     with_files w ({[ temp_path env fileName ]} ∪ files w)).
Proof.
  intros Hdownload Hcode. unfold downloadVideo. cbv zeta.
  unfold bind, createWriteStream, get, put_files. rewrite Hdownload.
  destruct (Z.eqb_spec code 200); [contradiction|]. reflexivity.
Qed.

(** A download that times out rejects with ['Download timeout']; its file
    is unlinked only by the request's ['error'] handler, when that event
    follows. *)
Lemma downloadVideo_timeout env url fileName w error_event :
  download env url = Timeout error_event ->
  downloadVideo env url fileName w
  = (Thrown (ErrorObject "Download timeout"),
     with_files w
       (if error_event
        then remove_file env ({[ temp_path env fileName ]} ∪ files w)
               (temp_path env fileName)
        else {[ temp_path env fileName ]} ∪ files w)).
Proof.
  intros Hdownload. unfold downloadVideo, temp_path. cbv zeta.
  set (filePath := path_join _ fileName).
  unfold bind at 1. unfold createWriteStream, bind, get, put_files.
  rewrite Hdownload. destruct error_event; [|reflexivity].
  unfold unlink_ignoring, try_catch, unlinkSync, remove_file, bind, get, put_files,
    throw, ret.
  assert (Hin : filePath ∈ ({[ filePath ]} ∪ files w : gset string)).
  { apply elem_of_union. left. apply elem_of_singleton. reflexivity. }
  rewrite (bool_decide_eq_true_2 _ Hin).
  destruct (unlink_fails env filePath); reflexivity.
Qed.

Lemma uploadToR2_run env filePath key contentType w :
  filePath ∈ files w ->
  uploadToR2 env filePath key contentType w
  = (match send env key with
     | Some e => Thrown e
     | None => Normal (template (R2_ENDPOINT env) +:+ "/" +:+ key)
     end, w).
Proof.
  intros Hin. unfold uploadToR2, try_catch, bind, existsSync, get.
  rewrite (bool_decide_eq_true_2 _ Hin). cbn.
  destruct (send env key); reflexivity.
Qed.

Lemma cleanup_local_run env path w :
  truthy (Some path) = true ->
  cleanup_local env (Some path) w
  = (Normal tt, with_files w (remove_file env (files w) path)).
Proof.
  intros Htruthy. unfold cleanup_local. rewrite Htruthy.
  unfold bind, existsSync, get, unlink_ignoring, try_catch, unlinkSync,
    remove_file.
  destruct (bool_decide (path ∈ files w)).
  - destruct (unlink_fails env path); cbn; [rewrite with_files_id|]; reflexivity.
  - cbn. rewrite with_files_id. reflexivity.
Qed.

Lemma cleanup_on_error_run {A} env a b e w :
  truthy (Some a) = true ->
  truthy (Some b) = true ->
  @cleanup_on_error A env (Some a) (Some b) e w
  = (Thrown e, with_files w (foldl (remove_file env) (files w) [a; b])).
Proof.
  intros Ha Hb. unfold cleanup_on_error.
  unfold bind at 1. rewrite cleanup_local_run by assumption.
  unfold bind at 1. rewrite cleanup_local_run by assumption.
  reflexivity.
Qed.

Section Publish.
Variables (env : Pipeline) (kieVideoUrl kieThumbnailUrl : string).
Variables (metadata : VideoMetadata) (w : World).

Lemma video_downloaded : video_temp_path env metadata ∈ downloaded env metadata w.
Proof. unfold downloaded. set_solver. Qed.

Lemma thumbnail_downloaded :
  thumbnail_temp_path env metadata ∈ downloaded env metadata w.
Proof. unfold downloaded. set_solver. Qed.

(** The first stretch when both downloads finish. *)
Lemma downloads_finished message1 bytes1 message2 bytes2 :
  download env kieVideoUrl = Responded 200 message1 (Finished bytes1) ->
  download env kieThumbnailUrl = Responded 200 message2 (Finished bytes2) ->
  promise_all env
    (downloadVideo env kieVideoUrl
       ("kie-video-" +:+ taskId metadata +:+ "-" +:+ pretty (now env) +:+ ".mp4"))
    (downloadVideo env kieThumbnailUrl
       ("kie-thumbnail-" +:+ taskId metadata +:+ "-" +:+ pretty (now env)
        +:+ ".jpg")) w
  = (Normal
       ({| DownloadResult.filePath := video_temp_path env metadata;
           DownloadResult.fileSize := bytes1 |},
        {| DownloadResult.filePath := thumbnail_temp_path env metadata;
           DownloadResult.fileSize := bytes2 |}),
     with_files w (downloaded env metadata w)).
Proof.
  intros Hvideo Hthumbnail. unfold promise_all.
  rewrite (downloadVideo_finished _ _ _ _ _ _ Hvideo).
  rewrite (downloadVideo_finished _ _ _ _ _ _ Hthumbnail).
  reflexivity.
Qed.

(** The video is downloaded in full and the thumbnail URL answers with
    another status than 200: the error leaves
    [processKieVideoAndThumbnail] with both temp files in place. *)
Lemma processKie_thumbnail_rejected statusMessage bytes code reason body :
  download env kieVideoUrl = Responded 200 statusMessage (Finished bytes) ->
  download env kieThumbnailUrl = Responded code reason body ->
  code <> 200 ->
  processKieVideoAndThumbnail env kieVideoUrl kieThumbnailUrl metadata w
  = (Thrown (ErrorObject ("HTTP " +:+ pretty code +:+ ": " +:+ reason)),
     with_files w (downloaded env metadata w)).
Proof.
  intros Hvideo Hthumbnail Hcode.
  unfold processKieVideoAndThumbnail. cbv zeta.
  unfold bind at 1. unfold try_catch at 1. unfold promise_all at 1.
  rewrite (downloadVideo_finished _ _ _ _ _ _ Hvideo).
  rewrite (downloadVideo_bad_status _ _ _ _ _ _ _ Hthumbnail Hcode).
  reflexivity.
Qed.

Lemma processKie_published message1 bytes1 message2 bytes2 :
  download env kieVideoUrl = Responded 200 message1 (Finished bytes1) ->
  download env kieThumbnailUrl = Responded 200 message2 (Finished bytes2) ->
  send env (video_key env metadata) = None ->
  send env (thumbnail_key env metadata) = None ->
  processKieVideoAndThumbnail env kieVideoUrl kieThumbnailUrl metadata w
  = (Normal
       {| Processing.videoUrl :=
            template (R2_ENDPOINT env) +:+ "/" +:+ video_key env metadata;
          Processing.thumbnailUrl :=
            template (R2_ENDPOINT env) +:+ "/" +:+ thumbnail_key env metadata;
          Processing.videoFileSize := bytes1;
          Processing.thumbnailFileSize := bytes2;
          Processing.localVideoPath := video_temp_path env metadata;
          Processing.localThumbnailPath := thumbnail_temp_path env metadata |},
     with_files w (downloaded env metadata w)).
Proof.
  intros Hvideo Hthumbnail Hsend1 Hsend2.
  unfold processKieVideoAndThumbnail. cbv zeta.
  unfold bind at 1. unfold try_catch at 1.
  rewrite (downloads_finished _ _ _ _ Hvideo Hthumbnail). cbn [fst snd].
  cbn [DownloadResult.filePath DownloadResult.fileSize].
  unfold bind at 1. unfold try_catch at 1. unfold promise_all at 1.
  rewrite uploadToR2_run by apply video_downloaded.
  rewrite uploadToR2_run by apply thumbnail_downloaded.
  fold (video_key env metadata). fold (thumbnail_key env metadata).
  rewrite Hsend1, Hsend2. reflexivity.
Qed.

(** A rejected upload: [cleanupTempFiles]' work is done on both temp files
    before the error leaves [processKieVideoAndThumbnail]. *)
Lemma processKie_upload_rejected message1 bytes1 message2 bytes2 :
  download env kieVideoUrl = Responded 200 message1 (Finished bytes1) ->
  download env kieThumbnailUrl = Responded 200 message2 (Finished bytes2) ->
  send env (video_key env metadata) <> None
  \/ send env (thumbnail_key env metadata) <> None ->
  exists e,
    processKieVideoAndThumbnail env kieVideoUrl kieThumbnailUrl metadata w
    = (Thrown e,
       with_files w
         (foldl (remove_file env) (downloaded env metadata w)
            [video_temp_path env metadata; thumbnail_temp_path env metadata])).
Proof.
  intros Hvideo Hthumbnail Hsend.
  unfold processKieVideoAndThumbnail. cbv zeta.
  unfold bind at 1. unfold try_catch at 1.
  rewrite (downloads_finished _ _ _ _ Hvideo Hthumbnail). cbn [fst snd].
  cbn [DownloadResult.filePath DownloadResult.fileSize].
  unfold bind at 1. unfold try_catch at 1. unfold promise_all at 1.
  rewrite uploadToR2_run by apply video_downloaded.
  rewrite uploadToR2_run by apply thumbnail_downloaded.
  fold (video_key env metadata). fold (thumbnail_key env metadata).
  destruct (send env (video_key env metadata)) as [e1|];
    destruct (send env (thumbnail_key env metadata)) as [e2|];
    try (exfalso; clear -Hsend; intuition congruence);
    rewrite cleanup_on_error_run by apply path_join_truthy;
    eexists; reflexivity.
Qed.
End Publish.

Lemma completion_tagging_is_best_effort_witness :
  (update_error (ledger tagging_refused) = Some denied
   /\ exists w',
        completeVideoProcessing tagging_refused
          "https://kie.example/out/video.mp4" "https://kie.example/out/thumb.jpg"
          task1 charged_twice
        = (Normal
             {| Completed.videoId := "video-9";
                Completed.videoUrl :=
                  "https://cdn.example.com/videos/video-1700000000000-task-1.mp4";
                Completed.thumbnailUrl :=
                  "https://cdn.example.com/thumbnails/thumb-1700000000000-task-1.jpg"
             |}, w')
        /\ map Videos.id (videos w') = ["video-9"]
        /\ credit_transactions w' = [first_charge; second_charge])
  /\ (credit_transactions start = []
      /\ exists w',
           completeVideoProcessing all_well
             "https://kie.example/out/video.mp4" "https://kie.example/out/thumb.jpg"
             task1 start
           = (Normal
                {| Completed.videoId := "video-9";
                   Completed.videoUrl :=
                     "https://cdn.example.com/videos/video-1700000000000-task-1.mp4";
                   Completed.thumbnailUrl :=
                     "https://cdn.example.com/thumbnails/thumb-1700000000000-task-1.jpg"
                |}, w')
           /\ map Videos.id (videos w') = ["video-9"]
           /\ credit_transactions w' = []).
Proof.
  split; (split; [reflexivity|]).
  - destruct (completion_tagging_is_best_effort tagging_refused
                "https://kie.example/out/video.mp4"
                "https://kie.example/out/thumb.jpg" task1 charged_twice _ _
                "video-9"
                (processKie_published tagging_refused _ _ task1 charged_twice
                   "OK" 52000 "OK" 52000 eq_refl eq_refl eq_refl eq_refl)
                eq_refl eq_refl)
      as [_ (w' & Hrun & Hvideos & Hfails & _)].
    exists w'. split; [exact Hrun|]. split.
    + rewrite Hvideos. reflexivity.
    + rewrite Hfails; [reflexivity|]. right. discriminate.
  - destruct (completion_tagging_is_best_effort all_well
                "https://kie.example/out/video.mp4"
                "https://kie.example/out/thumb.jpg" task1 start _ _ "video-9"
                (processKie_published all_well _ _ task1 start
                   "OK" 52000 "OK" 52000 eq_refl eq_refl eq_refl eq_refl)
                eq_refl eq_refl)
      as [_ (w' & Hrun & Hvideos & _ & Hnone)].
    exists w'. split; [exact Hrun|]. split.
    + rewrite Hvideos. reflexivity.
    + rewrite Hnone; [reflexivity|]. constructor.
Defined.

(** An error that leaves [processKieVideoAndThumbnail] leaves
    [completeVideoProcessing] as it is: [processingResult] is still [null],
    so nothing is cleaned up on the way. *)
Lemma completeVideoProcessing_publish_failed
    env kieVideoUrl kieThumbnailUrl metadata w e w1 :
  processKieVideoAndThumbnail env kieVideoUrl kieThumbnailUrl metadata w
  = (Thrown e, w1) ->
  completeVideoProcessing env kieVideoUrl kieThumbnailUrl metadata w
  = (Thrown e, w1).
Proof.
  intros Hpublish. unfold completeVideoProcessing.
  unfold bind at 1. unfold try_catch at 1. rewrite Hpublish. reflexivity.
Qed.

(** Where the code does clean up: a rejected upload, a refused catalog
    insert, and the normal return.  When [unlink] works on the two temp
    files, neither is left. *)
Lemma completeVideoProcessing_cleans_after_download
    env kieVideoUrl kieThumbnailUrl metadata w message1 bytes1 message2 bytes2 :
  download env kieVideoUrl = Responded 200 message1 (Finished bytes1) ->
  download env kieThumbnailUrl = Responded 200 message2 (Finished bytes2) ->
  catalog_client_failure env = None ->
  unlink_fails env (video_temp_path env metadata) = false ->
  unlink_fails env (thumbnail_temp_path env metadata) = false ->
  exists r w',
    completeVideoProcessing env kieVideoUrl kieThumbnailUrl metadata w = (r, w')
    /\ (video_temp_path env metadata ∉ files w')
    /\ (thumbnail_temp_path env metadata ∉ files w').
Proof.
  intros Hvideo Hthumbnail Hclient Hunlink1 Hunlink2.
  destruct (send env (video_key env metadata)) as [e1|] eqn:Hsend1;
    [|destruct (send env (thumbnail_key env metadata)) as [e2|] eqn:Hsend2].
  - destruct (processKie_upload_rejected env kieVideoUrl kieThumbnailUrl metadata
                w _ _ _ _ Hvideo Hthumbnail) as (e & Hrun).
    { left. congruence. }
    rewrite (completeVideoProcessing_publish_failed _ _ _ _ _ _ _ Hrun).
    do 2 eexists. split; [reflexivity|].
    apply cleanup_both_gone; assumption.
  - destruct (processKie_upload_rejected env kieVideoUrl kieThumbnailUrl metadata
                w _ _ _ _ Hvideo Hthumbnail) as (e & Hrun).
    { right. congruence. }
    rewrite (completeVideoProcessing_publish_failed _ _ _ _ _ _ _ Hrun).
    do 2 eexists. split; [reflexivity|].
    apply cleanup_both_gone; assumption.
  - rewrite (completeVideoProcessing_after_publish _ _ _ _ _ _ _
               (processKie_published env kieVideoUrl kieThumbnailUrl metadata w
                  _ _ _ _ Hvideo Hthumbnail Hsend1 Hsend2) Hclient).
    cbn [Processing.localVideoPath Processing.localThumbnailPath].
    destruct (catalog_insert env) as [id|e|].
    + cbv zeta. do 2 eexists. split; [reflexivity|].
      apply cleanup_both_gone; assumption.
    + cbn [List.filter].
      rewrite video_temp_path_truthy, thumbnail_temp_path_truthy.
      do 2 eexists. split; [reflexivity|].
      apply cleanup_both_gone; assumption.
    + cbn [List.filter].
      rewrite video_temp_path_truthy, thumbnail_temp_path_truthy.
      do 2 eexists. split; [reflexivity|].
      apply cleanup_both_gone; assumption.
Qed.

(** Claim C4 does not hold of the code.  The video is downloaded in full,
    the thumbnail URL answers 404: [processKieVideoAndThumbnail] and
    [completeVideoProcessing] throw, and the downloaded video (and the file
    opened for the thumbnail) are still on disk, although no temp file was
    there before the call. *)
Theorem temp_files_left_after_failed_download :
  download thumbnail_missing "https://kie.example/out/video.mp4"
  = Responded 200 "OK" (Finished 52000)
  /\ download thumbnail_missing "https://kie.example/out/thumb.jpg"
     = Responded 404 "Not Found" (Finished 0)
  /\ files start = ∅
  /\ fst (processKieVideoAndThumbnail thumbnail_missing
            "https://kie.example/out/video.mp4"
            "https://kie.example/out/thumb.jpg" task1 start)
     = Thrown (ErrorObject "HTTP 404: Not Found")
  /\ fst (completeVideoProcessing thumbnail_missing
            "https://kie.example/out/video.mp4"
            "https://kie.example/out/thumb.jpg" task1 start)
     = Thrown (ErrorObject "HTTP 404: Not Found")
  /\ ("/tmp/kie-video-task-1-1700000000000.mp4"
      ∈ files (snd (completeVideoProcessing thumbnail_missing
                      "https://kie.example/out/video.mp4"
                      "https://kie.example/out/thumb.jpg" task1 start)))
  /\ ("/tmp/kie-thumbnail-task-1-1700000000000.jpg"
      ∈ files (snd (completeVideoProcessing thumbnail_missing
                      "https://kie.example/out/video.mp4"
                      "https://kie.example/out/thumb.jpg" task1 start))).
Proof.
  assert (Hrun :
    processKieVideoAndThumbnail thumbnail_missing
      "https://kie.example/out/video.mp4" "https://kie.example/out/thumb.jpg"
      task1 start
    = (Thrown (ErrorObject "HTTP 404: Not Found"),
       with_files start (downloaded thumbnail_missing task1 start))).
  { apply (processKie_thumbnail_rejected thumbnail_missing _ _ task1 start
             "OK" 52000 404 "Not Found" (Finished 0)); [reflexivity..|].
    discriminate. }
  rewrite (completeVideoProcessing_publish_failed _ _ _ _ _ _ _ Hrun), Hrun.
  cbn [fst snd files with_files].
  do 5 (split; [reflexivity|]). split.
  - apply (video_downloaded thumbnail_missing task1 start).
  - apply (thumbnail_downloaded thumbnail_missing task1 start).
Qed.

(** ** createCheckout *)

(** Claim C7.  The gateway answers a checkout request with a 2xx status and
    a JSON body: [createCheckout] returns, with the body's [payment_url] when
    it is present (truthy), else its [url], else its [checkout_url]; when
    none is present it still returns, with the configured payment URL, ["/"]
    and the body's [id]. *)
Theorem createCheckout_payment_url
    (process_env : gmap string string)
    (fetch : Http.request -> Completion Http.response)
    (this : CreemPaymentClient) (request : CheckoutRequest.t)
    (response : Http.response) (data : Data.t) :
  CheckoutRequest.product_id request <> "" ->
  fetch (checkout_request this request) = Normal response ->
  Http.ok response = true ->
  Http.json response = Normal data ->
  exists r,
    createCheckout process_env fetch this request = Normal r
    /\ CheckoutResponse.checkout_id r = Data.id data
    /\ (truthy (Data.payment_url data) = true ->
        CheckoutResponse.payment_url r = template (Data.payment_url data))
    /\ (truthy (Data.payment_url data) = false ->
        truthy (Data.url data) = true ->
        CheckoutResponse.payment_url r = template (Data.url data))
    /\ (truthy (Data.payment_url data) = false ->
        truthy (Data.url data) = false ->
        truthy (Data.checkout_url data) = true ->
        CheckoutResponse.payment_url r = template (Data.checkout_url data))
    /\ (truthy (Data.payment_url data) = false ->
        truthy (Data.url data) = false ->
        truthy (Data.checkout_url data) = false ->
        CheckoutResponse.payment_url r
        = PaymentConfig.paymentUrl (getPaymentConfig process_env) +:+ "/"
          +:+ template (Data.id data)).
Proof.
  intros Hproduct Hfetch Hok Hjson.
  unfold createCheckout. fold (checkout_request this request).
  unfold truthy at 1.
  destruct (String.eqb_spec (CheckoutRequest.product_id request) "");
    [contradiction|].
  cbn [negb]. rewrite Hfetch, Hok, Hjson. cbn [negb].
  eexists. split; [reflexivity|]. cbn [CheckoutResponse.checkout_id
    CheckoutResponse.payment_url].
  split; [reflexivity|].
  unfold or_else.
  destruct (truthy (Data.payment_url data)) eqn:H1;
    destruct (truthy (Data.url data)) eqn:H2;
    destruct (truthy (Data.checkout_url data)) eqn:H3;
    rewrite ?H1, ?H2, ?H3; repeat split; intros; try reflexivity; congruence.
Qed.

Lemma createCheckout_payment_url_witness :
  createCheckout ∅ gateway test_client basic_plan
  = Normal {| CheckoutResponse.checkout_id := Some "ch_123";
              CheckoutResponse.payment_url := "https://test.creem.io/checkout/ch_123";
              CheckoutResponse.status := "pending" |}.
Proof.
  destruct (createCheckout_payment_url ∅ gateway test_client basic_plan
              _ only_an_id ltac:(discriminate) eq_refl eq_refl eq_refl)
    as (r & Hrun & Hid & _ & _ & _ & Hfallback).
  rewrite Hrun. destruct r as [checkout_id payment_url status].
  cbn in Hid, Hfallback. rewrite Hid, (Hfallback eq_refl eq_refl eq_refl).
  f_equal. f_equal.
  injection Hrun as _ _ <-. reflexivity.
Defined.

(* ===================================================================== *)
(** * Further properties                                                  *)
(* ===================================================================== *)

(** ** The ledger operations *)

Lemma ledger_total_app (rows more : list CreditTransactionRow) (userId : string) :
  ledger_total (rows ++ more) userId
  = ledger_total rows userId + ledger_total more userId.
Proof.
  induction rows as [|row rows IH]; cbn [app ledger_total]; [reflexivity|].
  rewrite IH. lia.
Qed.

Lemma balance_alter (w : World) (f : UserProfile -> UserProfile)
    (userId other : string) (m : gmap string UserProfile) :
  m = user_profiles w ->
  match alter f userId m !! other with
  | Some profile => to_number (credits profile)
  | None => 0
  end
  = match user_profiles w !! other with
    | Some profile =>
        if bool_decide (userId = other)
        then to_number (credits (f profile))
        else to_number (credits profile)
    | None => 0
    end.
Proof.
  intros ->. destruct (decide (userId = other)) as [->|Hne].
  - rewrite lookup_alter_eq, bool_decide_eq_true_2 by reflexivity.
    destruct (user_profiles w !! other); reflexivity.
  - rewrite lookup_alter_ne, bool_decide_eq_false_2 by assumption.
    reflexivity.
Qed.

(** Property X1.  [deductCredits], [refundCredits] and [addCredits] always
    return a result, also when the client cannot be made: they never throw.
    A result that reports failure comes with an error string and with every
    profile and every ledger row as before. *)
Theorem ledger_failure_changes_nothing
    (db : Backend) (userId : string) (A : Z) (text : string)
    (taskId videoId : option string) (kind : option AdditionType)
    (metadata : option Metadata) (w : World) :
  (exists r w',
      deductCredits db userId A text taskId w = (Normal r, w')
      /\ (DeductResult.success r = false ->
          DeductResult.error r <> None
          /\ user_profiles w' = user_profiles w
          /\ credit_transactions w' = credit_transactions w))
  /\ (exists r w',
        refundCredits db userId A text taskId videoId w = (Normal r, w')
        /\ (CreditResult.success r = false ->
            CreditResult.error r <> None
            /\ user_profiles w' = user_profiles w
            /\ credit_transactions w' = credit_transactions w))
  /\ (exists r w',
        addCredits db userId A text kind metadata w = (Normal r, w')
        /\ (CreditResult.success r = false ->
            CreditResult.error r <> None
            /\ user_profiles w' = user_profiles w
            /\ credit_transactions w' = credit_transactions w)).
Proof.
  repeat split; run_ledger;
    destruct (client_failure db) as [e|]; cbn;
    try (do 2 eexists; split; [reflexivity|]; intros _; repeat split; discriminate);
    destruct (select_error db) as [e|]; cbn;
    try (do 2 eexists; split; [reflexivity|]; intros _; repeat split; discriminate);
    destruct (user_profiles w !! userId) as [profile|]; cbn;
    try (do 2 eexists; split; [reflexivity|]; intros _; repeat split; discriminate);
    try destruct (to_number (credits profile) <? A); cbn;
    try (do 2 eexists; split; [reflexivity|]; intros _; repeat split; discriminate);
    destruct (update_error db) as [e|]; cbn;
    try (do 2 eexists; split; [reflexivity|]; intros _; repeat split; discriminate);
    destruct (insert_error db) as [e|]; cbn;
    do 2 eexists; (split; [reflexivity|]); cbn; discriminate.
Qed.

(** Property X2.  When the database accepts the ledger insert, each of
    [deductCredits], [refundCredits] and [addCredits] keeps, for every user,
    the difference between the balance and the sum of the user's ledger
    amounts: whatever the call does to the balance is entered in the ledger,
    and a call that fails changes neither. *)
Theorem balance_follows_ledger
    (db : Backend) (userId : string) (A : Z) (text : string)
    (taskId videoId : option string) (kind : option AdditionType)
    (metadata : option Metadata) (w : World) (who : string) :
  insert_error db = None ->
  (balance (snd (deductCredits db userId A text taskId w)) who
   - ledger_total
       (credit_transactions (snd (deductCredits db userId A text taskId w))) who
   = balance w who - ledger_total (credit_transactions w) who)
  /\ (balance (snd (refundCredits db userId A text taskId videoId w)) who
      - ledger_total
          (credit_transactions
             (snd (refundCredits db userId A text taskId videoId w))) who
      = balance w who - ledger_total (credit_transactions w) who)
  /\ (balance (snd (addCredits db userId A text kind metadata w)) who
      - ledger_total
          (credit_transactions
             (snd (addCredits db userId A text kind metadata w))) who
      = balance w who - ledger_total (credit_transactions w) who).
Proof.
  intros Hinsert.
  repeat split; run_ledger; unfold balance;
    destruct (client_failure db) as [e|]; cbn; try reflexivity;
    destruct (select_error db) as [e|]; cbn; try reflexivity;
    destruct (user_profiles w !! userId) as [profile|] eqn:Hfound; cbn;
    try reflexivity;
    try destruct (to_number (credits profile) <? A); cbn; try reflexivity;
    destruct (update_error db) as [e|]; cbn; try reflexivity;
    rewrite Hinsert; cbn;
    rewrite (balance_alter w _ userId who _ eq_refl), ledger_total_app;
    cbn [ledger_total user_id amount];
    (destruct (decide (userId = who)) as [->|Hne];
     [ rewrite bool_decide_eq_true_2, Hfound, String.eqb_refl by reflexivity;
       cbn; lia
     | rewrite bool_decide_eq_false_2 by assumption;
       destruct (String.eqb_spec userId who); [contradiction|];
       destruct (user_profiles w !! who); lia ]).
Qed.

Lemma balance_follows_ledger_witness :
  balance (snd (deductCredits accepting "u1" 30 "video gen" (Some "task-1") start))
    "u1"
  - ledger_total
      (credit_transactions
         (snd (deductCredits accepting "u1" 30 "video gen" (Some "task-1") start)))
      "u1"
  = balance start "u1" - ledger_total (credit_transactions start) "u1".
Proof.
  apply (balance_follows_ledger accepting "u1" 30 "video gen" (Some "task-1") None
           None None start "u1" eq_refl).
Defined.

(** Property X3.  A [deductCredits] that reports success leaves a balance
    that is not negative, equal to the [remainingCredits] it returns; a
    [refundCredits] that reports success leaves a [total_credits_spent] that
    is not negative, whatever the amount. *)
Theorem ledger_floors
    (db : Backend) (userId : string) (A : Z) (text : string)
    (taskId videoId : option string) (w : World) :
  (forall r w',
      deductCredits db userId A text taskId w = (Normal r, w') ->
      DeductResult.success r = true ->
      exists remaining,
        DeductResult.remainingCredits r = Some remaining
        /\ 0 <= remaining
        /\ credits <$> user_profiles w' !! userId = Some (Some remaining))
  /\ (forall r w',
        refundCredits db userId A text taskId videoId w = (Normal r, w') ->
        CreditResult.success r = true ->
        exists spent,
          total_credits_spent <$> user_profiles w' !! userId = Some (Some spent)
          /\ 0 <= spent).
Proof.
  split; intros r w' Hrun Hsuccess.
  - destruct (deductCredits_success_inv _ _ _ _ _ _ _ _ Hrun Hsuccess)
      as (Hclient & Hselect & Hupdate & profile & Hfound & Hle).
    rewrite (deductCredits_run db userId A text taskId w profile) in Hrun
      by assumption.
    injection Hrun as <- <-.
    exists (to_number (credits profile) - A).
    split; [reflexivity|]. split; [lia|].
    cbn [user_profiles]. rewrite lookup_insert_eq. reflexivity.
  - destruct (refundCredits_success_inv _ _ _ _ _ _ _ _ _ Hrun Hsuccess)
      as (Hclient & Hselect & Hupdate & profile & Hfound).
    rewrite (refundCredits_run db userId A text w profile) in Hrun by assumption.
    injection Hrun as _ <-.
    exists (Z.max 0 (or_zero (total_credits_spent profile) - A)).
    cbn [user_profiles]. rewrite lookup_insert_eq. split; [reflexivity|lia].
Qed.

(** Property X4.  A [deductCredits(U, A)] that reports success followed by a
    [refundCredits(U, A)] that reports success puts the credits back at the
    balance [B] and [total_credits_spent] back at its value when that was
    not negative, but [total_videos_created] stays one higher: the refund
    does not take the counted video back. *)
Theorem deduct_then_refund
    (db1 db2 : Backend) (userId : string) (A : Z)
    (text1 text2 : string) (task1 task2 video2 : option string)
    (w w1 w2 : World) (r1 : DeductResult.t) (r2 : CreditResult.t)
    (profile : UserProfile) (B : Z) :
  user_profiles w !! userId = Some profile ->
  credits profile = Some B ->
  deductCredits db1 userId A text1 task1 w = (Normal r1, w1) ->
  DeductResult.success r1 = true ->
  refundCredits db2 userId A text2 task2 video2 w1 = (Normal r2, w2) ->
  CreditResult.success r2 = true ->
  credits <$> user_profiles w2 !! userId = Some (Some B)
  /\ CreditResult.newCredits r2 = Some B
  /\ total_credits_spent <$> user_profiles w2 !! userId
     = Some (Some (Z.max 0 (to_number (total_credits_spent profile))))
  /\ total_videos_created <$> user_profiles w2 !! userId
     = Some (Some (to_number (total_videos_created profile) + 1)).
Proof.
  intros Hfound Hcredits Hdeduct Hok1 Hrefund Hok2.
  destruct (deductCredits_success_inv _ _ _ _ _ _ _ _ Hdeduct Hok1)
    as (Hc1 & Hs1 & Hu1 & profile' & Hfound' & Hle).
  rewrite Hfound in Hfound'. injection Hfound' as <-.
  rewrite (deductCredits_run db1 userId A text1 task1 w profile) in Hdeduct
    by assumption.
  injection Hdeduct as _ <-.
  destruct (refundCredits_success_inv _ _ _ _ _ _ _ _ _ Hrefund Hok2)
    as (Hc2 & Hs2 & Hu2 & _).
  rewrite (refundCredits_run db2 userId A text2 _
             (apply_patch (deduct_patch profile A) profile) Hc2 Hs2 Hu2
             (lookup_insert_eq _ _ _)) in Hrefund.
  injection Hrefund as <- <-.
  cbn [user_profiles CreditResult.newCredits credit_success].
  rewrite lookup_insert_eq.
  cbn -[or_zero to_number Z.max Z.add Z.sub].
  rewrite !or_zero_to_number, Hcredits. cbn [to_number].
  repeat split; do 2 f_equal; lia.
Qed.

Lemma deduct_then_refund_witness :
  exists w1 w2 r1 r2,
    deductCredits accepting "u1" 30 "video gen" (Some "task-1") start
    = (Normal r1, w1)
    /\ refundCredits accepting "u1" 30 "generation failed" (Some "task-1") None w1
       = (Normal r2, w2)
    /\ credits <$> user_profiles w2 !! "u1" = Some (Some 100)
    /\ total_videos_created <$> user_profiles w2 !! "u1" = Some (Some 3).
Proof.
  assert (Hle : 30 <= to_number (credits alice)) by (cbn; lia).
  pose proof (deductCredits_run accepting "u1" 30 "video gen" (Some "task-1")
                start alice eq_refl eq_refl eq_refl Hle eq_refl) as H1.
  match type of H1 with
  | _ = (_, ?w1) =>
      pose proof (refundCredits_run accepting "u1" 30 "generation failed" w1
                    (apply_patch (deduct_patch alice 30) alice)
                    eq_refl eq_refl eq_refl (lookup_insert_eq _ _ _)
                    (Some "task-1") None) as H2
  end.
  destruct (deduct_then_refund accepting accepting "u1" 30 "video gen"
              "generation failed" (Some "task-1") (Some "task-1") None
              start _ _ _ _ alice 100 eq_refl eq_refl H1 eq_refl H2 eq_refl)
    as (Hcredits & _ & _ & Hvideos).
  do 4 eexists.
  split; [exact H1|]. split; [exact H2|]. split; [exact Hcredits|exact Hvideos].
Defined.

(** Property X5.  For a user with a profile and a database that accepts the
    requests, [deductCredits(U, A)] reports success exactly when [A] is at
    most the credits [getUserCredits(U)] reports; a [null] balance counts as
    0 in both. *)
Theorem deductCredits_agrees_with_getUserCredits
    (db reader : Backend) (userId : string) (A : Z) (text : string)
    (taskId : option string) (w : World) (profile : UserProfile) :
  client_failure db = None ->
  select_error db = None ->
  update_error db = None ->
  client_failure reader = None ->
  select_error reader = None ->
  user_profiles w !! userId = Some profile ->
  exists r g w1 w2,
    deductCredits db userId A text taskId w = (Normal r, w1)
    /\ getUserCredits reader userId w = (Normal g, w2)
    /\ BalanceResult.error g = None
    /\ (DeductResult.success r = true <-> A <= BalanceResult.credits g).
Proof.
  intros Hclient Hselect Hupdate Hreader Hread Hfound.
  rewrite getUserCredits_run, Hreader, Hread, Hfound.
  destruct (Z.lt_ge_cases (to_number (credits profile)) A) as [Hlow|Hle].
  - rewrite (deductCredits_low db userId A text taskId w profile) by assumption.
    do 4 eexists. split; [reflexivity|]. split; [reflexivity|].
    split; [reflexivity|]. cbn. split; [discriminate|lia].
  - rewrite (deductCredits_run db userId A text taskId w profile) by assumption.
    do 4 eexists. split; [reflexivity|]. split; [reflexivity|].
    split; [reflexivity|]. cbn. split; [lia|reflexivity].
Qed.

Lemma deductCredits_agrees_with_getUserCredits_witness :
  exists r g w1 w2,
    deductCredits accepting "u1" 130 "video gen" None start = (Normal r, w1)
    /\ getUserCredits accepting "u1" start = (Normal g, w2)
    /\ BalanceResult.error g = None
    /\ (DeductResult.success r = true <-> 130 <= BalanceResult.credits g).
Proof.
  apply (deductCredits_agrees_with_getUserCredits accepting accepting "u1" 130
           "video gen" None start alice); reflexivity.
Defined.

(** ** Tagging *)

Lemma prefix_append (a b : string) : String.prefix a (a +:+ b) = true.
Proof.
  induction a as [|c a IH].
  - destruct b; reflexivity.
  - change (String c a +:+ b) with (String c (a +:+ b)).
    cbn [String.prefix].
    destruct (ascii_dec c c); [exact IH | congruence].
Qed.

Lemma includes_prefix (a b : string) : includes (a +:+ b) a = true.
Proof.
  destruct (a +:+ b) eqn:E; cbn [includes];
    rewrite <- E, prefix_append; reflexivity.
Qed.

Lemma tagged_row_is_skipped userId taskId videoId row :
  completion_filter userId taskId (completion_patch taskId videoId row) = false.
Proof.
  unfold completion_filter, completion_patch. cbn [video_id].
  apply andb_false_r.
Qed.

Lemma tag_row_twice userId taskId first second row :
  tag_row userId taskId second (tag_row userId taskId first row)
  = tag_row userId taskId first row.
Proof.
  unfold tag_row.
  destruct (completion_filter userId taskId row) eqn:Hrow.
  - rewrite tagged_row_is_skipped. reflexivity.
  - rewrite Hrow. reflexivity.
Qed.

(** Property X6.  The first tag wins: once [recordVideoCompletion] has been
    accepted for a user and a task, an accepted second call for that user
    and task, with the same or with another video id, changes no ledger
    row. *)
Theorem recordVideoCompletion_first_tag_wins
    (db1 db2 : Backend) (userId taskId first second : string) (w : World) :
  client_failure db1 = None ->
  update_error db1 = None ->
  client_failure db2 = None ->
  update_error db2 = None ->
  exists w1 w2,
    recordVideoCompletion db1 userId taskId first w
    = (Normal completion_success, w1)
    /\ recordVideoCompletion db2 userId taskId second w1
       = (Normal completion_success, w2)
    /\ credit_transactions w2 = credit_transactions w1.
Proof.
  intros Hc1 Hu1 Hc2 Hu2.
  rewrite recordVideoCompletion_run, Hu1 by assumption.
  do 2 eexists. split; [reflexivity|].
  rewrite recordVideoCompletion_run, Hu2 by assumption.
  split; [reflexivity|]. cbn [credit_transactions].
  rewrite map_map. apply map_ext. intros row. apply tag_row_twice.
Qed.

Lemma recordVideoCompletion_first_tag_wins_witness :
  exists w1 w2,
    recordVideoCompletion accepting "u1" "task-1" "video-9" charged_twice
    = (Normal completion_success, w1)
    /\ recordVideoCompletion accepting "u1" "task-1" "video-10" w1
       = (Normal completion_success, w2)
    /\ credit_transactions w2 = credit_transactions w1.
Proof.
  apply (recordVideoCompletion_first_tag_wins accepting accepting "u1" "task-1"
           "video-9" "video-10" charged_twice); reflexivity.
Defined.

Lemma tag_row_same_entry userId taskId videoId row :
  same_entry row (tag_row userId taskId videoId row).
Proof.
  unfold tag_row, same_entry.
  destruct (completion_filter userId taskId row); cbn; repeat split.
Qed.

Lemma ledger_total_tagged userId taskId videoId rows who :
  ledger_total (map (tag_row userId taskId videoId) rows) who
  = ledger_total rows who.
Proof.
  induction rows as [|row rows IH]; cbn [map ledger_total]; [reflexivity|].
  destruct (tag_row_same_entry userId taskId videoId row) as (-> & _ & -> & _).
  rewrite IH. reflexivity.
Qed.

(** Property X7.  Whatever the database does, [recordVideoCompletion]
    neither adds nor removes a ledger row and changes no row's user, type,
    amount, task id, creation time or correlation ids; every user's ledger
    total is as before, and so is every profile. *)
Theorem recordVideoCompletion_keeps_entries
    (db : Backend) (userId taskId videoId : string) (w : World) :
  Forall2 same_entry (credit_transactions w)
    (credit_transactions (snd (recordVideoCompletion db userId taskId videoId w)))
  /\ (forall who,
        ledger_total
          (credit_transactions
             (snd (recordVideoCompletion db userId taskId videoId w))) who
        = ledger_total (credit_transactions w) who)
  /\ user_profiles (snd (recordVideoCompletion db userId taskId videoId w))
     = user_profiles w.
Proof.
  assert (Hrefl : forall rows, Forall2 same_entry rows rows).
  { induction rows; constructor; [repeat split|assumption]. }
  destruct (client_failure db) as [e|] eqn:Hclient.
  - run_ledger. rewrite Hclient. cbn. repeat split. apply Hrefl.
  - rewrite recordVideoCompletion_run by assumption.
    destruct (update_error db); cbn [snd credit_transactions user_profiles].
    + repeat split. apply Hrefl.
    + split; [|split; [|reflexivity]].
      * induction (credit_transactions w) as [|row rows IH]; cbn [map];
          constructor; [apply tag_row_same_entry|exact IH].
      * intros who. apply ledger_total_tagged.
Qed.

(** Property X8.  The charge [deductCredits] enters for a task id without
    wildcards is the row [recordVideoCompletion] finds for that user and
    task: after both are accepted the new row carries the video id and still
    the amount [-A].  The row [refundCredits] enters for the same task is
    never tagged. *)
Theorem charge_is_found_by_tagging
    (db tagger : Backend) (userId : string) (A : Z) (text task videoId : string)
    (video : option string) (w : World) (profile : UserProfile) :
  client_failure db = None ->
  select_error db = None ->
  update_error db = None ->
  insert_error db = None ->
  user_profiles w !! userId = Some profile ->
  client_failure tagger = None ->
  update_error tagger = None ->
  task <> "" ->
  literal task = true ->
  (A <= to_number (credits profile) ->
   exists older row,
     credit_transactions
       (snd (recordVideoCompletion tagger userId task videoId
               (snd (deductCredits db userId A text (Some task) w))))
     = older ++ [row]
     /\ length older = length (credit_transactions w)
     /\ video_id row = Some videoId
     /\ amount row = - A
     /\ transaction_type row = usage)
  /\ (exists older,
        credit_transactions
          (snd (recordVideoCompletion tagger userId task videoId
                  (snd (refundCredits db userId A text (Some task) video w))))
        = older ++ [refund_row db userId A text (Some task) video]
        /\ length older = length (credit_transactions w)).
Proof.
  intros Hclient Hselect Hupdate Hinsert Hfound Htagger Htag Htask Hliteral.
  split.
  - intros Hle.
    rewrite (deductCredits_run db userId A text (Some task) w profile)
      by assumption.
    cbn [snd]. rewrite recordVideoCompletion_run, Htag by assumption.
    cbn [snd credit_transactions]. rewrite Hinsert, map_app. cbn [map].
    do 2 eexists. split; [reflexivity|].
    split; [apply length_map|].
    unfold tag_row.
    rewrite completion_filter_literal by assumption.
    cbn [usage_row user_id transaction_type description video_id].
    rewrite String.eqb_refl, task_description_includes by assumption.
    cbn. repeat split.
  - rewrite (refundCredits_run db userId A text w profile) by assumption.
    cbn [snd]. rewrite recordVideoCompletion_run, Htag by assumption.
    cbn [snd credit_transactions]. rewrite Hinsert, map_app. cbn [map].
    eexists. split; [|apply length_map].
    f_equal. unfold tag_row, completion_filter.
    cbn [refund_row transaction_type TransactionType_eqb].
    rewrite andb_false_r. reflexivity.
Qed.

Lemma charge_is_found_by_tagging_witness :
  exists older row,
    credit_transactions
      (snd (recordVideoCompletion accepting "u1" "task-1" "video-9"
              (snd (deductCredits accepting "u1" 30 "video gen" (Some "task-1")
                      start))))
    = older ++ [row]
    /\ length older = length (credit_transactions start)
    /\ video_id row = Some "video-9"
    /\ amount row = - 30
    /\ transaction_type row = usage.
Proof.
  apply (charge_is_found_by_tagging accepting accepting "u1" 30 "video gen"
           "task-1" "video-9" None start alice);
    first [reflexivity | discriminate | cbn; lia].
Defined.

(** Property X9.  The match is by substring: for a task id [task] without
    wildcards, the un-tagged charge of the same user for any task whose id
    begins with [task] passes the filter too, and an accepted
    [recordVideoCompletion] for [task] gives it the video id. *)
Theorem tagging_reaches_longer_task_ids
    (db tagger : Backend) (userId : string) (A : Z)
    (text task rest videoId : string) (rows : list CreditTransactionRow)
    (w : World) :
  literal task = true ->
  task +:+ rest <> "" ->
  client_failure tagger = None ->
  update_error tagger = None ->
  credit_transactions w
  = rows ++ [usage_row db userId A text (Some (task +:+ rest))] ->
  completion_filter userId task
    (usage_row db userId A text (Some (task +:+ rest))) = true
  /\ exists older,
       credit_transactions
         (snd (recordVideoCompletion tagger userId task videoId w))
       = older
         ++ [completion_patch task videoId
               (usage_row db userId A text (Some (task +:+ rest)))].
Proof.
  intros Hliteral Hlonger Htagger Htag Hrows.
  assert (Hfilter :
    completion_filter userId task
      (usage_row db userId A text (Some (task +:+ rest))) = true).
  { rewrite completion_filter_literal by assumption.
    cbn [usage_row user_id transaction_type description video_id].
    rewrite String.eqb_refl. cbn [TransactionType_eqb andb].
    rewrite andb_true_r.
    unfold task_description, truthy.
    destruct (String.eqb_spec (task +:+ rest) ""); [contradiction|].
    cbn [negb template].
    apply includes_append.
    change (" - Task: " +:+ task +:+ rest)
      with (" - " +:+ ("Task: " +:+ task +:+ rest)).
    apply includes_append.
    change ("Task: " +:+ task +:+ rest) with (("Task: " +:+ task) +:+ rest)
      at 1.
    - apply includes_prefix. }
  split; [exact Hfilter|].
  rewrite recordVideoCompletion_run, Htag by assumption.
  cbn [snd credit_transactions]. rewrite Hrows, map_app. cbn [map].
  unfold tag_row at 2. rewrite Hfilter. eexists. reflexivity.
Qed.

Lemma tagging_reaches_longer_task_ids_witness :
  completion_filter "u1" "task-1"
    (usage_row accepting "u1" 30 "video gen" (Some ("task-1" +:+ "0"))) = true
  /\ exists older,
       credit_transactions
         (snd (recordVideoCompletion accepting "u1" "task-1" "video-9"
                 (snd (deductCredits accepting "u1" 30 "video gen"
                         (Some ("task-1" +:+ "0")) start))))
       = older
         ++ [completion_patch "task-1" "video-9"
               (usage_row accepting "u1" 30 "video gen" (Some ("task-1" +:+ "0")))].
Proof.
  apply (tagging_reaches_longer_task_ids accepting accepting "u1" 30 "video gen"
           "task-1" "0" "video-9" []);
    [reflexivity | discriminate | reflexivity | reflexivity |].
  rewrite (deductCredits_run accepting "u1" 30 "video gen" _ start alice);
    first [reflexivity | cbn; lia].
Defined.

(** ** Temp files and the database in the media workflow *)

Lemma remove_file_keeps env (present : gset string) (path other : string) :
  other <> path -> other ∈ present -> other ∈ remove_file env present path.
Proof.
  intros Hne Hin. unfold remove_file.
  destruct (bool_decide (path ∈ present)); [|exact Hin].
  destruct (unlink_fails env path); [exact Hin|].
  apply elem_of_difference. split; [exact Hin|].
  rewrite elem_of_singleton. exact Hne.
Qed.

Lemma cleanup_subseteq env (filePaths : list string) (present : gset string) :
  foldl (remove_file env) present filePaths ⊆ present.
Proof.
  revert present. induction filePaths as [|path rest IH]; intros present;
    cbn [foldl]; [reflexivity|].
  etransitivity; [apply IH|apply remove_file_subseteq].
Qed.

Lemma cleanup_keeps env (filePaths : list string) (present : gset string)
    (other : string) :
  ~ In other filePaths ->
  other ∈ present ->
  other ∈ foldl (remove_file env) present filePaths.
Proof.
  revert present. induction filePaths as [|path rest IH]; intros present Hout Hin;
    cbn [foldl]; [exact Hin|].
  apply IH.
  - intros H. apply Hout. right. exact H.
  - apply remove_file_keeps; [|exact Hin].
    intros ->. apply Hout. left. reflexivity.
Qed.

Lemma cleanup_gone env (filePaths : list string) (present : gset string)
    (path : string) :
  In path filePaths ->
  unlink_fails env path = false ->
  path ∉ foldl (remove_file env) present filePaths.
Proof.
  revert present. induction filePaths as [|first rest IH]; intros present Hin Hok;
    cbn [foldl]; [destruct Hin|].
  destruct Hin as [->|Hin].
  - intros H. apply cleanup_subseteq in H. revert H.
    apply remove_file_gone, Hok.
  - apply IH; assumption.
Qed.

(** Property X10.  [cleanupTempFiles] never throws, also when an unlink
    fails.  It creates no file; a file that is not in its list stays; a file
    in its list whose unlink works is gone afterwards; the database is not
    touched. *)
Theorem cleanupTempFiles_is_safe
    (env : Pipeline) (filePaths : list string) (w : World) :
  exists w',
    cleanupTempFiles env filePaths w = (Normal tt, w')
    /\ same_tables w w'
    /\ files w' ⊆ files w
    /\ (forall other,
          ~ In other filePaths -> other ∈ files w -> other ∈ files w')
    /\ (forall path,
          In path filePaths -> unlink_fails env path = false -> path ∉ files w').
Proof.
  rewrite cleanupTempFiles_run. eexists. split; [reflexivity|].
  cbn [with_files files]. split; [repeat split|].
  split; [apply cleanup_subseteq|].
  split.
  - intros other. apply cleanup_keeps.
  - intros path. apply cleanup_gone.
Qed.

Lemma saveVideoToDatabase_client_failed env processingResult metadata w e :
  catalog_client_failure env = Some e ->
  saveVideoToDatabase env processingResult metadata w = (Thrown e, w).
Proof.
  intros Hclient. unfold saveVideoToDatabase, try_catch, bind.
  rewrite Hclient. reflexivity.
Qed.

(** The files [completeVideoProcessing] leaves once the media are published,
    whatever the catalog and the ledger do. *)
Lemma completeVideoProcessing_files
    env kieVideoUrl kieThumbnailUrl metadata w processingResult w1 :
  processKieVideoAndThumbnail env kieVideoUrl kieThumbnailUrl metadata w
  = (Normal processingResult, w1) ->
  truthy (Some (Processing.localVideoPath processingResult)) = true ->
  truthy (Some (Processing.localThumbnailPath processingResult)) = true ->
  files (snd (completeVideoProcessing env kieVideoUrl kieThumbnailUrl metadata w))
  = foldl (remove_file env) (files w1)
      [Processing.localVideoPath processingResult;
       Processing.localThumbnailPath processingResult].
Proof.
  intros Hpublish Hvideo Hthumbnail.
  destruct (catalog_client_failure env) as [e|] eqn:Hclient.
  - unfold completeVideoProcessing.
    unfold bind at 1. unfold try_catch at 1. rewrite Hpublish.
    unfold try_catch at 1. unfold bind at 1.
    rewrite (saveVideoToDatabase_client_failed _ _ _ _ _ Hclient).
    unfold bind at 1. rewrite cleanupTempFiles_run.
    cbn [List.filter]. rewrite Hvideo, Hthumbnail. reflexivity.
  - rewrite (completeVideoProcessing_after_publish _ _ _ _ _ _ _ Hpublish Hclient).
    destruct (catalog_insert env) as [id|e|].
    + cbv zeta. cbn [snd with_files files].
      destruct (truthy (userId metadata)); [|reflexivity].
      match goal with
      | |- context [recordVideoCompletion ?db ?u ?t ?v ?w2] =>
          destruct (recordVideoCompletion_cases db u t v w2)
            as (r & w3 & Hrun & _ & _ & Hfiles & _)
      end.
      rewrite Hrun. cbn [snd]. rewrite Hfiles. reflexivity.
    + cbn [snd with_files files List.filter].
      rewrite Hvideo, Hthumbnail. reflexivity.
    + cbn [snd with_files files List.filter].
      rewrite Hvideo, Hthumbnail. reflexivity.
Qed.

Lemma downloaded_removed env metadata w :
  unlink_fails env (video_temp_path env metadata) = false ->
  unlink_fails env (thumbnail_temp_path env metadata) = false ->
  foldl (remove_file env) (downloaded env metadata w)
    [video_temp_path env metadata; thumbnail_temp_path env metadata]
  = files w ∖ {[ video_temp_path env metadata ]}
      ∖ {[ thumbnail_temp_path env metadata ]}.
Proof.
  intros Hunlink1 Hunlink2.
  set (v := video_temp_path env metadata) in *.
  set (t := thumbnail_temp_path env metadata) in *.
  apply set_eq. intros x.
  rewrite !elem_of_difference, !elem_of_singleton. split.
  - intros Hx.
    assert (Hin : x ∈ downloaded env metadata w)
      by (revert Hx; apply cleanup_subseteq).
    destruct (decide (x = v)) as [->|Hv].
    { exfalso. revert Hx. apply cleanup_gone; [left; reflexivity|assumption]. }
    destruct (decide (x = t)) as [->|Ht].
    { exfalso. revert Hx.
      apply cleanup_gone; [right; left; reflexivity|assumption]. }
    unfold downloaded in Hin. fold v t in Hin.
    rewrite !elem_of_union, !elem_of_singleton in Hin. tauto.
  - intros [[Hx Hv] Ht]. apply cleanup_keeps.
    + intros [<-|[<-|[]]]; contradiction.
    + unfold downloaded. rewrite !elem_of_union. tauto.
Qed.

(** Property X11.  When both downloads finish and unlink works on the two
    temp files, [completeVideoProcessing] leaves the local files it found
    without the two temp paths, whether the uploads, the catalog insert and
    the tagging succeed or fail: both temp files are gone, a file that was
    already at a temp path before the run included, and every other file is
    as before.  So when neither temp path was taken before the run, the set
    of local files is exactly as it was found. *)
Theorem temp_directory_restored
    (env : Pipeline) (kieVideoUrl kieThumbnailUrl : string)
    (metadata : VideoMetadata) (w : World)
    (message1 message2 : string) (bytes1 bytes2 : Z) :
  download env kieVideoUrl = Responded 200 message1 (Finished bytes1) ->
  download env kieThumbnailUrl = Responded 200 message2 (Finished bytes2) ->
  unlink_fails env (video_temp_path env metadata) = false ->
  unlink_fails env (thumbnail_temp_path env metadata) = false ->
  files (snd (completeVideoProcessing env kieVideoUrl kieThumbnailUrl metadata w))
  = files w ∖ {[ video_temp_path env metadata ]}
      ∖ {[ thumbnail_temp_path env metadata ]}
  /\ (video_temp_path env metadata ∉ files w ->
      thumbnail_temp_path env metadata ∉ files w ->
      files (snd (completeVideoProcessing env kieVideoUrl kieThumbnailUrl
                    metadata w))
      = files w).
Proof.
  intros Hvideo Hthumbnail Hunlink1 Hunlink2.
  assert (Hfiles :
    files (snd (completeVideoProcessing env kieVideoUrl kieThumbnailUrl
                  metadata w))
    = files w ∖ {[ video_temp_path env metadata ]}
        ∖ {[ thumbnail_temp_path env metadata ]});
    [|split;
      [exact Hfiles
      |intros Hfresh1 Hfresh2; rewrite Hfiles; apply set_eq; intros x;
       rewrite !elem_of_difference, !elem_of_singleton; split;
       [tauto|intros Hx; repeat split; [exact Hx|congruence|congruence]]]].
  rewrite <- (downloaded_removed env metadata w) by assumption.
  destruct (send env (video_key env metadata)) as [e1|] eqn:Hsend1;
    [|destruct (send env (thumbnail_key env metadata)) as [e2|] eqn:Hsend2].
  - destruct (processKie_upload_rejected env kieVideoUrl kieThumbnailUrl metadata
                w _ _ _ _ Hvideo Hthumbnail) as (e & Hrun).
    { left. congruence. }
    rewrite (completeVideoProcessing_publish_failed _ _ _ _ _ _ _ Hrun).
    reflexivity.
  - destruct (processKie_upload_rejected env kieVideoUrl kieThumbnailUrl metadata
                w _ _ _ _ Hvideo Hthumbnail) as (e & Hrun).
    { right. congruence. }
    rewrite (completeVideoProcessing_publish_failed _ _ _ _ _ _ _ Hrun).
    reflexivity.
  - rewrite (completeVideoProcessing_files _ _ _ _ _ _ _
               (processKie_published env kieVideoUrl kieThumbnailUrl metadata w
                  _ _ _ _ Hvideo Hthumbnail Hsend1 Hsend2)).
    + reflexivity.
    + apply video_temp_path_truthy.
    + apply thumbnail_temp_path_truthy.
Qed.

Lemma temp_directory_restored_witness :
  files (snd (completeVideoProcessing tagging_refused
                "https://kie.example/out/video.mp4"
                "https://kie.example/out/thumb.jpg" task1 charged_twice))
  = files charged_twice.
Proof.
  apply (temp_directory_restored tagging_refused _ _ task1 charged_twice
           "OK" "OK" 52000 52000 eq_refl eq_refl eq_refl eq_refl).
  - apply not_elem_of_empty.
  - apply not_elem_of_empty.
Defined.

Lemma same_tables_refl (w : World) : same_tables w w.
Proof. repeat split. Qed.

Lemma same_tables_trans (w1 w2 w3 : World) :
  same_tables w1 w2 -> same_tables w2 w3 -> same_tables w1 w3.
Proof.
  intros (H1 & H2 & H3 & H4) (K1 & K2 & K3 & K4).
  repeat split; congruence.
Qed.

Lemma off_database_ret {A} (a : A) : off_database (ret a).
Proof. intros w. apply same_tables_refl. Qed.

Lemma off_database_throw {A} (e : JsValue) : off_database (@throw A e).
Proof. intros w. apply same_tables_refl. Qed.

Lemma off_database_bind {A B} (m : Js A) (k : A -> Js B) :
  off_database m -> (forall a, off_database (k a)) -> off_database (bind m k).
Proof.
  intros Hm Hk w. unfold bind. specialize (Hm w).
  destruct (m w) as [[a|e] w1]; cbn [snd] in *; [|exact Hm].
  eapply same_tables_trans; [exact Hm|apply Hk].
Qed.

Lemma off_database_try_catch {A} (body : Js A) (handler : JsValue -> Js A) :
  off_database body -> (forall e, off_database (handler e)) ->
  off_database (try_catch body handler).
Proof.
  intros Hbody Hhandler w. unfold try_catch. specialize (Hbody w).
  destruct (body w) as [[a|e] w1]; cbn [snd] in *; [exact Hbody|].
  eapply same_tables_trans; [exact Hbody|apply Hhandler].
Qed.

Lemma off_database_promise_all {A B} env (first : Js A) (second : Js B) :
  off_database first -> off_database second ->
  off_database (promise_all env first second).
Proof.
  intros Hfirst Hsecond w. unfold promise_all.
  specialize (Hfirst w). destruct (first w) as [a w1]. cbn [snd] in Hfirst.
  specialize (Hsecond w1). destruct (second w1) as [b w2]. cbn [snd] in Hsecond.
  assert (H : same_tables w w2) by (eapply same_tables_trans; eassumption).
  destruct a, b; exact H.
Qed.

Lemma off_database_get {A} (f : World -> A) : off_database (get f).
Proof. intros w. apply same_tables_refl. Qed.

Lemma off_database_put_files (present : gset string) :
  off_database (put_files present).
Proof. intros w. repeat split. Qed.

Lemma off_database_unlink env path : off_database (unlink_ignoring env path).
Proof.
  unfold unlink_ignoring, unlinkSync.
  apply off_database_try_catch; [|intros; apply off_database_ret].
  destruct (unlink_fails env path); [apply off_database_throw|].
  apply off_database_bind; [apply off_database_get|].
  intros. apply off_database_put_files.
Qed.

Lemma off_database_downloadVideo env url fileName :
  off_database (downloadVideo env url fileName).
Proof.
  unfold downloadVideo. cbv zeta.
  apply off_database_bind.
  { unfold createWriteStream.
    apply off_database_bind; [apply off_database_get|].
    intros. apply off_database_put_files. }
  intros _. destruct (download env url) as [code reason [bytes|err]|err|[|]].
  - destruct (negb (code =? 200));
      [apply off_database_throw|apply off_database_ret].
  - destruct (negb (code =? 200)); [apply off_database_throw|].
    apply off_database_bind; [apply off_database_unlink|].
    intros. apply off_database_throw.
  - apply off_database_bind; [apply off_database_unlink|].
    intros. apply off_database_throw.
  - apply off_database_bind; [apply off_database_unlink|].
    intros. apply off_database_throw.
  - apply off_database_bind; [apply off_database_ret|].
    intros. apply off_database_throw.
Qed.

Lemma off_database_uploadToR2 env filePath key contentType :
  off_database (uploadToR2 env filePath key contentType).
Proof.
  unfold uploadToR2, existsSync.
  apply off_database_try_catch; [|intros; apply off_database_throw].
  apply off_database_bind;
    [apply off_database_get|].
  intros readable. destruct (negb readable); [apply off_database_throw|].
  destruct (send env key); [apply off_database_throw|apply off_database_ret].
Qed.

Lemma off_database_cleanup_on_error {A} env a b e :
  off_database (@cleanup_on_error A env a b e).
Proof.
  assert (Hlocal : forall path, off_database (cleanup_local env path)).
  { intros [p|]; cbn [cleanup_local]; [|apply off_database_ret].
    destruct (truthy (Some p)); [|apply off_database_ret].
    apply off_database_bind;
      [apply off_database_get|].
    intros [|]; [apply off_database_unlink|apply off_database_ret]. }
  unfold cleanup_on_error.
  apply off_database_bind; [apply Hlocal|]. intros _.
  apply off_database_bind; [apply Hlocal|]. intros _.
  apply off_database_throw.
Qed.

(** Property X12.  [downloadVideo], [uploadToR2] and
    [processKieVideoAndThumbnail] never touch the database, however they
    end: no call is issued, and profiles, ledger and catalog are as
    before. *)
Theorem fetch_and_publish_is_off_database
    (env : Pipeline) (url fileName filePath key contentType : string)
    (kieVideoUrl kieThumbnailUrl : string) (metadata : VideoMetadata) :
  off_database (downloadVideo env url fileName)
  /\ off_database (uploadToR2 env filePath key contentType)
  /\ off_database
       (processKieVideoAndThumbnail env kieVideoUrl kieThumbnailUrl metadata).
Proof.
  split; [apply off_database_downloadVideo|].
  split; [apply off_database_uploadToR2|].
  unfold processKieVideoAndThumbnail. cbv zeta.
  apply off_database_bind.
  { apply off_database_try_catch; [|intros; apply off_database_cleanup_on_error].
    apply off_database_promise_all; apply off_database_downloadVideo. }
  intros downloads.
  apply off_database_bind; [|intros; apply off_database_ret].
  apply off_database_try_catch; [|intros; apply off_database_cleanup_on_error].
  apply off_database_promise_all; apply off_database_uploadToR2.
Qed.

(** Property X13.  When the media are published and the catalog insert is
    refused or answers without a row, [completeVideoProcessing] throws
    ['Failed to save video to database: ...']; the catalog and the ledger
    are as before and the only call issued is the insert: no tagging is
    attempted. *)
Theorem catalog_failure_stops_the_workflow
    (env : Pipeline) (kieVideoUrl kieThumbnailUrl : string)
    (metadata : VideoMetadata) (w w1 : World) (processingResult : Processing.t) :
  processKieVideoAndThumbnail env kieVideoUrl kieThumbnailUrl metadata w
  = (Normal processingResult, w1) ->
  catalog_client_failure env = None ->
  (forall id, catalog_insert env <> Inserted id) ->
  exists reason w',
    completeVideoProcessing env kieVideoUrl kieThumbnailUrl metadata w
    = (Thrown (ErrorObject ("Failed to save video to database: " +:+ reason)), w')
    /\ match catalog_insert env with
       | Refused e => reason = message e
       | _ => reason = "No data returned"
       end
    /\ videos w' = videos w1
    /\ credit_transactions w' = credit_transactions w1
    /\ user_profiles w' = user_profiles w1
    /\ calls w' = calls w1 ++ [InsertVideo (taskId metadata)].
Proof.
  intros Hpublish Hclient Hrefused.
  rewrite (completeVideoProcessing_after_publish _ _ _ _ _ _ _ Hpublish Hclient).
  destruct (catalog_insert env) as [id|e|].
  - destruct (Hrefused id). reflexivity.
  - do 2 eexists. split; [reflexivity|]. cbn. repeat split.
  - do 2 eexists. split; [reflexivity|]. cbn. repeat split.
Qed.

(** Property X14.  Without a user id in the metadata (missing or empty),
    [completeVideoProcessing] returns the new catalog id without asking the
    ledger anything: the only call issued after publishing is the catalog
    insert and the ledger is as before. *)
Theorem no_user_no_tagging
    (env : Pipeline) (kieVideoUrl kieThumbnailUrl : string)
    (metadata : VideoMetadata) (w w1 : World) (processingResult : Processing.t)
    (id : string) :
  processKieVideoAndThumbnail env kieVideoUrl kieThumbnailUrl metadata w
  = (Normal processingResult, w1) ->
  catalog_client_failure env = None ->
  catalog_insert env = Inserted id ->
  userId metadata = None \/ userId metadata = Some "" ->
  exists w',
    completeVideoProcessing env kieVideoUrl kieThumbnailUrl metadata w
    = (Normal {| Completed.videoId := id;
                 Completed.videoUrl := Processing.videoUrl processingResult;
                 Completed.thumbnailUrl :=
                   Processing.thumbnailUrl processingResult |}, w')
    /\ calls w' = calls w1 ++ [InsertVideo (taskId metadata)]
    /\ credit_transactions w' = credit_transactions w1
    /\ Videos.user_id <$> last (videos w') = Some None.
Proof.
  intros Hpublish Hclient Hinsert Huser.
  rewrite (completeVideoProcessing_after_publish _ _ _ _ _ _ _ Hpublish Hclient).
  rewrite Hinsert. cbv zeta.
  assert (Hfalsy : truthy (userId metadata) = false)
    by (destruct Huser as [->| ->]; reflexivity).
  rewrite Hfalsy. eexists. split; [reflexivity|].
  cbn [with_files calls credit_transactions videos].
  split; [reflexivity|]. split; [reflexivity|].
  rewrite last_snoc. cbn. unfold or_else. rewrite Hfalsy. reflexivity.
Qed.

(** Property X15.  [uploadToR2] never changes the local files.  For a file
    that is not there it throws without the object store being asked; for a
    file that is there it returns the configured endpoint, ["/"] and the key
    when the store accepts the object, and throws what the store throws
    otherwise. *)
Theorem uploadToR2_outcomes
    (env : Pipeline) (filePath key contentType : string) (w : World) :
  snd (uploadToR2 env filePath key contentType w) = w
  /\ (filePath ∉ files w ->
      fst (uploadToR2 env filePath key contentType w)
      = Thrown (ErrorObject "ENOENT: no such file or directory, open"))
  /\ (filePath ∈ files w ->
      fst (uploadToR2 env filePath key contentType w)
      = match send env key with
        | Some e => Thrown e
        | None => Normal (template (R2_ENDPOINT env) +:+ "/" +:+ key)
        end).
Proof.
  unfold uploadToR2, try_catch, bind, existsSync, get.
  destruct (bool_decide_reflect (filePath ∈ files w)) as [Hin|Hout]; cbn.
  - destruct (send env key); repeat split; intros; try reflexivity;
      contradiction.
  - repeat split; intros; try reflexivity; contradiction.
Qed.

Lemma catalog_failure_stops_the_workflow_witness :
  exists reason w',
    completeVideoProcessing catalog_refusing
      "https://kie.example/out/video.mp4" "https://kie.example/out/thumb.jpg"
      task1 charged_twice
    = (Thrown (ErrorObject ("Failed to save video to database: " +:+ reason)), w')
    /\ reason = "permission denied for table"
    /\ videos w' = []
    /\ credit_transactions w' = [first_charge; second_charge]
    /\ calls w' = [InsertVideo "task-1"].
Proof.
  destruct (catalog_failure_stops_the_workflow catalog_refusing
              "https://kie.example/out/video.mp4"
              "https://kie.example/out/thumb.jpg" task1 charged_twice _ _
              (processKie_published catalog_refusing _ _ task1 charged_twice
                 "OK" 52000 "OK" 52000 eq_refl eq_refl eq_refl eq_refl)
              eq_refl ltac:(intros id; discriminate))
    as (reason & w' & Hrun & Hreason & Hvideos & Hledger & _ & Hcalls).
  exists reason, w'. split; [exact Hrun|].
  split; [exact Hreason|]. split; [exact Hvideos|].
  split; [exact Hledger|exact Hcalls].
Defined.

Lemma no_user_no_tagging_witness :
  exists w',
    completeVideoProcessing all_well
      "https://kie.example/out/video.mp4" "https://kie.example/out/thumb.jpg"
      anonymous_task charged_twice
    = (Normal
         {| Completed.videoId := "video-9";
            Completed.videoUrl :=
              "https://cdn.example.com/videos/video-1700000000000-task-1.mp4";
            Completed.thumbnailUrl :=
              "https://cdn.example.com/thumbnails/thumb-1700000000000-task-1.jpg"
         |}, w')
    /\ calls w' = [InsertVideo "task-1"]
    /\ credit_transactions w' = [first_charge; second_charge].
Proof.
  destruct (no_user_no_tagging all_well
              "https://kie.example/out/video.mp4"
              "https://kie.example/out/thumb.jpg" anonymous_task charged_twice
              _ _ "video-9"
              (processKie_published all_well _ _ anonymous_task charged_twice
                 "OK" 52000 "OK" 52000 eq_refl eq_refl eq_refl eq_refl)
              eq_refl eq_refl (or_introl eq_refl))
    as (w' & Hrun & Hcalls & Hledger & _).
  exists w'. split; [exact Hrun|]. split; [exact Hcalls|exact Hledger].
Defined.

(** ** Payment configuration and client *)

Lemma production_is_production (env : gmap string string) :
  String.eqb (or_default (env !! "PAYMENT_ENV") "test") "production"
  = isProductionPayment env.
Proof.
  unfold isProductionPayment, getPaymentEnvironment, or_default, truthy, template.
  destruct (env !! "PAYMENT_ENV") as [v|]; [|reflexivity].
  destruct (bool_decide_reflect (Some v = Some "production")) as [[= ->]|Hne];
    [reflexivity|].
  destruct (String.eqb_spec v ""); [reflexivity|]. cbn [negb].
  destruct (String.eqb_spec v "production"); [congruence|reflexivity].
Qed.

(** Writes the names of the variables in a hypothesis as literals. *)
Ltac variable_names H :=
  repeat match type of H with
         | context [?a +:+ ?b] =>
             let name := eval vm_compute in (a +:+ b) in
             change (a +:+ b) with name in H
         end.

(** Property X16.  [getPaymentConfig] reads nothing but the variables of the
    payment environment that [getPaymentEnvironment] names and the shared
    [CREEM_*] ones: two process environments that agree on those give the
    same configuration, so a production configuration never holds a
    [CREEM_TEST_*] value and a test configuration never a [CREEM_PROD_*]
    one. *)
Theorem getPaymentConfig_reads_its_environment_only
    (env env' : gmap string string) :
  same_payment_settings env env' ->
  getPaymentConfig env = getPaymentConfig env'.
Proof.
  intros [Hsame Hsettings].
  assert (Hproduction : isProductionPayment env' = isProductionPayment env)
    by (unfold isProductionPayment; rewrite Hsame; reflexivity).
  unfold getPaymentConfig. cbv zeta.
  rewrite !production_is_production, Hproduction.
  destruct (Hsettings "API_KEY") as [A1 A2]; [cbn; tauto|].
  destruct (Hsettings "TRIAL_PRODUCT_ID") as [B1 B2]; [cbn; tauto|].
  destruct (Hsettings "BASIC_PRODUCT_ID") as [C1 C2]; [cbn; tauto|].
  destruct (Hsettings "PRO_PRODUCT_ID") as [D1 D2]; [cbn; tauto|].
  destruct (Hsettings "PAYMENT_URL") as [E1 E2]; [cbn; tauto|].
  destruct (isProductionPayment env);
    variable_names A1; variable_names A2; variable_names B1; variable_names B2;
    variable_names C1; variable_names C2; variable_names D1; variable_names D2;
    variable_names E1; variable_names E2;
    rewrite A1, A2, B1, B2, C1, C2, D1, D2, E1, E2; reflexivity.
Qed.

Lemma getPaymentConfig_reads_its_environment_only_witness :
  getPaymentConfig {[ "CREEM_TEST_API_KEY" := "creem_test_key" ]}
  = getPaymentConfig
      (<[ "CREEM_PROD_API_KEY" := "creem_live_key" ]>
         {[ "CREEM_TEST_API_KEY" := "creem_test_key" ]}).
Proof.
  apply getPaymentConfig_reads_its_environment_only.
  split; [reflexivity|].
  intros setting Hin. cbn in Hin.
  destruct Hin as [<-|[<-|[<-|[<-|[<-|[]]]]]]; split; reflexivity.
Defined.

Lemma default_payment_url (env : gmap string string) :
  truthy (env !! "CREEM_PAYMENT_URL") = false ->
  (isProductionPayment env = false ->
   truthy (env !! "CREEM_TEST_PAYMENT_URL") = false ->
   PaymentConfig.paymentUrl (getPaymentConfig env)
   = "https://test.creem.io/checkout")
  /\ (isProductionPayment env = true ->
      truthy (env !! "CREEM_PROD_PAYMENT_URL") = false ->
      PaymentConfig.paymentUrl (getPaymentConfig env)
      = "https://creem.io/checkout").
Proof.
  intros Hshared.
  split; intros Hkind Hurl; unfold getPaymentConfig; cbv zeta;
    rewrite production_is_production, Hkind; cbn [PaymentConfig.paymentUrl];
    unfold or_else; rewrite Hurl; unfold or_default; rewrite Hshared;
    reflexivity.
Qed.

(** Property X17.  [new CreemPaymentClient(apiKey?)] throws exactly when
    neither the argument nor the configuration gives a non-empty key; a
    non-empty argument is the key used, else the configured one.  With no
    payment URL variable set, a client of the test environment always talks
    to the test API, and a client of the production environment talks to the
    production API unless its key contains ["test"]. *)
Theorem new_CreemPaymentClient_key_and_base
    (env : gmap string string) (key : option string) :
  (truthy key = false ->
   PaymentConfig.apiKey (getPaymentConfig env) = "" ->
   new_CreemPaymentClient env key
   = Thrown (ErrorObject "Creem API key is required"))
  /\ (forall k, key = Some k -> k <> "" ->
      exists base,
        new_CreemPaymentClient env key
        = Normal {| apiKey := k; baseUrl := base |})
  /\ (truthy key = false ->
      PaymentConfig.apiKey (getPaymentConfig env) <> "" ->
      exists base,
        new_CreemPaymentClient env key
        = Normal {| apiKey := PaymentConfig.apiKey (getPaymentConfig env);
                    baseUrl := base |})
  /\ (forall client,
        new_CreemPaymentClient env key = Normal client ->
        truthy (env !! "CREEM_PAYMENT_URL") = false ->
        (isProductionPayment env = false ->
         truthy (env !! "CREEM_TEST_PAYMENT_URL") = false ->
         baseUrl client = "https://test-api.creem.io/v1")
        /\ (isProductionPayment env = true ->
            truthy (env !! "CREEM_PROD_PAYMENT_URL") = false ->
            baseUrl client
            = if includes (apiKey client) "test"
              then "https://test-api.creem.io/v1"
              else "https://api.creem.io/v1")).
Proof.
  assert (Hdefault : forall (a : option string) d,
             truthy a = false -> or_default a d = d).
  { intros a d H. unfold or_default. rewrite H. reflexivity. }
  assert (Hgiven : forall k d, k <> "" -> or_default (Some k) d = k).
  { intros k d H. unfold or_default, truthy.
    destruct (String.eqb_spec k ""); [contradiction|reflexivity]. }
  assert (Htruthy : forall k, k <> "" -> truthy (Some k) = true).
  { intros k H. unfold truthy.
    destruct (String.eqb_spec k ""); [contradiction|reflexivity]. }
  unfold new_CreemPaymentClient. cbv zeta.
  split; [|split; [|split]].
  - intros Hkey Hconfigured. rewrite !(Hdefault key) by assumption.
    rewrite Hconfigured. reflexivity.
  - intros k -> Hk. rewrite !Hgiven, Htruthy by assumption.
    eexists. reflexivity.
  - intros Hkey Hconfigured. rewrite !(Hdefault key), Htruthy by assumption.
    eexists. reflexivity.
  - intros client Hnew Hshared. split.
    + intros Htest Hurl. revert Hnew.
      rewrite (proj1 (default_payment_url env Hshared) Htest Hurl).
      change (includes "https://test.creem.io/checkout" "test") with true.
      cbn [orb].
      destruct (negb _); [discriminate|]. intros [= <-]. reflexivity.
    + intros Hproduction Hurl. revert Hnew.
      rewrite (proj2 (default_payment_url env Hshared) Hproduction Hurl).
      change (includes "https://creem.io/checkout" "test") with false.
      cbn [orb].
      destruct (negb _); [discriminate|]. intros [= <-]. reflexivity.
Qed.

Lemma truthy_template (a : option string) : truthy a = true -> template a <> "".
Proof.
  destruct a as [v|]; cbn; [|discriminate].
  destruct (String.eqb_spec v ""); [discriminate|]. intros _. assumption.
Qed.

Lemma optional_carries (key : string) (value : option string) :
  Forall carries (optional key value).
Proof.
  unfold optional. destruct (truthy value) eqn:H; constructor; [|constructor].
  apply truthy_template, H.
Qed.

Lemma optional_keys (key : string) (value : option string) :
  map fst (optional key value) = if truthy value then [key] else [].
Proof. unfold optional. destruct (truthy value); reflexivity. Qed.

(** The names of the fields of the body [createCheckout] sends. *)
Lemma requestBody_keys (request : CheckoutRequest.t) :
  map fst (requestBody request)
  = ["product_id"]
    ++ (if truthy (CheckoutRequest.request_id request) then ["request_id"] else [])
    ++ (if truthy (CheckoutRequest.success_url request) then ["success_url"] else [])
    ++ (if truthy (CheckoutRequest.customer_email request) then ["customer"] else [])
    ++ (match CheckoutRequest.metadata request with
        | Some (_ :: _) => ["metadata"]
        | _ => []
        end)
    ++ (if truthy (CheckoutRequest.discount_code request)
        then ["discount_code"] else [])
    ++ (match CheckoutRequest.units request with
        | Some n => if n =? 0 then [] else ["units"]
        | None => []
        end)
    ++ (if truthy (CheckoutRequest.locale request) then ["locale"] else [])
    ++ (if truthy (CheckoutRequest.plan_type request) then ["plan_type"] else []).
Proof.
  unfold requestBody. rewrite !map_app, !optional_keys.
  repeat f_equal.
  - destruct (truthy (CheckoutRequest.customer_email request)); reflexivity.
  - destruct (CheckoutRequest.metadata request) as [[|entry entries]|];
      reflexivity.
  - destruct (CheckoutRequest.units request) as [n|]; [|reflexivity].
    destruct (n =? 0); reflexivity.
Qed.

(** Property X18.  The body [createCheckout] sends starts with the product
    id, names no field twice and holds no empty value: an option that is
    missing, empty, zero or an empty object is left out.  [cancel_url] is
    never sent, whatever the request holds for it. *)
Theorem requestBody_is_sparse
    (request : CheckoutRequest.t) (cancel : option string) :
  CheckoutRequest.product_id request <> "" ->
  head (requestBody request)
  = Some ("product_id", JString (CheckoutRequest.product_id request))
  /\ List.NoDup (map fst (requestBody request))
  /\ Forall carries (requestBody request)
  /\ ~ In "cancel_url" (map fst (requestBody request))
  /\ requestBody (with_cancel_url request cancel) = requestBody request.
Proof.
  intros Hproduct. split; [reflexivity|].
  split; [|split; [|split; [|reflexivity]]].
  - rewrite requestBody_keys.
    destruct (truthy (CheckoutRequest.request_id request));
      destruct (truthy (CheckoutRequest.success_url request));
      destruct (truthy (CheckoutRequest.customer_email request));
      destruct (CheckoutRequest.metadata request) as [[|entry entries]|];
      destruct (truthy (CheckoutRequest.discount_code request));
      destruct (CheckoutRequest.units request) as [n|];
      try destruct (n =? 0);
      destruct (truthy (CheckoutRequest.locale request));
      destruct (truthy (CheckoutRequest.plan_type request));
      cbn [app];
      repeat (constructor; [cbn; intuition discriminate|]); constructor.
  - unfold requestBody. rewrite !Forall_app.
    repeat split; try apply optional_carries.
    + constructor; [exact Hproduct|constructor].
    + destruct (truthy (CheckoutRequest.customer_email request));
        constructor; [|constructor]. cbn. discriminate.
    + destruct (CheckoutRequest.metadata request) as [[|entry entries]|];
        constructor; [|constructor]. cbn. discriminate.
    + destruct (CheckoutRequest.units request) as [n|]; [|constructor].
      destruct (Z.eqb_spec n 0); constructor; [|constructor]. cbn. assumption.
  - rewrite requestBody_keys.
    destruct (truthy (CheckoutRequest.request_id request));
      destruct (truthy (CheckoutRequest.success_url request));
      destruct (truthy (CheckoutRequest.customer_email request));
      destruct (CheckoutRequest.metadata request) as [[|entry entries]|];
      destruct (truthy (CheckoutRequest.discount_code request));
      destruct (CheckoutRequest.units request) as [n|];
      try destruct (n =? 0);
      destruct (truthy (CheckoutRequest.locale request));
      destruct (truthy (CheckoutRequest.plan_type request));
      cbn; intuition discriminate.
Qed.

Lemma requestBody_is_sparse_witness :
  List.NoDup (map fst (requestBody basic_plan))
  /\ ~ In "cancel_url" (map fst (requestBody basic_plan))
  /\ requestBody (with_cancel_url basic_plan (Some "https://example.com/back"))
     = requestBody basic_plan.
Proof.
  destruct (requestBody_is_sparse basic_plan (Some "https://example.com/back")
              ltac:(discriminate))
    as (_ & Hkeys & _ & Hcancel & Hsame).
  split; [exact Hkeys|]. split; [exact Hcancel|exact Hsame].
Defined.

(** Property X19.  [createCheckout] returns only for a non-empty product id
    and a 2xx answer with a JSON body.  An empty product id is refused
    before any request is made.  A non-2xx answer is thrown as
    ['Creem API error: {status} - {detail}'], the detail being the body's
    [message], else its [error], else ['Unknown error'], and for a body that
    is not JSON the raw text, or ['Unknown error'] when that is empty. *)
Theorem createCheckout_failures
    (process_env : gmap string string)
    (fetch : Http.request -> Completion Http.response)
    (this : CreemPaymentClient) (request : CheckoutRequest.t) :
  (CheckoutRequest.product_id request = "" ->
   createCheckout process_env fetch this request
   = Thrown (ErrorObject "product_id is required"))
  /\ (forall r,
        createCheckout process_env fetch this request = Normal r ->
        CheckoutRequest.product_id request <> ""
        /\ exists response data,
             fetch (checkout_request this request) = Normal response
             /\ Http.ok response = true
             /\ Http.json response = Normal data)
  /\ (forall response,
        CheckoutRequest.product_id request <> "" ->
        fetch (checkout_request this request) = Normal response ->
        Http.ok response = false ->
        createCheckout process_env fetch this request
        = Thrown
            (ErrorObject
               ("Creem API error: " +:+ pretty (Http.status response) +:+ " - "
                +:+ match Http.json response with
                    | Normal parsed =>
                        if truthy (Data.message parsed)
                        then template (Data.message parsed)
                        else if truthy (Data.error parsed)
                             then template (Data.error parsed)
                             else "Unknown error"
                    | Thrown _ =>
                        if String.eqb (Http.text response) ""
                        then "Unknown error"
                        else Http.text response
                    end))).
Proof.
  unfold createCheckout. fold (checkout_request this request).
  split; [|split].
  - intros ->. reflexivity.
  - intros r. unfold truthy at 1.
    destruct (String.eqb_spec (CheckoutRequest.product_id request) "");
      [discriminate|]. cbn [negb].
    destruct (fetch (checkout_request this request)) as [response|e];
      [|discriminate].
    destruct (Http.ok response) eqn:Hok; cbn [negb]; [|discriminate].
    destruct (Http.json response) as [data|e] eqn:Hjson; [|discriminate].
    intros _. split; [assumption|].
    exists response, data. repeat split; assumption.
  - intros response Hproduct Hfetch Hok. unfold truthy at 1.
    destruct (String.eqb_spec (CheckoutRequest.product_id request) "");
      [contradiction|]. cbn [negb].
    rewrite Hfetch, Hok. cbn [negb]. do 3 f_equal.
    destruct (Http.json response) as [parsed|e].
    + unfold or_default, or_else.
      destruct (truthy (Data.message parsed)) eqn:Hmessage;
        [rewrite Hmessage; reflexivity|].
      destruct (truthy (Data.error parsed)) eqn:Herror; reflexivity.
    + cbn [Data.message Data.error].
      destruct (String.eqb_spec (Http.text response) "") as [Htext|Htext].
      * rewrite Htext. reflexivity.
      * assert (Htruthy : truthy (Some (Http.text response)) = true).
        { unfold truthy.
          destruct (String.eqb_spec (Http.text response) "");
            [contradiction|reflexivity]. }
        unfold or_default at 2. rewrite Htruthy. cbn [template].
        unfold or_else. rewrite Htruthy. unfold or_default. rewrite Htruthy.
        reflexivity.
Qed.

Lemma blank_requestBody (productId : string) (options : CheckoutOptions.t) :
  blank options ->
  requestBody
    {| CheckoutRequest.product_id := productId;
       CheckoutRequest.request_id := CheckoutOptions.requestId options;
       CheckoutRequest.success_url := CheckoutOptions.successUrl options;
       CheckoutRequest.cancel_url := None;
       CheckoutRequest.customer_email :=
         if truthy (CheckoutOptions.userEmail options)
         then CheckoutOptions.userEmail options
         else None;
       CheckoutRequest.metadata := CheckoutOptions.metadata options;
       CheckoutRequest.discount_code := CheckoutOptions.discountCode options;
       CheckoutRequest.units := CheckoutOptions.units options;
       CheckoutRequest.locale := CheckoutOptions.locale options;
       CheckoutRequest.plan_type := CheckoutOptions.planType options |}
  = [("product_id", JString productId)].
Proof.
  intros (H1 & H2 & H3 & H4 & H5 & H6 & H7 & H8).
  unfold requestBody, optional.
  cbn [CheckoutRequest.product_id CheckoutRequest.request_id
       CheckoutRequest.success_url CheckoutRequest.customer_email
       CheckoutRequest.metadata CheckoutRequest.discount_code
       CheckoutRequest.units CheckoutRequest.locale CheckoutRequest.plan_type].
  rewrite H1, H2, H3, H5, H7, H8. cbn [truthy].
  destruct H4 as [-> | ->]; destruct H6 as [-> | ->]; reflexivity.
Qed.

(** Property X20.  Options that are all missing or falsy (empty strings, an
    empty metadata object, zero units) are dropped:
    [createCheckoutWithOptions] then sends the request of
    [createSimpleCheckout(productId)] and gives its result. *)
Theorem blank_options_are_dropped
    (process_env : gmap string string)
    (fetch : Http.request -> Completion Http.response)
    (this : CreemPaymentClient) (productId : string)
    (options : CheckoutOptions.t) :
  blank options ->
  createCheckoutWithOptions process_env fetch this productId options
  = createSimpleCheckout process_env fetch this productId None None.
Proof.
  intros Hblank.
  unfold createCheckoutWithOptions, createSimpleCheckout, createCheckout.
  rewrite (blank_requestBody productId options Hblank).
  reflexivity.
Qed.

Lemma blank_options_are_dropped_witness :
  createCheckoutWithOptions ∅ gateway test_client "prod_basic"
    {| CheckoutOptions.requestId := Some "";
       CheckoutOptions.successUrl := None;
       CheckoutOptions.userEmail := Some "";
       CheckoutOptions.metadata := Some [];
       CheckoutOptions.discountCode := None;
       CheckoutOptions.units := Some 0;
       CheckoutOptions.locale := Some "";
       CheckoutOptions.planType := None |}
  = createSimpleCheckout ∅ gateway test_client "prod_basic" None None.
Proof.
  apply blank_options_are_dropped.
  repeat split; first [reflexivity | left; reflexivity | right; reflexivity].
Defined.

Lemma form_urlencode_has_no_delimiter (s : string) :
  Forall (fun c => query_delimiter c = false) (characters (form_urlencode s)).
Proof.
  induction s as [|c s IH]; [constructor|].
  destruct c as [[] [] [] [] [] [] [] []];
    cbn -[form_urlencode];
    cbn [form_urlencode unreserved nat_of_ascii Ascii.eqb];
    cbn -[form_urlencode characters query_delimiter];
    cbn [characters]; repeat (constructor; [reflexivity|]); exact IH.
Qed.

Lemma form_urlencode_unreserved (s : string) :
  Forall (fun c => unreserved c = true) (characters s) ->
  form_urlencode s = s.
Proof.
  induction s as [|c s IH]; [reflexivity|].
  cbn [characters form_urlencode]. intros H.
  apply Forall_cons in H as [Hc Hs]. rewrite Hc, IH by assumption.
  reflexivity.
Qed.

(** Property X21.  [getCheckoutStatus] makes one GET request, without a
    body and with the client's key in [x-api-key], to
    [{baseUrl}/checkouts?checkout_id={id}] with [&success_url={url}] added
    for a non-empty success URL, both values form-encoded; its result depends
    on [fetch] through the answer to that request only: what [fetch] throws
    is thrown, a 2xx answer gives the parsed body or what the parser throws,
    and any other answer is thrown as ['Creem API error: {status} - '] with
    the body's [message] or ['Unknown error'].  An encoded value holds no
    [&], [=], [#], [?] or space, so a checkout id cannot add or end a
    parameter; an id of letters, digits, [*], [-], [.] and [_] is sent as it
    is. *)
Theorem getCheckoutStatus_request
    (fetch : Http.request -> Completion Http.response)
    (this : CreemPaymentClient) (checkoutId : string)
    (successUrl : option string) :
  getCheckoutStatus fetch this checkoutId successUrl
  = match
      fetch
        {| Http.url :=
             baseUrl this +:+ "/checkouts?checkout_id="
             +:+ form_urlencode checkoutId
             +:+ (if truthy successUrl
                  then "&success_url=" +:+ form_urlencode (template successUrl)
                  else "");
           Http.method := "GET";
           Http.headers :=
             [("content-type", "application/json"); ("x-api-key", apiKey this)];
           Http.body := [] |}
    with
    | Thrown e => Thrown e
    | Normal response =>
        if Http.ok response
        then Http.json response
        else
          Thrown
            (ErrorObject
               ("Creem API error: " +:+ pretty (Http.status response) +:+ " - "
                +:+ match Http.json response with
                    | Normal parsed =>
                        if truthy (Data.message parsed)
                        then template (Data.message parsed)
                        else "Unknown error"
                    | Thrown _ => "Unknown error"
                    end))
    end
  /\ Forall (fun c => query_delimiter c = false)
       (characters (form_urlencode checkoutId))
  /\ (Forall (fun c => unreserved c = true) (characters checkoutId) ->
      form_urlencode checkoutId = checkoutId).
Proof.
  split; [|split].
  - assert (Hurl :
      baseUrl this +:+ "/checkouts?"
      +:+ URLSearchParams_toString (status_params checkoutId successUrl)
      = baseUrl this +:+ "/checkouts?checkout_id="
        +:+ form_urlencode checkoutId
        +:+ (if truthy successUrl
             then "&success_url=" +:+ form_urlencode (template successUrl)
             else "")).
    { unfold status_params.
      assert (Hnil : forall a : string, a +:+ "" = a).
      { induction a as [|x a IH]; [reflexivity|].
        change (String x a +:+ "") with (String x (a +:+ "")).
        rewrite IH. reflexivity. }
      destruct (truthy successUrl); cbn [app URLSearchParams_toString].
      + reflexivity.
      + rewrite Hnil. reflexivity. }
    unfold getCheckoutStatus. rewrite Hurl.
    match goal with
    | |- context [fetch ?sent] => destruct (fetch sent) as [response|e]
    end; [|reflexivity].
    destruct (Http.ok response); cbn [negb].
    + destruct (Http.json response); reflexivity.
    + destruct (Http.json response) as [parsed|e]; reflexivity.
  - apply form_urlencode_has_no_delimiter.
  - apply form_urlencode_unreserved.
Qed.

(** Property X22.  The two entry points read a failed answer differently.
    For a non-2xx answer whose JSON body has no [message] but an [error]
    text, [createCheckout] throws that text and [getCheckoutStatus] throws
    ['Unknown error'], each after ['Creem API error: {status} - ']. *)
Theorem error_field_is_read_by_createCheckout_only
    (process_env : gmap string string)
    (fetch : Http.request -> Completion Http.response)
    (this : CreemPaymentClient) (request : CheckoutRequest.t)
    (checkoutId : string) (successUrl : option string)
    (status : Z) (text reason : string) (parsed : Data.t) :
  CheckoutRequest.product_id request <> "" ->
  (status < 200 \/ 299 < status) ->
  (forall sent, fetch sent = Normal (failed_with status text (Normal parsed))) ->
  truthy (Data.message parsed) = false ->
  Data.error parsed = Some reason ->
  reason <> "" ->
  createCheckout process_env fetch this request
  = Thrown (ErrorObject
              ("Creem API error: " +:+ pretty status +:+ " - " +:+ reason))
  /\ getCheckoutStatus fetch this checkoutId successUrl
     = Thrown (ErrorObject
                 ("Creem API error: " +:+ pretty status +:+ " - "
                  +:+ "Unknown error")).
Proof.
  intros Hproduct Hstatus Hfetch Hmessage Herror Hreason.
  assert (Hok : Http.ok (failed_with status text (Normal parsed)) = false).
  { unfold Http.ok, failed_with. cbn [Http.status].
    destruct (Z.leb_spec 200 status); destruct (Z.leb_spec status 299);
      try reflexivity; lia. }
  split.
  - unfold createCheckout, truthy at 1.
    destruct (String.eqb_spec (CheckoutRequest.product_id request) "");
      [contradiction|]. cbn [negb].
    rewrite Hfetch, Hok. cbn [negb failed_with Http.json Http.status].
    unfold or_else. rewrite Hmessage, Herror.
    unfold or_default, truthy.
    destruct (String.eqb_spec reason ""); [contradiction|reflexivity].
  - unfold getCheckoutStatus. rewrite Hfetch, Hok.
    cbn [negb failed_with Http.json Http.status].
    unfold or_default. rewrite Hmessage. reflexivity.
Qed.

Lemma error_field_is_read_by_createCheckout_only_witness :
  createCheckout ∅ declining test_client basic_plan
  = Thrown (ErrorObject "Creem API error: 402 - card declined")
  /\ getCheckoutStatus declining test_client "ch_123" None
     = Thrown (ErrorObject "Creem API error: 402 - Unknown error").
Proof.
  apply (error_field_is_read_by_createCheckout_only ∅ declining test_client
           basic_plan "ch_123" None 402 "" "card declined" only_an_error);
    first [discriminate | reflexivity | right; lia | intros; reflexivity].
Defined.

(* ===================================================================== *)
(** ** r2-upload: the sample videos                                       *)
(* ===================================================================== *)

Lemma uploadToR2_world env filePath key contentType w :
  snd (uploadToR2 env filePath key contentType w) = w.
Proof.
  unfold uploadToR2, try_catch, bind, existsSync, get, throw, ret.
  destruct (bool_decide (filePath ∈ files w)); cbn; [|reflexivity].
  destruct (send env key); reflexivity.
Qed.

Lemma uploadToR2_returned env filePath key contentType w url w' :
  uploadToR2 env filePath key contentType w = (Normal url, w') ->
  filePath ∈ files w /\ send env key = None /\ w' = w.
Proof.
  unfold uploadToR2, try_catch, bind, existsSync, get, throw, ret.
  destruct (bool_decide_reflect (filePath ∈ files w)) as [Hin|Hout]; cbn;
    [|discriminate].
  destruct (send env key); [discriminate|].
  intros Hrun. injection Hrun as _ <-. auto.
Qed.

Lemma unlink_ignoring_run env path w :
  unlink_ignoring env path w
  = (Normal tt,
     with_files w
       (if unlink_fails env path then files w else files w ∖ {[ path ]})).
Proof.
  unfold unlink_ignoring, try_catch, unlinkSync.
  destruct (unlink_fails env path).
  - rewrite with_files_id. reflexivity.
  - reflexivity.
Qed.

Lemma extractVideoThumbnail_run tools videoPath outputPath w :
  extractVideoThumbnail tools videoPath outputPath w
  = match screenshots tools videoPath with
    | Ended true => (Normal tt, with_files w ({[ outputPath ]} ∪ files w))
    | Ended false => (Normal tt, w)
    | Failed e => (Thrown e, w)
    end.
Proof.
  unfold extractVideoThumbnail.
  destruct (screenshots tools videoPath) as [[|]|e]; reflexivity.
Qed.

(** What a run of [processAndUploadVideo] leaves, by the way it ends. *)
Lemma processAndUploadVideo_cases tools env videoPath videoTitle w :
  let temp := tempThumbnailPath tools videoPath in
  let run := processAndUploadVideo tools env videoPath videoTitle w in
  same_tables w (snd run)
  /\ match screenshots tools videoPath with
     | Failed e => run = (Thrown e, w)
     | Ended written =>
         let taken := if written then {[ temp ]} ∪ files w else files w in
         match fst run with
         | Thrown _ => files (snd run) = taken
         | Normal _ =>
             videoPath ∈ taken /\ temp ∈ taken
             /\ files (snd run)
                = (if unlink_fails env temp then taken else taken ∖ {[ temp ]})
         end
     end.
Proof.
  intros temp run.
  assert (Hrun : run = processAndUploadVideo tools env videoPath videoTitle w)
    by reflexivity.
  clearbody run. unfold processAndUploadVideo, try_catch in Hrun.
  cbv zeta in Hrun. fold temp in Hrun.
  unfold bind at 1 in Hrun. rewrite extractVideoThumbnail_run in Hrun.
  destruct (screenshots tools videoPath) as [written|e].
  2:{ subst run. split; [apply same_tables_refl|reflexivity]. }
  set (w1 := if written then with_files w ({[ temp ]} ∪ files w) else w).
  assert (Htables : same_tables w w1).
  { subst w1. destruct written; repeat split. }
  assert (Hfiles : files w1 = if written then {[ temp ]} ∪ files w else files w).
  { subst w1. destruct written; reflexivity. }
  replace (if written
           then (Normal tt, with_files w ({[ temp ]} ∪ files w))
           else (Normal tt, w)) with (@Normal unit tt, w1) in Hrun
    by (subst w1; destruct written; reflexivity).
  cbv zeta. rewrite <- Hfiles. clearbody w1.
  unfold bind at 1 in Hrun.
  match type of Hrun with
  | context [uploadToR2 env videoPath ?k ?c w1] =>
      pose proof (uploadToR2_world env videoPath k c w1) as Hw;
      destruct (uploadToR2 env videoPath k c w1) as [[videoUrl|e] w2] eqn:Hvideo
  end; cbn [snd] in Hw; subst w2.
  2:{ subst run. cbn [fst snd throw]. split; [exact Htables|reflexivity]. }
  apply uploadToR2_returned in Hvideo as (Hin & _ & _).
  unfold bind at 1 in Hrun.
  match type of Hrun with
  | context [uploadToR2 env temp ?k ?c w1] =>
      pose proof (uploadToR2_world env temp k c w1) as Hw;
      destruct (uploadToR2 env temp k c w1) as [[thumbnailUrl|e] w2] eqn:Hthumb
  end; cbn [snd] in Hw; subst w2.
  2:{ subst run. cbn [fst snd throw]. split; [exact Htables|reflexivity]. }
  apply uploadToR2_returned in Hthumb as (Hin' & _ & _).
  unfold bind at 1 in Hrun. rewrite unlink_ignoring_run in Hrun.
  subst run. cbn [fst snd ret].
  split.
  - eapply same_tables_trans; [exact Htables|]. repeat split.
  - split; [exact Hin|]. split; [exact Hin'|]. reflexivity.
Qed.

Lemma processAndUploadVideo_keeps tools env videoPath videoTitle w p :
  p ∈ files w -> p <> tempThumbnailPath tools videoPath ->
  p ∈ files (snd (processAndUploadVideo tools env videoPath videoTitle w)).
Proof.
  intros Hin Hne.
  destruct (processAndUploadVideo_cases tools env videoPath videoTitle w)
    as [_ Hcases].
  cbv zeta in Hcases.
  destruct (screenshots tools videoPath) as [written|e].
  - assert (Htaken : p ∈ (if written
                          then {[ tempThumbnailPath tools videoPath ]} ∪ files w
                          else files w)).
    { destruct written; [apply elem_of_union; right|]; exact Hin. }
    destruct (fst (processAndUploadVideo tools env videoPath videoTitle w)).
    + destruct Hcases as (_ & _ & ->).
      destruct (unlink_fails env (tempThumbnailPath tools videoPath));
        [exact Htaken|].
      apply elem_of_difference. split; [exact Htaken|].
      rewrite elem_of_singleton. exact Hne.
    + rewrite Hcases. exact Htaken.
  - rewrite Hcases. exact Hin.
Qed.

Lemma endsWith_suffix (s suffix : string) :
  endsWith s suffix = true <-> exists front, s = front +:+ suffix.
Proof.
  split.
  - induction s as [|c s IH]; cbn [endsWith]; intros H.
    + apply orb_true_iff in H as [H|H]; [|discriminate].
      apply String.eqb_eq in H. exists "". exact H.
    + apply orb_true_iff in H as [H|H].
      * apply String.eqb_eq in H. exists "". exact H.
      * destruct (IH H) as [front ->]. exists (String c front). reflexivity.
  - intros [front ->]. induction front as [|c front IH].
    + change ("" +:+ suffix) with suffix.
      destruct suffix; cbn [endsWith]; rewrite String.eqb_refl; reflexivity.
    + change (String c front +:+ suffix) with (String c (front +:+ suffix)).
      cbn [endsWith]. rewrite IH. apply orb_true_r.
Qed.

Lemma upload_each_run tools env dir videoFiles :
  forall results w,
    exists added w',
      upload_each tools env dir videoFiles results w
      = (Normal (results ++ added), w')
      /\ map Sample.id added
         = map (fun i => "fallback-" +:+ pretty (Z.of_nat i))
             (seq (S (length results)) (length added))
      /\ sublist (map Sample.originalFilename added) videoFiles
      /\ Forall (fun row =>
                   Sample.title row
                   = basename tools (Sample.originalFilename row) (Some ".mp4"))
           added
      /\ same_tables w w'
      /\ (forall p,
             p ∈ files w ->
             (forall file, p <> tempThumbnailPath tools (path_join dir file)) ->
             p ∈ files w').
Proof.
  induction videoFiles as [|file rest IH]; intros results w.
  - exists [], w. cbn [upload_each ret]. rewrite app_nil_r.
    split; [reflexivity|]. split; [reflexivity|].
    split; [constructor|]. split; [constructor|].
    split; [apply same_tables_refl|]. intros p Hin _. exact Hin.
  - cbn [upload_each]. unfold bind at 1. unfold try_catch, bind at 1.
    pose proof (processAndUploadVideo_cases tools env (path_join dir file)
                  (basename tools file (Some ".mp4")) w) as [Htables _].
    pose proof (processAndUploadVideo_keeps tools env (path_join dir file)
                  (basename tools file (Some ".mp4")) w) as Hkeeps.
    destruct (processAndUploadVideo tools env (path_join dir file)
                (basename tools file (Some ".mp4")) w) as [[uploaded|e] w1].
    + cbn [snd ret] in *.
      set (row := {| Sample.id :=
                       "fallback-" +:+ pretty (Z.of_nat (length results) + 1);
                     Sample.title := basename tools file (Some ".mp4");
                     Sample.videoUrl := Uploaded.videoUrl uploaded;
                     Sample.thumbnailUrl := Uploaded.thumbnailUrl uploaded;
                     Sample.originalFilename := file |}).
      destruct (IH (results ++ [row]) w1)
        as (added & w' & Hrun & Hids & Hsub & Htitles & Htables' & Hfiles).
      exists (row :: added), w'.
      split. { rewrite Hrun, <- app_assoc. reflexivity. }
      split.
      { cbn [map length seq]. f_equal.
        - cbn [Sample.id row]. do 2 f_equal. lia.
        - rewrite Hids. rewrite length_app. cbn [length].
          replace (length results + 1)%nat with (S (length results)) by lia.
          reflexivity. }
      split. { cbn [map Sample.originalFilename row]. constructor. exact Hsub. }
      split. { constructor; [reflexivity|exact Htitles]. }
      split. { eapply same_tables_trans; eassumption. }
      intros p Hin Hne. apply Hfiles; [|exact Hne].
      apply Hkeeps; [exact Hin|apply Hne].
    + cbn [snd ret] in *.
      destruct (IH results w1)
        as (added & w' & Hrun & Hids & Hsub & Htitles & Htables' & Hfiles).
      exists added, w'.
      split; [exact Hrun|]. split; [exact Hids|].
      split. { constructor. exact Hsub. }
      split; [exact Htitles|].
      split. { eapply same_tables_trans; eassumption. }
      intros p Hin Hne. apply Hfiles; [|exact Hne].
      apply Hkeeps; [exact Hin|apply Hne].
Qed.

Lemma filter_all {A} (f : A -> bool) (l : list A) :
  Forall (fun x => f x = true) (List.filter f l).
Proof.
  induction l as [|x l IH]; cbn [List.filter]; [constructor|].
  destruct (f x) eqn:Hx; [constructor; assumption|exact IH].
Qed.

Lemma sublist_all {A} (P : A -> Prop) (l1 l2 : list A) :
  sublist l1 l2 -> Forall P l2 -> Forall P l1.
Proof.
  induction 1 as [|x l1 l2 _ IH|x l1 l2 _ IH]; intros Hall.
  - constructor.
  - inversion Hall; subst. constructor; auto.
  - inversion Hall; subst. auto.
Qed.

Lemma uploadSampleVideos_cases tools env w :
  match readdir tools (path_join (cwd env) "sample_videos") with
  | Thrown e => uploadSampleVideos tools env w = (Thrown e, w)
  | Normal listed =>
      exists results w',
        uploadSampleVideos tools env w = (Normal results, w')
        /\ map Sample.id results = fallback_ids (length results)
        /\ sublist (map Sample.originalFilename results)
             (List.filter (fun file => endsWith file ".mp4") listed)
        /\ Forall (fun row =>
                     Sample.title row
                     = basename tools (Sample.originalFilename row)
                         (Some ".mp4"))
             results
        /\ same_tables w w'
        /\ (forall p,
               p ∈ files w ->
               (forall file,
                   p <> tempThumbnailPath tools
                          (path_join (path_join (cwd env) "sample_videos") file)) ->
               p ∈ files w')
  end.
Proof.
  unfold uploadSampleVideos, try_catch. cbv zeta.
  destruct (readdir tools (path_join (cwd env) "sample_videos"))
    as [listed|e]; [|reflexivity].
  destruct (upload_each_run tools env (path_join (cwd env) "sample_videos")
              (List.filter (fun file => endsWith file ".mp4") listed) [] w)
    as (added & w' & Hrun & Hids & Hsub & Htitles & Htables & Hfiles).
  exists added, w'. rewrite Hrun. cbn [app].
  split; [reflexivity|]. split; [exact Hids|]. split; [exact Hsub|].
  split; [exact Htitles|]. split; [exact Htables|exact Hfiles].
Qed.

(** Property X23.  When [processAndUploadVideo] returns and its temporary
    thumbnail could be unlinked, the local files are those from before
    without [/tmp/thumbnail-<Date.now()>.jpg]: the frame it took is gone
    again, every other file is still there, and no table was touched. *)
Theorem processAndUploadVideo_removes_its_thumbnail
    (tools : Toolbox) (env : Pipeline) (videoPath videoTitle : string)
    (w : World) (uploaded : Uploaded.t) (w' : World) :
  processAndUploadVideo tools env videoPath videoTitle w = (Normal uploaded, w') ->
  unlink_fails env (tempThumbnailPath tools videoPath) = false ->
  files w' = files w ∖ {[ tempThumbnailPath tools videoPath ]}
  /\ same_tables w w'.
Proof.
  intros Hrun Hunlink.
  destruct (processAndUploadVideo_cases tools env videoPath videoTitle w)
    as [Htables Hcases].
  cbv zeta in Hcases. rewrite Hrun in Htables, Hcases.
  cbn [fst snd] in Htables, Hcases. split; [|exact Htables].
  destruct (screenshots tools videoPath) as [written|e]; [|discriminate].
  destruct Hcases as (_ & _ & ->). rewrite Hunlink.
  destruct written; [|reflexivity].
  apply set_eq. intros x.
  rewrite !elem_of_difference, elem_of_union, elem_of_singleton. tauto.
Qed.

Lemma processAndUploadVideo_removes_its_thumbnail_witness :
  files (snd (processAndUploadVideo sample_tools all_well
                "/app/sample_videos/rain.mp4" "rain" sample_disk))
  = files sample_disk
      ∖ {[ tempThumbnailPath sample_tools "/app/sample_videos/rain.mp4" ]}.
Proof.
  destruct (processAndUploadVideo sample_tools all_well
              "/app/sample_videos/rain.mp4" "rain" sample_disk)
    as [[uploaded|e] w'] eqn:Hrun.
  - cbn [snd].
    exact (proj1 (processAndUploadVideo_removes_its_thumbnail sample_tools
                    all_well _ _ sample_disk uploaded w' Hrun eq_refl)).
  - exfalso. vm_compute in Hrun. discriminate.
Defined.

(** Property X24.  When [processAndUploadVideo] throws, the temporary
    thumbnail is not cleaned up: if ffmpeg wrote the frame, the frame is
    left in [/tmp] whatever failed afterwards.  If ffmpeg itself failed, its
    error is the one thrown and nothing has changed.  No table is touched
    in any case. *)
Theorem processAndUploadVideo_failures
    (tools : Toolbox) (env : Pipeline) (videoPath videoTitle : string)
    (w : World) (e : JsValue) (w' : World) :
  processAndUploadVideo tools env videoPath videoTitle w = (Thrown e, w') ->
  same_tables w w'
  /\ match screenshots tools videoPath with
     | Failed reason => e = reason /\ w' = w
     | Ended true => files w' = {[ tempThumbnailPath tools videoPath ]} ∪ files w
     | Ended false => files w' = files w
     end.
Proof.
  intros Hrun.
  destruct (processAndUploadVideo_cases tools env videoPath videoTitle w)
    as [Htables Hcases].
  cbv zeta in Hcases. rewrite Hrun in Htables, Hcases.
  cbn [fst snd] in Htables, Hcases. split; [exact Htables|].
  destruct (screenshots tools videoPath) as [[|]|reason].
  - exact Hcases.
  - exact Hcases.
  - injection Hcases as -> ->. split; reflexivity.
Qed.

Lemma processAndUploadVideo_failures_witness :
  tempThumbnailPath sample_tools "/app/sample_videos/rain.mp4"
  ∈ files (snd (processAndUploadVideo sample_tools bucket_refusing
                  "/app/sample_videos/rain.mp4" "rain" sample_disk)).
Proof.
  destruct (processAndUploadVideo sample_tools bucket_refusing
              "/app/sample_videos/rain.mp4" "rain" sample_disk)
    as [[uploaded|e] w'] eqn:Hrun.
  - exfalso. vm_compute in Hrun. discriminate.
  - cbn [snd].
    pose proof (proj2 (processAndUploadVideo_failures sample_tools
                         bucket_refusing _ _ sample_disk e w' Hrun)) as Hfiles.
    change (screenshots sample_tools "/app/sample_videos/rain.mp4")
      with (Ended true) in Hfiles.
    rewrite Hfiles. apply elem_of_union. left. apply elem_of_singleton.
    reflexivity.
Defined.


(** Property X26.  The ids of the results of [uploadSampleVideos] are
    [fallback-1], [fallback-2], ... up to the number of results, without a
    gap where a video was skipped.  Every result is for a file whose name
    ends in [.mp4], and its title is the base name of that file without
    [.mp4]. *)
Theorem uploadSampleVideos_ids_are_consecutive
    (tools : Toolbox) (env : Pipeline) (w : World)
    (results : list Sample.t) (w' : World) :
  uploadSampleVideos tools env w = (Normal results, w') ->
  map Sample.id results = fallback_ids (length results)
  /\ Forall (fun row =>
               (exists stem, Sample.originalFilename row = stem +:+ ".mp4")
               /\ Sample.title row
                  = basename tools (Sample.originalFilename row) (Some ".mp4"))
       results.
Proof.
  intros Hrun.
  pose proof (uploadSampleVideos_cases tools env w) as Hcases.
  destruct (readdir tools (path_join (cwd env) "sample_videos"))
    as [listed|e]; [|rewrite Hrun in Hcases; discriminate].
  destruct Hcases as (results0 & w0 & Hrun0 & Hids & Hsub & Htitles & _).
  rewrite Hrun in Hrun0. injection Hrun0 as <- <-.
  split; [exact Hids|].
  assert (Hnames : Forall (fun file => endsWith file ".mp4" = true)
                     (map Sample.originalFilename results)).
  { eapply sublist_all; [exact Hsub|apply filter_all]. }
  rewrite Forall_map in Hnames.
  rewrite Forall_forall in *. intros row Hrow. split.
  - apply endsWith_suffix. apply Hnames. exact Hrow.
  - apply Htitles. exact Hrow.
Qed.

Lemma uploadSampleVideos_ids_are_consecutive_witness :
  exists results w',
    uploadSampleVideos sample_tools all_well sample_disk = (Normal results, w')
    /\ map Sample.originalFilename results = ["rain.mp4"; "fire.mp4"]
    /\ map Sample.id results = ["fallback-1"; "fallback-2"].
Proof.
  destruct (uploadSampleVideos sample_tools all_well sample_disk)
    as [[results|e] w'] eqn:Hrun.
  - exists results, w'. split; [reflexivity|].
    destruct (uploadSampleVideos_ids_are_consecutive sample_tools all_well
                sample_disk results w' Hrun) as [Hids _].
    rewrite Hids. vm_compute in Hrun. injection Hrun as <- _.
    split; reflexivity.
  - exfalso. vm_compute in Hrun. discriminate.
Defined.
